(** * IATI-Stats: the statistics of [stats/analytics.py] and the currency
    conversion of [helpers/currency_conversion], embedded in Rocq.

    The Python code is embedded shallowly: an lxml element is a record, a
    Python exception is the [Raise] case of a result monad, a Python [float]
    is a binary64 primitive float, a [decimal.Decimal] is a value of the
    [Decimal] module below, dictionaries are finite maps ([gmap]) or, where
    the insertion order decides the outcome, association lists. *)

From Stdlib Require Import ZArith NArith Bool List String Ascii Lia.
From Stdlib Require Import Floats SpecFloat QArith Qpower Qcanon Lqa.
From stdpp Require Import base option list gmap strings fin_maps pretty.

#[local] Set Warnings "-register-all,-inexact-float".

Local Open Scope string_scope.
Local Open Scope Z_scope.

(** ** Python exceptions *)

Inductive exn : Set :=
| KeyError | ZeroDivisionError | ValueError | AttributeError
| TypeError | InvalidOperation | Overflow.

Inductive result (A : Type) : Type :=
| Return (a : A)
| Raise (e : exn).
Arguments Return {A} a.
Arguments Raise {A} e.

(** Sequencing: the first exception raised ends the computation. *)
Definition bind {A B} (m : result A) (f : A -> result B) : result B :=
  match m with Return a => f a | Raise e => Raise e end.

Notation "x <- m ;; k" := (bind m (fun x => k))
  (at level 100, m at next level, right associativity).

(** [try: c except e: h] for one exception class. *)
Definition try_except {A} (c : result A) (caught : exn -> bool) (h : result A) : result A :=
  match c with
  | Return a => Return a
  | Raise e => if caught e then h else Raise e
  end.

Definition exn_eqb (a b : exn) : bool :=
  match a, b with
  | KeyError, KeyError | ZeroDivisionError, ZeroDivisionError
  | ValueError, ValueError | AttributeError, AttributeError
  | TypeError, TypeError | InvalidOperation, InvalidOperation
  | Overflow, Overflow => true
  | _, _ => false
  end.

(** [all(f(x) for x in l)] where [f] may raise: the generator is consumed
    from the left and stops at the first false value. *)
Fixpoint all_m {A} (f : A -> result bool) (l : list A) : result bool :=
  match l with
  | [] => Return true
  | x :: l' =>
      match f x with
      | Raise e => Raise e
      | Return false => Return false
      | Return true => all_m f l'
      end
  end.

(** [[f(x) for x in l]] where [f] may raise. *)
Fixpoint map_m {A B} (f : A -> result B) (l : list A) : result (list B) :=
  match l with
  | [] => Return []
  | x :: l' =>
      match f x with
      | Raise e => Raise e
      | Return y => match map_m f l' with
                    | Raise e => Raise e
                    | Return ys => Return (y :: ys)
                    end
      end
  end.

(** ** Python strings (ASCII) *)

Module PyStr.

Definition eqb (a b : string) : bool := String.eqb a b.

(** [s.isascii()]: the texts the embedding covers. Python reads digits
    and whitespace outside ASCII as numbers and blanks too; the embedding
    of [Decimal] and [int] below does not, so what is proved about the
    text of a number is proved for ASCII text. *)
Fixpoint is_ascii (s : string) : bool :=
  match s with
  | EmptyString => true
  | String c s' => (nat_of_ascii c <? 128)%nat && is_ascii s'
  end.

Definition mem (s : string) (l : list string) : bool := existsb (String.eqb s) l.

(** [s.startswith(p)] *)
Definition startswith (s p : string) : bool := String.prefix p s.

(** The characters [str.strip()] removes, within ASCII: tab, line feed,
    vertical tab, form feed, carriage return, the separators 28..31 and
    space. *)
Definition is_space (c : ascii) : bool :=
  let n := nat_of_ascii c in
  ((9 <=? n) && (n <=? 13) || (28 <=? n) && (n <=? 32))%nat.

Fixpoint lstrip (s : string) : string :=
  match s with
  | String c s' => if is_space c then lstrip s' else s
  | EmptyString => EmptyString
  end.

Fixpoint rstrip (s : string) : string :=
  match s with
  | EmptyString => EmptyString
  | String c s' =>
      match rstrip s' with
      | EmptyString => if is_space c then EmptyString else String c EmptyString
      | r => String c r
      end
  end.

Definition strip (s : string) : string := rstrip (lstrip s).

(** [s.replace(c, '')] for a one-character [c]. *)
Fixpoint remove_char (c : ascii) (s : string) : string :=
  match s with
  | EmptyString => EmptyString
  | String d s' => if Ascii.eqb c d then remove_char c s' else String d (remove_char c s')
  end.

(** [s.split(c)] for a one-character separator: always at least one field. *)
Fixpoint split (c : ascii) (s : string) : list string :=
  match s with
  | EmptyString => [EmptyString]
  | String d s' =>
      if Ascii.eqb c d then EmptyString :: split c s'
      else match split c s' with
           | f :: fs => String d f :: fs
           | [] => [String d EmptyString]
           end
  end.

Definition is_digit (c : ascii) : bool :=
  let n := nat_of_ascii c in ((48 <=? n) && (n <=? 57))%nat.

Definition digit_val (c : ascii) : N := N.of_nat (nat_of_ascii c - 48).

(** Value of a string of decimal digits, most significant first. *)
Fixpoint digits_val_acc (acc : N) (s : string) : N :=
  match s with
  | EmptyString => acc
  | String c s' => digits_val_acc (10 * acc + digit_val c)%N s'
  end.

Definition digits_val (s : string) : N := digits_val_acc 0 s.

Fixpoint all_digits (s : string) : bool :=
  match s with
  | EmptyString => true
  | String c s' => is_digit c && all_digits s'
  end.

(** The string without its leading zeros. *)
Fixpoint lstrip_zeros (s : string) : string :=
  match s with
  | String c s' => if Ascii.eqb c "0" then lstrip_zeros s' else s
  | EmptyString => EmptyString
  end.

(** ASCII lower-casing, for case-insensitive matching. *)
Definition lower (c : ascii) : ascii :=
  let n := nat_of_ascii c in
  if ((65 <=? n) && (n <=? 90))%nat then ascii_of_nat (n + 32) else c.

Fixpoint lower_s (s : string) : string :=
  match s with
  | EmptyString => EmptyString
  | String c s' => String (lower c) (lower_s s')
  end.

(** Longest prefix of digits, and the rest. *)
Fixpoint span_digits (s : string) : string * string :=
  match s with
  | String c s' =>
      if is_digit c then let '(d, r) := span_digits s' in (String c d, r)
      else (EmptyString, s)
  | EmptyString => (EmptyString, EmptyString)
  end.

End PyStr.

(** ** [decimal.Decimal]

    The part of Python's [decimal] module the statistics use, as CPython's
    implementation of it in C behaves on a 64-bit build, under the
    default context (precision 28, ROUND_HALF_EVEN, Emax 999999,
    Emin -999999, traps on InvalidOperation, DivisionByZero and Overflow). *)

Module Decimal.

Inductive decimal : Set :=
| Fin (sign : bool) (coef : N) (exp : Z)   (* (-1)^sign * coef * 10^exp *)
| Inf (sign : bool)
| NaN (signaling : bool).

Definition ctx_prec : Z := 28.
Definition Emax : Z := 999999.
Definition Emin : Z := -999999.
Definition Etiny : Z := Emin - ctx_prec + 1.
Definition Etop : Z := Emax - ctx_prec + 1.

(** [Decimal(n)] for a Python int. *)
Definition of_Z (n : Z) : decimal := Fin (n <? 0) (Z.abs_N n) 0.

(** Number of decimal digits of a coefficient ([len(self._int)]): the
    coefficient 0 has one digit. *)
Fixpoint ndigits_fuel (fuel : nat) (n : N) : Z :=
  match fuel with
  | O => 1
  | S f => if (n <? 10)%N then 1 else 1 + ndigits_fuel f (n / 10)%N
  end.

Definition ndigits (n : N) : Z := ndigits_fuel (N.to_nat (N.size n)) n.

(** *** [Decimal(str)] *)

Definition parse_sign (s : string) : bool * string :=
  match s with
  | String c r =>
      if Ascii.eqb c "-" then (true, r)
      else if Ascii.eqb c "+" then (false, r)
      else (false, s)
  | EmptyString => (false, s)
  end.

Definition nonempty (s : string) : bool :=
  match s with EmptyString => false | _ => true end.

(** The exponent part after the letter E: [[-+]?\d+]. *)
Definition parse_exponent (s : string) : option Z :=
  let '(neg, r) := parse_sign s in
  if nonempty r && PyStr.all_digits r
  then Some (if neg then - Z.of_N (PyStr.digits_val r) else Z.of_N (PyStr.digits_val r))
  else None.

(** The bounds of [Decimal(str)], which converts exactly or not at all:
    [decimal.MAX_PREC], [decimal.MAX_EMAX] and [decimal.MIN_ETINY]. *)
Definition MAX_PREC : Z := 999999999999999999.
Definition MAX_EMAX : Z := 999999999999999999.
Definition MIN_ETINY : Z := -1999999999999999997.

(** A number: digits with an optional fractional part and exponent, at
    least one digit before the exponent. The number is refused when it
    has more than [MAX_PREC] fractional digits or significant digits,
    when its exponent is below [MIN_ETINY] and when its adjusted exponent
    (the exponent of its first digit) is above [MAX_EMAX]. *)
Definition parse_number (neg : bool) (s : string) : option decimal :=
  let '(intpart, r1) := PyStr.span_digits s in
  let '(fracpart, r2) :=
    match r1 with
    | String c r => if Ascii.eqb c "." then PyStr.span_digits r else (EmptyString, r1)
    | EmptyString => (EmptyString, r1)
    end in
  if nonempty intpart || nonempty fracpart then
    let coef := PyStr.digits_val (intpart ++ fracpart) in
    let fracdigits := Z.of_nat (String.length fracpart) in
    let mk e :=
      let exp := e - fracdigits in
      if (fracdigits <=? MAX_PREC) && (ndigits coef <=? MAX_PREC)
         && (MIN_ETINY <=? exp) && (exp + ndigits coef - 1 <=? MAX_EMAX)
      then Some (Fin neg coef exp)
      else None in
    match r2 with
    | EmptyString => mk 0
    | String c r3 =>
        if Ascii.eqb (PyStr.lower c) "e"
        then match parse_exponent r3 with Some e => mk e | None => None end
        else None
    end
  else None.

(** The diagnostic digits of a NaN: leading zeros do not count, at most
    [MAX_PREC] digits may follow them. *)
Definition parse_payload (s : string) : bool :=
  PyStr.all_digits s && (Z.of_nat (String.length (PyStr.lstrip_zeros s)) <=? MAX_PREC).

(** [Inf], [Infinity], [NaN] and [sNaN] with diagnostic digits, in any
    letter case. *)
Definition parse_special (neg : bool) (s : string) : option decimal :=
  let l := PyStr.lower_s s in
  if String.eqb l "inf" || String.eqb l "infinity" then Some (Inf neg)
  else if String.prefix "nan" l && parse_payload (String.substring 3 (String.length l - 3) l)
  then Some (NaN false)
  else if String.prefix "snan" l && parse_payload (String.substring 4 (String.length l - 4) l)
  then Some (NaN true)
  else None.

(** [Decimal(value)] for a str: surrounding whitespace is stripped and
    underscores are removed before the numeric string is matched; a
    string that does not match, or whose number is out of bounds, raises
    InvalidOperation. *)
Definition of_string (value : string) : result decimal :=
  let s := PyStr.remove_char "_" (PyStr.strip value) in
  let '(neg, r) := parse_sign s in
  match parse_number neg r with
  | Some d => Return d
  | None =>
      match parse_special neg r with
      | Some d => Return d
      | None => Raise InvalidOperation
      end
  end.

(** *** Comparison *)

Definition signed (s : bool) (c : N) : Z := if s then - Z.of_N c else Z.of_N c.

(** Numeric order of two numbers that are not NaN ([Decimal._cmp]). *)
Definition cmp (a b : decimal) : comparison :=
  match a, b with
  | Fin sa ca ea, Fin sb cb eb =>
      let e := Z.min ea eb in
      Z.compare (signed sa ca * 10 ^ (ea - e)) (signed sb cb * 10 ^ (eb - e))
  | Inf sa, Inf sb => if Bool.eqb sa sb then Eq else if sa then Lt else Gt
  | Inf sa, _ => if sa then Lt else Gt
  | _, Inf sb => if sb then Gt else Lt
  | _, _ => Eq
  end.

Definition is_nan (a : decimal) : bool := match a with NaN _ => true | _ => false end.
Definition is_snan (a : decimal) : bool := match a with NaN true => true | _ => false end.

(** [a == b]: a signaling NaN raises, a quiet NaN is unequal to everything. *)
Definition eq (a b : decimal) : result bool :=
  if is_snan a || is_snan b then Raise InvalidOperation
  else if is_nan a || is_nan b then Return false
  else Return (match cmp a b with Eq => true | _ => false end).

(** [a < b] and [a > b]: any NaN raises InvalidOperation. *)
Definition lt (a b : decimal) : result bool :=
  if is_nan a || is_nan b then Raise InvalidOperation
  else Return (match cmp a b with Lt => true | _ => false end).

Definition gt (a b : decimal) : result bool :=
  if is_nan a || is_nan b then Raise InvalidOperation
  else Return (match cmp a b with Gt => true | _ => false end).

(** *** Rounding to the context ([Decimal._fix]) *)

Definition fix_ (sign : bool) (coef : N) (exp : Z) : result decimal :=
  if (coef =? 0)%N then Return (Fin sign 0 (Z.min (Z.max exp Etiny) Emax))
  else
    let exp_min0 := ndigits coef + exp - ctx_prec in
    if Etop <? exp_min0 then Raise Overflow
    else
      let exp_min := Z.max exp_min0 Etiny in
      if exp <? exp_min then
        let p := (10 ^ Z.to_N (exp_min - exp))%N in
        let q := (coef / p)%N in
        let r := (coef mod p)%N in
        let up := ((p <? 2 * r) || ((2 * r =? p) && N.odd q))%N in
        let c1 := if up then (q + 1)%N else q in
        let '(c2, e2) := if ctx_prec <? ndigits c1 then ((c1 / 10)%N, exp_min + 1)
                         else (c1, exp_min) in
        if Etop <? e2 then Raise Overflow else Return (Fin sign c2 e2)
      else Return (Fin sign coef exp).

(** *** [a + b] *)

Definition add (a b : decimal) : result decimal :=
  if is_snan a || is_snan b then Raise InvalidOperation
  else if is_nan a || is_nan b then Return (NaN false)
  else
    match a, b with
    | Inf sa, Inf sb => if Bool.eqb sa sb then Return (Inf sa) else Raise InvalidOperation
    | Inf sa, _ => Return (Inf sa)
    | _, Inf sb => Return (Inf sb)
    | Fin sa ca ea, Fin sb cb eb =>
        let e := Z.min ea eb in
        let z := signed sa ca * 10 ^ (ea - e) + signed sb cb * 10 ^ (eb - e) in
        let sign := if z =? 0 then (ca =? 0)%N && (cb =? 0)%N && sa && sb else z <? 0 in
        fix_ sign (Z.abs_N z) e
    | _, _ => Return (NaN false)
    end.

(** *** Conversions from and to [float] *)

(** Lowest terms of m * 2^e for e < 0. *)
Fixpoint lowest (m : positive) (e : Z) : positive * Z :=
  match m with
  | xO m' => if e <? 0 then lowest m' (e + 1) else (m, e)
  | _ => (m, e)
  end.

(** [Decimal(f)] for a float: the exact value of the float. *)
Definition of_float (f : float) : decimal :=
  match Prim2SF f with
  | S754_zero s => Fin s 0 0
  | S754_infinity s => Inf s
  | S754_nan => NaN false
  | S754_finite s m e =>
      if 0 <=? e then Fin s (Npos m * 2 ^ Z.to_N e) 0
      else let '(n, e') := lowest m e in
           Fin s (Npos n * 5 ^ Z.to_N (- e')) e'
  end.

(** [float(d)]: the binary64 value nearest to the decimal (ties to even),
    an infinity beyond the range; a signaling NaN raises ValueError. *)
Definition to_float (d : decimal) : result float :=
  match d with
  | NaN true => Raise ValueError
  | NaN false => Return nan
  | Inf s => Return (if s then neg_infinity else infinity)
  | Fin s N0 _ => Return (if s then (-0)%float else 0%float)
  | Fin s (Npos c) e =>
      let num := if 0 <=? e then (c * Z.to_pos (10 ^ e))%positive else c in
      let den := if 0 <=? e then 1%positive else Z.to_pos (10 ^ (- e)) in
      Return (SF2Prim (SFdiv prec emax (S754_finite s num 0) (S754_finite false den 0)))
  end.

End Decimal.

(** ** lxml elements

    An element with its tag, attributes, leading text, tail text and child
    elements (comments and processing instructions are left out). The
    XPath expressions of the statistics only use the child and attribute
    axes, so they are written with [findall] and attribute look-ups. *)

Inductive Element : Type :=
  mkElement {
    tag : string;
    attrib : list (string * string);
    text : option string;
    tail : option string;
    children : list Element
  }.

Module Etree.

(** [e.attrib.get(k)] *)
Fixpoint assoc (k : string) (l : list (string * string)) : option string :=
  match l with
  | [] => None
  | (k', v) :: l' => if String.eqb k k' then Some v else assoc k l'
  end.

Definition get (e : Element) (k : string) : option string := assoc k (attrib e).

(** [k in e.attrib] *)
Definition has (e : Element) (k : string) : bool :=
  match get e k with Some _ => true | None => false end.

(** [e.findall(t)], also the XPath step [t] from [e]. *)
Definition findall (e : Element) (t : string) : list Element :=
  List.filter (fun c => String.eqb (tag c) t) (children e).

(** [e.find(t)] *)
Definition find (e : Element) (t : string) : option Element := head (findall e t).

(** XPath [@a] over a node list: the values of the attributes present. *)
Definition attrs (es : list Element) (a : string) : list string :=
  omap (fun e => get e a) es.

(** XPath [t/@a] from [e]. *)
Definition xpath_attr (e : Element) (t a : string) : list string :=
  attrs (findall e t) a.

(** XPath [t1/t2] from [e]. *)
Definition xpath2 (e : Element) (t1 t2 : string) : list Element :=
  flat_map (fun c => findall c t2) (findall e t1).

(** XPath [text()] from [e]: the non-empty text nodes among its children. *)
Definition nonempty_text (o : option string) : list string :=
  match o with
  | Some s => if String.eqb s "" then [] else [s]
  | None => []
  end.

Definition text_nodes (e : Element) : list string :=
  nonempty_text (text e) ++ flat_map (fun c => nonempty_text (tail c)) (children e).

(** XPath predicate [@a="v"]. *)
Definition attr_is (a v : string) (e : Element) : bool :=
  match get e a with Some x => String.eqb x v | None => false end.

(** XPath predicate [t/@a="v"]: some child [t] carries that value. *)
Definition child_attr_is (t a v : string) (e : Element) : bool :=
  existsb (attr_is a v) (findall e t).

(** The Clark name of [xml:lang] in [attrib]. *)
Definition xml_lang : string := "{http://www.w3.org/XML/1998/namespace}lang".

End Etree.

(** Python truth value of a list. *)
Definition truthy {A} (l : list A) : bool := match l with [] => false | _ => true end.

(** Python truth value of a str. *)
Definition truthy_s (s : string) : bool := negb (String.eqb s "").

(** ** [datetime.date] *)

Record date : Set := mkDate { year : Z; month : Z; day : Z }.

Module Date.

Definition is_leap (y : Z) : bool :=
  (y mod 4 =? 0) && (negb (y mod 100 =? 0) || (y mod 400 =? 0)).

Definition days_in_month (y m : Z) : Z :=
  if m =? 2 then (if is_leap y then 29 else 28)
  else if (m =? 4) || (m =? 6) || (m =? 9) || (m =? 11) then 30
  else 31.

Definition days_before_year (y : Z) : Z :=
  let y1 := y - 1 in y1 * 365 + y1 / 4 - y1 / 100 + y1 / 400.

Fixpoint days_before_month_aux (y : Z) (n : nat) : Z :=
  match n with
  | O => 0
  | S n' => days_before_month_aux y n' + days_in_month y (Z.of_nat n)
  end.

(** Days of the year before the first day of month [m]. *)
Definition days_before_month (y m : Z) : Z := days_before_month_aux y (Z.to_nat (m - 1)).

(** [d.toordinal()] *)
Definition toordinal (d : date) : Z :=
  days_before_year (year d) + days_before_month (year d) (month d) + day d.

Definition compare (a b : date) : comparison :=
  match Z.compare (year a) (year b) with
  | Eq => match Z.compare (month a) (month b) with
          | Eq => Z.compare (day a) (day b)
          | c => c
          end
  | c => c
  end.

Definition leb (a b : date) : bool := match compare a b with Gt => false | _ => true end.
Definition ltb (a b : date) : bool := match compare a b with Lt => true | _ => false end.

(** [(a - b).days] *)
Definition sub_days (a b : date) : Z := toordinal a - toordinal b.

Fixpoint month_of_yday_aux (y : Z) (n : nat) (m : Z) (rest : Z) : Z * Z :=
  match n with
  | O => (m, rest)
  | S n' => if rest <=? days_in_month y m then (m, rest)
            else month_of_yday_aux y n' (m + 1) (rest - days_in_month y m)
  end.

(** [date.fromordinal(n)] *)
Definition fromordinal (n : Z) : date :=
  let y0 := (n - 1) / 366 + 1 in
  (* the year is y0 or one of the few years after it *)
  let fix search (fuel : nat) (y : Z) : Z :=
    match fuel with
    | O => y
    | S f => if days_before_year (y + 1) <? n then search f (y + 1) else y
    end in
  let y := search (Z.to_nat (n / 100000 + 30)) y0 in
  let '(m, d) := month_of_yday_aux y 12 1 (n - days_before_year y) in
  mkDate y m d.

(** [d.replace(year=y)] raises ValueError when the day does not exist. *)
Definition replace_year (d : date) (y : Z) : result date :=
  if day d <=? days_in_month y (month d) then Return (mkDate y (month d) (day d))
  else Raise ValueError.

End Date.

(** [add_years(d, years)]: the same calendar day [years] later, or the
    day after when that day does not exist there. *)
Definition add_years (d : date) (years : Z) : date :=
  match Date.replace_year d (year d + years) with
  | Return d' => d'
  | Raise _ =>
      Date.fromordinal
        (Date.toordinal d
         + (Date.toordinal (mkDate (year d + years) 1 1) - Date.toordinal (mkDate (year d) 1 1)))
  end.

(** [all_true_and_not_empty(bool_iterable)] *)
Definition all_true_and_not_empty (bool_list : list bool) : bool :=
  if forallb id bool_list && (0 <? Z.of_nat (length bool_list)) then true else false.

(** ** External collaborators

    What the statistics read from outside [stats/analytics.py]: the
    codelists and the country-language table loaded from files at import
    time, the exchange rates of [exchange_rates.csv], the date helpers of
    [stats.common], and lxml's XML-Schema validation. *)

Record Env : Type := mkEnv {
  (** [CODELISTS[major_version][name]], a set of codes *)
  CODELISTS : string -> string -> list string;
  (** [country_lang_map[code]] *)
  country_lang_map : string -> option (list string);
  (** [currency_values[currency][year]] *)
  currency_values : gmap string (gmap Z float);
  (** [stats.common.iso_date] on an element *)
  iso_date : Element -> option date;
  (** [stats.common.transaction_date] *)
  transaction_date : Element -> option date;
  (** [stats.common.budget_year] *)
  budget_year : Element -> option Z;
  (** [etree.XMLSchema(...).validate] for the three inline schemas *)
  schema_validate_date : Element -> bool;
  schema_validate_url : Element -> bool;
  schema_validate_value : Element -> bool
}.

(** ** Currency conversion ([helpers/currency_conversion]) *)

(** [get_USD_value(input_currency, input_value, year)] for a Decimal value
    and an int year. The division [1 / rate] is evaluated first: a missing
    currency or year raises KeyError there and a zero rate raises
    ZeroDivisionError, both caught; [float(input_value)] comes after. *)
Definition get_USD_value (currency_values : gmap string (gmap Z float))
    (input_currency : string) (input_value : Decimal.decimal) (year : Z)
  : result Decimal.decimal :=
  let usd_value : result (option float) :=
    try_except
      (years <- from_option Return (Raise KeyError) (currency_values !! input_currency) ;;
       rate <- from_option Return (Raise KeyError) (years !! year) ;;
       inv <- (if PrimFloat.eqb rate 0 then Raise ZeroDivisionError
               else Return (1 / rate)%float) ;;
       v <- Decimal.to_float input_value ;;
       Return (Some (inv * v)%float))
      (fun e => exn_eqb e KeyError || exn_eqb e ZeroDivisionError)
      (Return None) in
  u <- usd_value ;;
  Return (match u with
          | Some f => Decimal.of_float f
          | None => Decimal.of_Z 0
          end).

(** [int(s)] for a str of ASCII characters: surrounding whitespace
    stripped, an optional sign, then digits, where single underscores may
    separate digits. The whitespace of [int] on such a str is tab, line
    feed, vertical tab, form feed, carriage return and space: unlike
    [str.strip] and [Decimal], it keeps the separators 28..31. More digits
    than [sys.int_max_str_digits] raise ValueError as a malformed string
    does. *)
Definition is_int_space (c : ascii) : bool :=
  let n := nat_of_ascii c in
  ((9 <=? n) && (n <=? 13) || (n =? 32))%nat.

Fixpoint int_lstrip (s : string) : string :=
  match s with
  | String c s' => if is_int_space c then int_lstrip s' else s
  | EmptyString => EmptyString
  end.

Fixpoint int_rstrip (s : string) : string :=
  match s with
  | EmptyString => EmptyString
  | String c s' =>
      match int_rstrip s' with
      | EmptyString => if is_int_space c then EmptyString else String c EmptyString
      | r => String c r
      end
  end.

Fixpoint int_digits (prev_digit : bool) (s : string) : bool :=
  match s with
  | EmptyString => prev_digit
  | String c s' =>
      if PyStr.is_digit c then int_digits true s'
      else if Ascii.eqb c "_" then prev_digit && int_digits false s'
      else false
  end.

(** [sys.int_max_str_digits], as the interpreter sets it by default. *)
Definition int_max_str_digits : Z := 4300.

Definition py_int (s : string) : result Z :=
  let '(neg, r) := Decimal.parse_sign (int_rstrip (int_lstrip s)) in
  let digits := PyStr.remove_char "_" r in
  if int_digits false r && (Z.of_nat (String.length digits) <=? int_max_str_digits)
  then let n := Z.of_N (PyStr.digits_val digits) in
       Return (if neg then - n else n)
  else Raise ValueError.

(** ** Statistics of one activity ([ActivityStats]) *)

Record ActivityStats : Type := mkActivityStats {
  (** [self.element], the iati-activity element *)
  element : Element;
  (** [self.element.getparent()] *)
  getparent : option Element;
  (** [self.today] *)
  today : date
}.

Section Activity.

Context (env : Env).
Context (self : ActivityStats).

(** [CommonSharedElements.iati_identifier] *)
Definition iati_identifier : option string :=
  match Etree.find (element self) "iati-identifier" with
  | Some e => text e
  | None => None   (* AttributeError *)
  end.

(** [CommonSharedElements._version] *)
Definition _version : string :=
  let allowed_versions := CODELISTS env "2" "Version" in
  match getparent self with
  | None => "1.01"
  | Some parent =>
      match Etree.get parent "version" with
      | Some version =>
          if truthy_s version && PyStr.mem version allowed_versions
          then version else "1.01"
      | None => "1.01"
      end
  end.

(** [CommonSharedElements._major_version] *)
Definition _major_version : string :=
  if PyStr.startswith _version "2." then "2" else "1".

Definition by_major (v1 v2 : string) : string :=
  if String.eqb _major_version "1" then v1 else v2.

Definition _planned_start_code := by_major "start-planned" "1".
Definition _actual_start_code := by_major "start-actual" "2".
Definition _planned_end_code := by_major "end-planned" "3".
Definition _actual_end_code := by_major "end-actual" "4".
Definition _incoming_funds_code := by_major "IF" "1".
Definition _commitment_code := by_major "C" "2".
Definition _disbursement_code := by_major "D" "3".
Definition _expenditure_code := by_major "E" "4".
Definition _dac_5_code := by_major "DAC" "1".
Definition _dac_3_code := by_major "DAC-3" "2".
Definition _funding_code := by_major "Funding" "1".
Definition _OrganisationRole_Extending_code := by_major "Extending" "3".
Definition _OrganisationRole_Implementing_code := by_major "Implementing" "4".

End Activity.

Section Humanitarian.

Context (env : Env).
Context (self : ActivityStats).

Definition humanitarian_sectors_dac_5_digit : list string :=
  ["72010"; "72011"; "72012"; "72040"; "72050"; "73010"; "74010"; "74020"].
Definition humanitarian_sectors_dac_3_digit : list string := ["720"; "730"; "740"].

(** [set(l).intersection(codes)] is not empty. *)
Definition intersects (l codes : list string) : bool :=
  existsb (fun x => PyStr.mem x codes) l.

(** XPath predicate [@vocabulary="v" or not(@vocabulary)]. *)
Definition vocab_is_or_absent (v : string) (s : Element) : bool :=
  Etree.attr_is "vocabulary" v s || negb (Etree.has s "vocabulary").

(** XPath predicate [not(@humanitarian="0" or @humanitarian="false")]. *)
Definition not_flagged_non_humanitarian (t : Element) : bool :=
  negb (Etree.attr_is "humanitarian" "0" t || Etree.attr_is "humanitarian" "false" t).

Definition b2z (b : bool) : Z := if b then 1 else 0.

Definition in_202_203 : bool := PyStr.mem (_version env self) ["2.02"; "2.03"].

Definition is_humanitarian_by_attrib_activity : bool :=
  match Etree.get (element self) "humanitarian" with
  | Some v => PyStr.mem v ["1"; "true"]
  | None => false
  end.

Definition is_not_humanitarian_by_attrib_activity : bool :=
  match Etree.get (element self) "humanitarian" with
  | Some v => PyStr.mem v ["0"; "false"]
  | None => false
  end.

Definition is_humanitarian_by_attrib_transaction : bool :=
  intersects (Etree.xpath_attr (element self) "transaction" "humanitarian") ["1"; "true"].

Definition is_humanitarian_by_attrib : bool :=
  in_202_203
  && (is_humanitarian_by_attrib_activity
      || (is_humanitarian_by_attrib_transaction
          && negb is_not_humanitarian_by_attrib_activity)).

Definition sector_codes (parent : Element) (p : Element -> bool) : list string :=
  Etree.attrs (filter p (Etree.findall parent "sector")) "code".

Definition unflagged_transactions : list Element :=
  filter not_flagged_non_humanitarian (Etree.findall (element self) "transaction").

Definition is_humanitarian_by_sector_5_digit_activity : bool :=
  intersects (sector_codes (element self) (vocab_is_or_absent (_dac_5_code env self)))
    humanitarian_sectors_dac_5_digit.

Definition is_humanitarian_by_sector_5_digit_transaction : bool :=
  intersects
    (flat_map (fun t => sector_codes t (vocab_is_or_absent (_dac_5_code env self)))
       unflagged_transactions)
    humanitarian_sectors_dac_5_digit.

Definition is_humanitarian_by_sector_3_digit_activity : bool :=
  intersects (sector_codes (element self) (Etree.attr_is "vocabulary" (_dac_3_code env self)))
    humanitarian_sectors_dac_3_digit.

Definition is_humanitarian_by_sector_3_digit_transaction : bool :=
  intersects
    (flat_map (fun t => sector_codes t (Etree.attr_is "vocabulary" (_dac_3_code env self)))
       unflagged_transactions)
    humanitarian_sectors_dac_3_digit.

Definition is_humanitarian_by_sector_activity : bool :=
  is_humanitarian_by_sector_5_digit_activity || is_humanitarian_by_sector_3_digit_activity.

Definition is_humanitarian_by_sector_transaction : bool :=
  is_humanitarian_by_sector_5_digit_transaction
  || is_humanitarian_by_sector_3_digit_transaction.

Definition is_humanitarian_by_sector : bool :=
  is_humanitarian_by_sector_activity
  || (is_humanitarian_by_sector_transaction && PyStr.mem (_major_version env self) ["2"]).

(** The combined flag, with the veto applied last. *)
Definition is_humanitarian : bool :=
  let is_humanitarian := is_humanitarian_by_attrib || is_humanitarian_by_sector in
  if is_not_humanitarian_by_attrib_activity then false else is_humanitarian.

Definition scope_attr_all (a : string) : bool :=
  all_true_and_not_empty
    (map truthy_s (Etree.xpath_attr (element self) "humanitarian-scope" a)).

Definition scope_vocabulary_is (v : string) : bool :=
  truthy (Etree.xpath_attr (element self) "humanitarian-scope" "vocabulary")
  && Etree.child_attr_is "humanitarian-scope" "vocabulary" v (element self).

(** [ActivityStats.humanitarian]; truth values are counted as 0 and 1. *)
Definition humanitarian : gmap string Z :=
  let with_flag (flag rest : bool) := b2z (flag && in_202_203 && rest) in
  let scope := scope_attr_all "type" && scope_attr_all "code" in
  let clusters := Etree.child_attr_is "sector" "vocabulary" "10" (element self) in
  list_to_map
    [ ("is_humanitarian", b2z is_humanitarian);
      ("is_humanitarian_by_attrib", b2z is_humanitarian_by_attrib);
      ("contains_humanitarian_scope", with_flag is_humanitarian scope);
      ("contains_humanitarian_scope_without_humanitarian",
        with_flag (negb is_humanitarian) scope);
      ("uses_humanitarian_clusters_vocab", with_flag is_humanitarian clusters);
      ("uses_humanitarian_clusters_vocab_without_humanitarian",
        with_flag (negb is_humanitarian) clusters);
      ("uses_humanitarian_glide_codes",
        with_flag is_humanitarian (scope_vocabulary_is "1-2"));
      ("uses_humanitarian_glide_codes_without_humanitarian",
        with_flag (negb is_humanitarian) (scope_vocabulary_is "1-2"));
      ("uses_humanitarian_hrp_codes",
        with_flag is_humanitarian (scope_vocabulary_is "2-1"));
      ("uses_humanitarian_hrp_codes_without_humanitarian",
        with_flag (negb is_humanitarian) (scope_vocabulary_is "2-1")) ].

(** [collections.Counter(l)] as a dict. *)
Definition Counter (l : list string) : gmap string Z :=
  foldl (fun m k => <[k := default 0 (m !! k) + 1]> m) ∅ l.

(** [ActivityStats.provider_activity_id] *)
Definition provider_activity_id : gmap string Z :=
  let out :=
    Counter (Etree.attrs (Etree.xpath2 (element self) "transaction" "provider-org")
               "provider-activity-id") in
  match iati_identifier self with
  | Some i => if decide (is_Some (out !! i)) then delete i out else out
  | None => out
  end.

End Humanitarian.

(** ** Merging results of one shape (ShapeMergeStrategy, Aggregator)

    The aggregation code (the runner that folds leaf results upward and the
    [returns_number], [returns_numberdict], ... decorators of
    [stats.common.decorators]) is not part of the sources at hand. *)

Module Merge.

Inductive Shape : Set := Number | Counter1 | Counter2 | Counter3.

(** Modelled from the spec: the aggregation code is missing; a StatResult
    is "a tagged value of exactly one of four shapes": [Number] (a count
    or sum), [Counter1] (key to Number), [Counter2] (key to Counter1),
    [Counter3] (key to Counter2). *)
Definition StatResult (s : Shape) : Type :=
  match s with
  | Number => Qc
  | Counter1 => gmap string Qc
  | Counter2 => gmap string (gmap string Qc)
  | Counter3 => gmap string (gmap string (gmap string Qc))
  end.

(** The Number of an integer count. *)
Definition count (n : Z) : Qc := Q2Qc (inject_Z n).

(** Modelled from the spec: the aggregation code is missing; "Counter1:
    union of keys, summing values for keys present in both", with the
    rule for the values as a parameter so that it nests. *)
Definition merge_counter {A} (m : A -> A -> A) (a b : gmap string A) : gmap string A :=
  union_with (fun x y => Some (m x y)) a b.

(** Modelled from the spec: the aggregation code is missing; "Number:
    arithmetic sum. Counter1: union of keys [...]. Counter2/Counter3:
    recursive application of the Counter1 rule at each nesting level". *)
Definition merge (s : Shape) : StatResult s -> StatResult s -> StatResult s :=
  match s with
  | Number => Qcplus
  | Counter1 => merge_counter Qcplus
  | Counter2 => merge_counter (merge_counter Qcplus)
  | Counter3 => merge_counter (merge_counter (merge_counter Qcplus))
  end.

(** Modelled from the spec: the aggregation code is missing; "the shape's
    identity value (0, or empty mapping at the appropriate depth)". *)
Definition identity (s : Shape) : StatResult s :=
  match s with
  | Number => Q2Qc 0
  | Counter1 => ∅
  | Counter2 => ∅
  | Counter3 => ∅
  end.

(** Modelled from the spec: the aggregation code is missing; the
    sequential fold [fold(shape, sequence)], from the left. *)
Definition fold (s : Shape) (l : list (StatResult s)) : StatResult s :=
  foldl (merge s) (identity s) l.

(** A grouping of results for a tree-reduce: leaves are results, inner
    nodes are pairwise merges, [Nothing] is an empty group. *)
Inductive Reduction (A : Type) : Type :=
| Nothing
| One (x : A)
| Pair (l r : Reduction A).
Arguments Nothing {A}.
Arguments One {A} x.
Arguments Pair {A} l r.

Fixpoint leaves {A} (t : Reduction A) : list A :=
  match t with
  | Nothing => []
  | One x => [x]
  | Pair l r => leaves l ++ leaves r
  end.

(** Modelled from the spec: the aggregation code is missing; "a parallel
    tree-reduce (pairwise merges combined hierarchically)". *)
Fixpoint tree_reduce (s : Shape) (t : Reduction (StatResult s)) : StatResult s :=
  match t with
  | Nothing => identity s
  | One x => x
  | Pair l r => merge s (tree_reduce s l) (tree_reduce s r)
  end.

End Merge.

(** ** Validators *)

(** [a or b] on truth values where evaluating [b] may raise. *)
Definition or_m (a b : result bool) : result bool :=
  x <- a ;; if x then Return true else b.

(** [a and b] on truth values where evaluating [b] may raise. *)
Definition and_m (a b : result bool) : result bool :=
  x <- a ;; if x then b else Return false.

(** The body of the second [try] of [valid_coords], on the two fields. *)
Definition valid_coords_body (c0 c1 : string) : result bool :=
  lat <- Decimal.of_string c0 ;;
  lng <- Decimal.of_string c1 ;;
  origin <- and_m (Decimal.eq lat (Decimal.of_Z 0)) (Decimal.eq lng (Decimal.of_Z 0)) ;;
  if origin then Return false
  else
    outside <- or_m (Decimal.lt lat (Decimal.of_Z (-90)))
                 (or_m (Decimal.gt lat (Decimal.of_Z 90))
                    (or_m (Decimal.lt lng (Decimal.of_Z (-180)))
                       (Decimal.gt lng (Decimal.of_Z 180)))) ;;
    if outside then Return false else Return true.

(** [valid_coords(x)], for the text of an element ([None] without text). *)
Definition valid_coords (x : option string) : result bool :=
  match x with
  | None => Return false   (* AttributeError on [x.split] *)
  | Some s =>
      match PyStr.split " " s with
      | [c0; c1] =>
          try_except (valid_coords_body c0 c1)
            (fun e => exn_eqb e InvalidOperation) (Return false)
      | _ => Return false
      end
  end.

Section Validators.

Context (env : Env).

(** [valid_date(date_element)] *)
Definition valid_date (date_element : option Element) : bool :=
  match date_element with
  | None => false
  | Some e => schema_validate_date env e
  end.

(** [valid_value(value_element)] *)
Definition valid_value (value_element : option Element) : bool :=
  match value_element with
  | None => false
  | Some e => schema_validate_value env e
  end.

(** ['://' in url] *)
Fixpoint contains (sub s : string) : bool :=
  String.prefix sub s
  || match s with
     | EmptyString => false
     | String _ s' => contains sub s'
     end.

(** [valid_url(element)] *)
Definition valid_url (element : Element) : bool :=
  let url :=
    if String.eqb (tag element) "document-link" then Some (Etree.get element "url")
    else if String.eqb (tag element) "activity-website" then Some (text element)
    else None in
  match url with
  | None => false
  | Some None => false
  | Some (Some u) =>
      if String.eqb u "" || negb (contains "://" u) then false
      else schema_validate_url env element
  end.

End Validators.

(** [get_currency(iati_activity_object, budget_pd_transaction)] *)
Definition get_currency (self : ActivityStats) (budget_pd_transaction : Element) : option string :=
  let currency := Etree.get (element self) "default-currency" in
  match Etree.xpath_attr budget_pd_transaction "value" "currency" with
  | c :: _ => Some c
  | [] => currency
  end.

(** [has_xml_lang(obj)] *)
Definition has_xml_lang (obj : Element) : bool := Etree.has obj Etree.xml_lang.

(** The language of one element: its own [xml:lang], else the activity's. *)
Definition lang_or_default (iati_activity_obj obj : Element) : list string :=
  match Etree.get obj Etree.xml_lang with
  | Some l => [l]
  | None =>
      match Etree.get iati_activity_obj Etree.xml_lang with
      | Some default_lang => [default_lang]
      | None => []
      end
  end.

(** [get_language(major_version, iati_activity_obj, title_or_description_obj)];
    the order of [list(set(langs))] is not specified, the first
    occurrences are kept here. *)
Definition get_language (major_version : string) (iati_activity_obj obj : Element)
  : list string :=
  let langs :=
    if String.eqb major_version "2"
    then flat_map (lang_or_default iati_activity_obj) (Etree.findall obj "narrative")
    else lang_or_default iati_activity_obj obj in
  remove_dups langs.

(** ** The comprehensiveness engine *)

(** The values stored in the dictionary of [_comprehensiveness_bools]:
    truth values, the int of [_is_recipient_language_used], and the lists
    that XPath and [findall] return. *)
Inductive pyval : Type :=
| VBool (b : bool)
| VInt (n : Z)
| VStrs (l : list string)
| VElems (l : list Element).

(** Python truth value. *)
Definition truth (v : pyval) : bool :=
  match v with
  | VBool b => b
  | VInt n => negb (n =? 0)
  | VStrs l => truthy l
  | VElems l => truthy l
  end.

(** [a and b], [a or b]: the operand that decides is the value. *)
Definition py_and (a b : pyval) : pyval := if truth a then b else a.
Definition py_or (a b : pyval) : pyval := if truth a then a else b.

Section Comprehensiveness.

Context (env : Env).
Context (self : ActivityStats).

Local Abbreviation el := (element self).
Local Abbreviation major := (_major_version env self).

(** [activity-date[@type="t"]] *)
Definition activity_dates_of_type (t : string) : list Element :=
  List.filter (Etree.attr_is "type" t) (Etree.findall el "activity-date").

(** [_comprehensiveness_is_current]: the value returned and the status
    stored in [comprehensiveness_current_activity_status]. *)
Definition _comprehensiveness_is_current_status : bool * Z :=
  let activity_status_code := Etree.xpath_attr el "activity-status" "code" in
  let activity_planned_end_dates :=
    omap (iso_date env) (activity_dates_of_type (_planned_end_code env self)) in
  let activity_actual_end_dates :=
    omap (iso_date env) (activity_dates_of_type (_actual_end_code env self)) in
  if negb (truthy activity_planned_end_dates)
     && match activity_status_code with
        | c :: _ => String.eqb c "2" || String.eqb c "4"
        | [] => false
        end
  then (true, 1)
  else if existsb (fun actual_end_date =>
                     Date.leb (add_years (today self) (-1)) actual_end_date
                     && Date.leb actual_end_date (today self))
            activity_actual_end_dates
  then (true, 2)
  else if existsb (fun planned_end_date => Date.leb (today self) planned_end_date)
            activity_planned_end_dates
  then (true, 3)
  else (false, 0).

Definition _comprehensiveness_is_current : bool := fst _comprehensiveness_is_current_status.

(** [_budget_not_provided] *)
Definition _budget_not_provided : result (option Z) :=
  match Etree.get el "budget-not-provided" with
  | Some s => n <- py_int s ;; Return (Some n)
  | None => Return None
  end.

(** [participating-org[@role='r']/@ref] *)
Definition participating_refs (roles : list string) : list string :=
  Etree.attrs
    (List.filter (fun p => existsb (fun r => Etree.attr_is "role" r p) roles)
       (Etree.findall el "participating-org"))
    "ref".

(** [_is_donor_publisher] *)
Definition _is_donor_publisher : bool :=
  match Etree.xpath_attr el "reporting-org" "ref" with
  | [] => false
  | ref :: _ =>
      PyStr.mem ref (participating_refs [_funding_code env self;
                                         _OrganisationRole_Extending_code env self])
      && negb (PyStr.mem ref (participating_refs [_OrganisationRole_Implementing_code env self]))
  end.

(** [_is_recipient_language_used] *)
Definition _is_recipient_language_used : Z :=
  if (length (Etree.findall el "recipient-country") =? 1)%nat then
    let country_langs :=
      match Etree.xpath_attr el "recipient-country" "code" with
      | c :: _ => default [] (country_lang_map env c)   (* KeyError *)
      | [] => []                                        (* IndexError *)
      end in
    let langs_in tag_ :=
      flat_map (get_language major el) (Etree.findall el tag_) in
    if intersects (langs_in "title") country_langs
       && intersects (langs_in "description") country_langs
    then 1 else 0
  else 0.

(** [is_text_in_element(elementName)] *)
Definition is_text_in_element (elementName : string) : bool :=
  let textFound :=
    if String.eqb major "2"
    then flat_map Etree.text_nodes (Etree.xpath2 el elementName "narrative")
    else if String.eqb major "1"
    then flat_map Etree.text_nodes (Etree.findall el elementName)
    else [] in
  truthy textFound.

(** XPath predicate [transaction-type/@code="c1" or ...]. *)
Definition type_code_in (codes : list string) (t : Element) : bool :=
  existsb (fun c => Etree.child_attr_is "transaction-type" "code" c t) codes.

Definition transactions : list Element := Etree.findall el "transaction".

(** [transaction[transaction-type/@code="c1" or ...]] *)
Definition transactions_of_type (codes : list string) : list Element :=
  List.filter (type_code_in codes) transactions.

Definition transaction_commitment : list Element :=
  transactions_of_type [_commitment_code env self; "11"].

Definition transaction_spend : list Element :=
  transactions_of_type [_disbursement_code env self; _expenditure_code env self].

Definition incoming_transactions : list Element :=
  transactions_of_type [_incoming_funds_code env self; "11"; "13"].

(** [../@default-currency|./value/@currency] from a transaction. *)
Definition currencies_of (t : Element) : list string :=
  (match Etree.get el "default-currency" with Some c => [c] | None => [] end
   ++ Etree.xpath_attr t "value" "currency")%list.

(** Elements with one of the tags, in document order ([a|b]). *)
Definition children_tagged (tags : list string) (e : Element) : list Element :=
  List.filter (fun c => PyStr.mem (tag c) tags) (children e).

(** [sector[@vocabulary="5" or @vocabulary="3" or not(@vocabulary)]] *)
Definition dac_sectors (parent : Element) : list Element :=
  List.filter
    (fun s => Etree.attr_is "vocabulary" (_dac_5_code env self) s
              || Etree.attr_is "vocabulary" (_dac_3_code env self) s
              || negb (Etree.has s "vocabulary"))
    (Etree.findall parent "sector").

(** [_is_sector_dac] *)
Definition _is_sector_dac : pyval :=
  let sector_dac_activity_level := dac_sectors el in
  let all_transactions_have_dac_sector_codes :=
    if negb (String.eqb major "1")
    then all_true_and_not_empty (map (fun t => truthy (dac_sectors t)) transactions)
    else false in
  py_or (VElems sector_dac_activity_level) (VBool all_transactions_have_dac_sector_codes).

(** [location/point/pos|location/name|location/description|location/location-administrative],
    in document order. *)
Definition location_parts : list Element :=
  flat_map
    (fun l =>
       flat_map
         (fun c =>
            if String.eqb (tag c) "point" then Etree.findall c "pos"
            else if PyStr.mem (tag c) ["name"; "description"; "location-administrative"]
            then [c] else [])
         (children l))
    (Etree.findall el "location").

Definition location_point_pos : list Element :=
  flat_map (fun p => Etree.findall p "pos") (Etree.xpath2 el "location" "point").

Definition activity_website : list Element :=
  if String.eqb major "1" then Etree.findall el "activity-website"
  else List.filter (Etree.child_attr_is "category" "code" "A12")
         (Etree.findall el "document-link").

(** [_comprehensiveness_bools]: only [_budget_not_provided] can raise. *)
Definition _comprehensiveness_bools : result (gmap string pyval) :=
  bnp <- _budget_not_provided ;;
  Return (list_to_map
    [ ("version", VBool (match getparent self with
                         | Some parent => Etree.has parent "version"
                         | None => false
                         end));
      ("reporting-org", py_and (VStrs (Etree.xpath_attr el "reporting-org" "ref"))
                          (VBool (is_text_in_element "reporting-org")));
      ("iati-identifier",
        VStrs (flat_map Etree.text_nodes (Etree.findall el "iati-identifier")));
      ("participating-org", VBool (bool_decide (is_Some (Etree.find el "participating-org"))));
      ("title", VBool (is_text_in_element "title"));
      ("description", VBool (is_text_in_element "description"));
      ("activity-status", VBool (bool_decide (is_Some (Etree.find el "activity-status"))));
      ("activity-date", VBool (bool_decide (is_Some (Etree.find el "activity-date"))));
      ("sector",
        VBool (bool_decide (is_Some (Etree.find el "sector"))
               || (negb (String.eqb major "1")
                   && all_true_and_not_empty
                        (map (fun t => bool_decide (is_Some (Etree.find t "sector")))
                           transactions))));
      ("country_or_region",
        VBool (bool_decide (is_Some (Etree.find el "recipient-country"))
               || bool_decide (is_Some (Etree.find el "recipient-region"))
               || (negb (String.eqb major "1")
                   && all_true_and_not_empty
                        (map (fun t => bool_decide (is_Some (Etree.find t "recipient-country"))
                                       || bool_decide (is_Some (Etree.find t "recipient-region")))
                           transactions))));
      ("transaction_commitment", VElems transaction_commitment);
      ("transaction_spend", VElems transaction_spend);
      ("transaction_currency",
        VBool (all_true_and_not_empty
                 (map (fun x => truthy (Etree.xpath_attr x "value" "value-date")
                                && truthy (currencies_of x))
                    transactions)));
      ("transaction_traceability",
        VBool (all_true_and_not_empty
                 (map (fun x => truthy (Etree.xpath_attr x "provider-org" "provider-activity-id"))
                    incoming_transactions)
               || _is_donor_publisher));
      ("budget", VElems (Etree.findall el "budget"));
      ("budget_not_provided", VBool (bool_decide (is_Some bnp)));
      ("contact-info", VElems (Etree.xpath2 el "contact-info" "email"));
      ("location", VElems location_parts);
      ("location_point_pos", VElems location_point_pos);
      ("sector_dac", _is_sector_dac);
      ("capital-spend", VStrs (Etree.xpath_attr el "capital-spend" "percentage"));
      ("document-link", VElems (Etree.findall el "document-link"));
      ("activity-website", VElems activity_website);
      ("recipient_language", VInt _is_recipient_language_used);
      ("conditions_attached", VStrs (Etree.xpath_attr el "conditions" "attached"));
      ("result_indicator", VElems (Etree.xpath2 el "result" "indicator"));
      ("aid_type",
        VBool (all_true_and_not_empty
                 (map truthy_s (Etree.xpath_attr el "default-aid-type" "code"))
               || all_true_and_not_empty
                    (map (fun t => truthy (Etree.xpath_attr t "aid-type" "code"))
                       transactions))) ]).

End Comprehensiveness.

(** *** Percentage splits *)

(** What [decimal_or_zero] returns: the int 0 or a Decimal. *)
Inductive pynum : Set :=
| PInt (n : Z)
| PDec (d : Decimal.decimal).

(** [decimal_or_zero(value)]: only the TypeError of [Decimal(None)] is
    caught. *)
Definition decimal_or_zero (value : option string) : result pynum :=
  match value with
  | None => Return (PInt 0)
  | Some s => d <- Decimal.of_string s ;; Return (PDec d)
  end.

Definition pynum_add (a b : pynum) : result pynum :=
  match a, b with
  | PInt x, PInt y => Return (PInt (x + y))
  | PInt x, PDec d => r <- Decimal.add d (Decimal.of_Z x) ;; Return (PDec r)
  | PDec d, PInt y => r <- Decimal.add d (Decimal.of_Z y) ;; Return (PDec r)
  | PDec d, PDec d' => r <- Decimal.add d d' ;; Return (PDec r)
  end.

(** [sum(decimal_or_zero(x.attrib.get('percentage')) for x in es)], from
    the accumulator [acc]. *)
Fixpoint percentage_sum (acc : pynum) (es : list Element) : result pynum :=
  match es with
  | [] => Return acc
  | x :: es' =>
      v <- decimal_or_zero (Etree.get x "percentage") ;;
      acc' <- pynum_add acc v ;;
      percentage_sum acc' es'
  end.

(** [len(es) == 1 or sum(...) == 100] *)
Definition one_or_sum_is_100 (es : list Element) : result bool :=
  if (length es =? 1)%nat then Return true
  else
    s <- percentage_sum (PInt 0) es ;;
    match s with
    | PInt n => Return (n =? 100)
    | PDec d => Decimal.eq d (Decimal.of_Z 100)
    end.

Definition option_string_eqb (a b : option string) : bool :=
  match a, b with
  | Some x, Some y => String.eqb x y
  | None, None => true
  | _, _ => false
  end.

(** [elements_by_vocab[k].append(e)] on a dictionary kept in insertion
    order. *)
Fixpoint group_append (k : option string) (e : Element)
    (g : list (option string * list Element)) : list (option string * list Element) :=
  match g with
  | [] => [(k, [e])]
  | (k', es) :: g' =>
      if option_string_eqb k k' then (k', (es ++ [e])%list) :: g'
      else (k', es) :: group_append k e g'
  end.

(** [empty_or_percentage_sum_is_100(path, by_vocab)] on the elements the
    path selects. *)
Definition empty_or_percentage_sum_is_100 (elements : list Element) (by_vocab : bool)
  : result bool :=
  if negb (truthy elements) then Return true
  else if by_vocab then
    let elements_by_vocab :=
      foldl (fun g e => group_append (Etree.get e "vocabulary") e g) [] elements in
    all_m one_or_sum_is_100 (map snd elements_by_vocab)
  else one_or_sum_is_100 elements.

Section ComprehensivenessValidation.

Context (env : Env).
Context (self : ActivityStats).

Local Abbreviation el := (element self).
Local Abbreviation major := (_major_version env self).
Local Abbreviation codelist := (CODELISTS env (_major_version env self)).

(** [bools[k]] for a key of the dictionary. *)
Definition item (bools : gmap string pyval) (k : string) : pyval :=
  default (VBool false) (bools !! k).

(** [element_ref(element_obj)] *)
Definition element_ref (element_obj : option Element) : option string :=
  match element_obj with
  | Some e => Etree.get e "ref"
  | None => None
  end.

(** [self.element.find('iati-identifier').text.startswith(p)] *)
Definition identifier_startswith (p : string) : result bool :=
  match Etree.find el "iati-identifier" with
  | None => Raise AttributeError
  | Some e =>
      match text e with
      | None => Raise AttributeError
      | Some t => Return (PyStr.startswith t p)
      end
  end.

(** The sub-condition of the [iati-identifier] criterion for 2.xx data. *)
Definition identifier_has_org_prefix : result bool :=
  let reporting_org_ref := element_ref (Etree.find el "reporting-org") in
  let previous_reporting_org_refs :=
    Etree.attrs (List.filter (Etree.attr_is "type" "B1") (Etree.findall el "other-identifier"))
      "ref" in
  or_m
    (match reporting_org_ref with
     | Some ref => if truthy_s ref then identifier_startswith ref else Return false
     | None => Return false
     end)
    (l <- map_m identifier_startswith previous_reporting_org_refs ;;
     Return (existsb id l)).

(** [valid_value] of every value and a valid date among
    [transaction-date|value], for the transactions of one criterion. *)
Definition transactions_valid (l : list Element) : bool :=
  forallb (fun x => valid_value env (Etree.find x "value")) l
  && all_true_and_not_empty
       (map (fun t => existsb (fun x => valid_date env (Some x))
                        (children_tagged ["transaction-date"; "value"] t))
          l).

Definition in_codelist (name : string) (code : option string) : bool :=
  match code with
  | Some c => PyStr.mem c (codelist name)
  | None => false
  end.

(** [_comprehensiveness_with_validation_bools] *)
Definition _comprehensiveness_with_validation_bools : result (gmap string pyval) :=
  bools <- _comprehensiveness_bools env self ;;
  iati_identifier_ok <-
    (if truth (item bools "iati-identifier")
     then if negb (String.eqb major "1") then identifier_has_org_prefix else Return true
     else Return false) ;;
  sector_ok <-
    (if truth (item bools "sector")
     then empty_or_percentage_sum_is_100 (Etree.findall el "sector") true
     else Return false) ;;
  country_or_region_ok <-
    (if truth (item bools "country_or_region")
     then empty_or_percentage_sum_is_100
            (children_tagged ["recipient-country"; "recipient-region"] el) false
     else Return false) ;;
  bnp <- _budget_not_provided self ;;
  coords <- map_m (fun x => valid_coords (text x)) (location_point_pos self) ;;
  let validated : gmap string pyval :=
    list_to_map
      [ ("version",
          py_and (item bools "version")
            (VBool (match getparent self with
                    | Some parent => in_codelist "Version" (Etree.get parent "version")
                    | None => false
                    end)));
        ("iati-identifier", py_and (item bools "iati-identifier") (VBool iati_identifier_ok));
        ("participating-org",
          py_and (item bools "participating-org")
            (VBool (PyStr.mem (_funding_code env self)
                      (Etree.xpath_attr el "participating-org" "role"))));
        ("activity-status",
          py_and (item bools "activity-status")
            (VBool (all_true_and_not_empty
                      (map (fun x => PyStr.mem x (codelist "ActivityStatus"))
                         (Etree.xpath_attr el "activity-status" "code")))));
        ("activity-date",
          py_and (py_and (item bools "activity-date")
                    (VElems (List.filter
                               (fun d => Etree.attr_is "type" (_planned_start_code env self) d
                                         || Etree.attr_is "type" (_actual_start_code env self) d)
                               (Etree.findall el "activity-date"))))
            (VBool (all_true_and_not_empty
                      (map (fun d => valid_date env (Some d))
                         (Etree.findall el "activity-date")))));
        ("sector", py_and (item bools "sector") (VBool sector_ok));
        ("country_or_region",
          py_and (item bools "country_or_region") (VBool country_or_region_ok));
        ("transaction_commitment",
          py_and (item bools "transaction_commitment")
            (VBool (transactions_valid (transaction_commitment env self))));
        ("transaction_spend",
          py_and (item bools "transaction_spend")
            (VBool (transactions_valid (transaction_spend env self))));
        ("transaction_currency",
          VBool (forallb
                   (fun t => forallb (fun v => valid_date env (Some v)) (Etree.findall t "value")
                             && forallb (fun x => PyStr.mem x (codelist "Currency"))
                                  (currencies_of self t))
                   (transactions self)));
        ("budget",
          py_and (item bools "budget")
            (VBool (forallb
                      (fun budget =>
                         valid_date env (Etree.find budget "period-start")
                         && valid_date env (Etree.find budget "period-end")
                         && valid_date env (Etree.find budget "value")
                         && valid_value env (Etree.find budget "value"))
                      (Etree.findall el "budget"))));
        ("budget_not_provided",
          py_and (item bools "budget_not_provided")
            (VBool (PyStr.mem (match bnp with Some n => pretty n | None => "None" end)
                      (codelist "BudgetNotProvided"))));
        ("location_point_pos", VBool (all_true_and_not_empty coords));
        ("sector_dac",
          py_and (py_and (item bools "sector_dac")
                    (VBool (forallb (fun x => in_codelist "Sector" (Etree.get x "code"))
                              (List.filter (vocab_is_or_absent (_dac_5_code env self))
                                 (Etree.findall el "sector")))))
            (VBool (forallb (fun x => in_codelist "SectorCategory" (Etree.get x "code"))
                      (List.filter (Etree.attr_is "vocabulary" (_dac_3_code env self))
                         (Etree.findall el "sector")))));
        ("document-link",
          VBool (all_true_and_not_empty
                   (map (fun x => valid_url env x
                                  && match Etree.find x "category" with
                                     | Some c => in_codelist "DocumentCategory" (Etree.get c "code")
                                     | None => false
                                     end)
                      (Etree.findall el "document-link"))));
        ("activity-website",
          VBool (all_true_and_not_empty (map (valid_url env) (activity_website env self))));
        ("aid_type",
          py_and (item bools "aid_type")
            (VBool (all_true_and_not_empty
                      (map (fun code => PyStr.mem code (codelist "AidType"))
                         (Etree.xpath_attr el "default-aid-type" "code"))
                    || all_true_and_not_empty
                         (map (fun t => intersects (Etree.xpath_attr t "aid-type" "code")
                                          (codelist "AidType"))
                            (transactions self)))))
      ] in
  Return (validated ∪ bools).

(** The start date the denominators use: [iso_date(dates[0])] for the
    actual start dates followed by the planned ones. *)
Definition start_date : option date :=
  match (activity_dates_of_type self (_actual_start_code env self)
         ++ activity_dates_of_type self (_planned_start_code env self))%list with
  | d :: _ => iso_date env d
  | [] => None
  end.

(** [comprehensiveness_denominators] *)
Definition comprehensiveness_denominators : gmap string Z :=
  if _comprehensiveness_is_current env self then
    list_to_map
      [ ("recipient_language",
          if (length (Etree.findall el "recipient-country") =? 1)%nat then 1 else 0);
        ("transaction_spend",
          match start_date with
          | Some d =>
              if Date.ltb d (today self) && (365 <? Date.sub_days (today self) d)
              then 1 else 0
          | None => 0
          end);
        ("transaction_traceability",
          if truthy (incoming_transactions env self) || _is_donor_publisher env self
          then 1 else 0) ]
  else
    list_to_map
      [ ("recipient_language", 0);
        ("transaction_spend", 0);
        ("transaction_traceability", 0) ].

(** One entry of the comprehension:
    [1 if v and (k not in denominators or denominators[k]) else 0]. *)
Definition numerator (k : string) (v : pyval) : Z :=
  if truth v
     && match comprehensiveness_denominators !! k with
        | None => true
        | Some d => negb (d =? 0)
        end
  then 1 else 0.

(** [comprehensiveness] *)
Definition comprehensiveness : result (gmap string Z) :=
  if _comprehensiveness_is_current env self then
    bools <- _comprehensiveness_bools env self ;;
    Return (map_imap (fun k v => Some (numerator k v)) bools)
  else Return ∅.

(** [comprehensiveness_with_validation] *)
Definition comprehensiveness_with_validation : result (gmap string Z) :=
  if _comprehensiveness_is_current env self then
    bools <- _comprehensiveness_with_validation_bools ;;
    Return (map_imap (fun k v => Some (numerator k v)) bools)
  else Return ∅.

(** [comprehensiveness_denominator_default] *)
Definition comprehensiveness_denominator_default : Z :=
  if _comprehensiveness_is_current env self then 1 else 0.

End ComprehensivenessValidation.

(** ** Transaction counts of one activity *)

Section TransactionCounts.

Context (env : Env).
Context (self : ActivityStats).

Local Abbreviation el := (element self).

(** The keys of [_transaction_timing], as [sorted(out.keys())] lists them. *)
Definition timing_keys : list Z := [30; 60; 90; 180; 360].

(** [out[k] += 1] on a dictionary of counts. *)
Definition increment `{Countable K} (k : K) (out : gmap K Z) : gmap K Z :=
  <[k := default 0 (out !! k) + 1]> out.

(** One pass of the loop of [_transaction_timing] over a transaction. *)
Definition timing_step (now_date : date) (out : gmap Z Z) (transaction : Element)
  : gmap Z Z :=
  match transaction_date env transaction with
  | Some d =>
      let days := Date.sub_days now_date d in
      if days <? -1 then out
      else foldl (fun out k => if days <? k then increment k out else out) out timing_keys
  | None => out
  end.

(** [_transaction_timing], with [self.now.date()] as [now_date]. *)
Definition _transaction_timing (now_date : date) : gmap Z Z :=
  foldl (timing_step now_date)
    (list_to_map [(30, 0); (60, 0); (90, 0); (180, 0); (360, 0)])
    (Etree.findall el "transaction").

(** XPath [transaction-type/@code="c"] on a transaction. *)
Definition has_type_code (c : string) (transaction : Element) : bool :=
  Etree.child_attr_is "transaction-type" "code" c transaction.

(** [_transactions_incoming_funds]; reading
    [out['transactions_with_incoming_funds']] stores the default 0 under
    a key the loop did not create. *)
Definition _transactions_incoming_funds : gmap string Z :=
  let out :=
    foldl (fun out transaction =>
             if has_type_code (_incoming_funds_code env self) transaction
             then increment "transactions_with_incoming_funds" out else out)
      (∅ : gmap string Z) (Etree.findall el "transaction") in
  let n := default 0 (out !! "transactions_with_incoming_funds") in
  let out := <["transactions_with_incoming_funds" := n]> out in
  if 0 <? n then increment "activities_with_incoming_funds" out else out.

(** [_provider_org] and [_receiver_org]: the refs of the first
    [provider-org] (or [receiver-org]) of each transaction, counted; a
    missing ref is the key [None]. *)
Definition count_transaction_orgs (org_tag : string) : gmap (option string) Z :=
  foldl (fun out transaction =>
           match Etree.find transaction org_tag with
           | Some org => increment (Etree.get org "ref") out
           | None => out
           end)
    ∅ (Etree.findall el "transaction").

Definition _provider_org : gmap (option string) Z := count_transaction_orgs "provider-org".
Definition _receiver_org : gmap (option string) Z := count_transaction_orgs "receiver-org".

(** [activities_with_future_transactions]: comparing [None] with a date
    raises TypeError. *)
Fixpoint future_transactions_loop (l : list Element) : result Z :=
  match l with
  | [] => Return 0
  | transaction :: l' =>
      match transaction_date env transaction with
      | None => Raise TypeError
      | Some d => if Date.ltb (today self) d then Return 1 else future_transactions_loop l'
      end
  end.

Definition activities_with_future_transactions : result Z :=
  future_transactions_loop (Etree.findall el "transaction").

(** [transaction_total] *)
Definition transaction_total : Z :=
  foldl (fun out _ => out + 1) 0 (Etree.findall el "transaction").

End TransactionCounts.

(** ** Forward-looking: end dates *)

Section ForwardLooking.

Context (env : Env).
Context (self : ActivityStats).

Local Abbreviation el := (element self).

(** [_get_end_date]: the date of the first actual end date element, or of
    the first planned one when there is no actual one. *)
Definition _get_end_date : option date :=
  let end_date_list :=
    match activity_dates_of_type self (_actual_end_code env self) with
    | [] => activity_dates_of_type self (_planned_end_code env self)
    | l => l
    end in
  match end_date_list with
  | d :: _ => iso_date env d
  | [] => None
  end.

(** The years of [activity-date[@type=planned or @type=actual]] that
    [iso_date] reads. *)
Definition activity_end_years : list Z :=
  omap (fun x => year <$> iso_date env x)
    (List.filter (fun x => Etree.attr_is "type" (_planned_end_code env self) x
                           || Etree.attr_is "type" (_actual_end_code env self) x)
       (Etree.findall el "activity-date")).

(** [_forwardlooking_is_current(year)] *)
Definition _forwardlooking_is_current (y : Z) : bool :=
  negb (truthy activity_end_years)
  || existsb (fun activity_end_year => y <=? activity_end_year) activity_end_years.

End ForwardLooking.

(** ** Organisation identifier prefixes *)

(** [out[k].append(x)] on a [defaultdict(list)], kept in insertion order. *)
Fixpoint group_add {K} (eqb : K -> K -> bool) (k : K) (x : string)
    (g : list (K * list string)) : list (K * list string) :=
  match g with
  | [] => [(k, [x])]
  | (k', xs) :: g' =>
      if eqb k k' then (k', (xs ++ [x])%list) :: g'
      else (k', xs) :: group_add eqb k x g'
  end.

Section OrgPrefixes.

Context (env : Env).

(** [build_org_prefix_list()[major_version]]: the registration agency
    codes grouped by length, in the order the codelist is enumerated. *)
Definition org_prefix_list (major_version : string) : list (nat * list string) :=
  foldl (fun out prefix => group_add Nat.eqb (String.length prefix) prefix out) []
    (CODELISTS env major_version "OrganisationRegistrationAgency").

(** [build_channel_code_list()[major_version]]: the CRS channel codes
    grouped by their first two characters. *)
Definition channel_code_list (major_version : string) : list (string * list string) :=
  foldl (fun out code => group_add String.eqb (String.substring 0 2 code) code out) []
    (CODELISTS env major_version "CRSChannelCode").

(** The first element a nested loop over the groups returns at. *)
Definition first_prefix_of {K} (org_id : string) (g : list (K * list string))
  : option string :=
  List.find (fun prefix => PyStr.startswith org_id prefix) (flat_map snd g).

(** [valid_org_prefix(major_version, org_id)] *)
Definition valid_org_prefix (major_version org_id : string) : bool * string :=
  match first_prefix_of org_id (org_prefix_list major_version) with
  | Some prefix => (true, prefix)
  | None =>
      match first_prefix_of org_id (channel_code_list major_version) with
      | Some code => (true, code)
      | None => (false, "None")
      end
  end.

End OrgPrefixes.

(** ** Organisation reference statistics *)

(** The accumulator of the organisation statistics: an int, or the
    [defaultdict(int)] of the calls with [prefixes=True]. *)
Inductive org_out : Type :=
| OutInt (n : Z)
| OutDict (d : gmap string Z).

(** [out += 1]: a dictionary cannot be added to an int. *)
Definition add_one (out : org_out) : result org_out :=
  match out with
  | OutInt n => Return (OutInt (n + 1))
  | OutDict _ => Raise TypeError
  end.

(** [out[prefix] += 1]: an int cannot be subscripted. *)
Definition add_prefix (prefix : string) (out : org_out) : result org_out :=
  match out with
  | OutInt _ => Raise TypeError
  | OutDict d => Return (OutDict (increment prefix d))
  end.

Section OrgReferences.

Context (env : Env).
Context (self : ActivityStats).

Local Abbreviation el := (element self).

(** [_reporting_org_ref]: the first non-empty ref of a reporting-org. *)
Definition _reporting_org_ref : option string :=
  List.find truthy_s (Etree.xpath_attr el "reporting-org" "ref").

(** [_check_org_reference(org, reporting_org, stat_type, out, prefixes)] *)
Definition _check_org_reference (org : Element) (reporting_org : option string)
    (stat_type : string) (out : org_out) (prefixes : bool) : result org_out :=
  match Etree.get org "ref" with
  | None => Return out
  | Some ref =>
      if String.eqb stat_type "total_refs" then add_one out
      else if truthy_s ref then
        if String.eqb stat_type "total_full_refs" then add_one out
        else if negb (option_string_eqb (Some ref) reporting_org) then
          if String.eqb stat_type "total_notself_refs" then add_one out
          else if String.eqb stat_type "total_valid_refs" then
            let '(valid, prefix) := valid_org_prefix env (_major_version env self) ref in
            if prefixes then add_prefix prefix out
            else if valid then add_one out else Return out
          else Return out
        else Return out
      else Return out
  end.

(** The loop shared by [_participating_org_stats] and
    [_transaction_org_stats], over the organisation elements selected. *)
Fixpoint org_stats_loop (orgs : list Element) (reporting_org : option string)
    (stat_type : string) (prefixes : bool) (out : org_out) : result org_out :=
  match orgs with
  | [] => Return out
  | org :: orgs' =>
      out' <- (if String.eqb stat_type "total" then add_one out
               else _check_org_reference org reporting_org stat_type out prefixes) ;;
      org_stats_loop orgs' reporting_org stat_type prefixes out'
  end.

(** [_participating_org_stats(org_type_id, stat_type, prefixes)] *)
Definition _participating_org_stats (org_type_id stat_type : string) (prefixes : bool)
  : result org_out :=
  let reporting_org := _reporting_org_ref in
  let out := if prefixes then OutDict ∅ else OutInt 0 in
  org_stats_loop
    (List.filter (fun org => match Etree.get org "role" with
                             | Some role => truthy_s role && String.eqb role org_type_id
                             | None => false
                             end)
       (Etree.findall el "participating-org"))
    reporting_org stat_type prefixes out.

(** [_transaction_org_stats(org_type, stat_type, prefixes)] *)
Definition _transaction_org_stats (org_type stat_type : string) (prefixes : bool)
  : result org_out :=
  let reporting_org := _reporting_org_ref in
  let out := if prefixes then OutDict ∅ else OutInt 0 in
  org_stats_loop
    (omap (fun transaction => Etree.find transaction org_type)
       (Etree.findall el "transaction"))
    reporting_org stat_type prefixes out.

(** The five statistics of [_participating_org_all_stats] and
    [_transaction_org_all_stats], in the order of the dictionary. *)
Definition org_stat_types : list string :=
  ["total"; "total_refs"; "total_full_refs"; "total_notself_refs"; "total_valid_refs"].

Definition org_stat_key (stat_type : string) : string :=
  if String.eqb stat_type "total" then "total_orgs" else stat_type.

Definition all_stats (stats : string -> result org_out) : result (list (string * org_out)) :=
  map_m (fun stat_type => out <- stats stat_type ;; Return (org_stat_key stat_type, out))
    org_stat_types.

(** [_participating_org_all_stats(org_type_id)] *)
Definition _participating_org_all_stats (org_type_id : string)
  : result (list (string * org_out)) :=
  all_stats (fun stat_type => _participating_org_stats org_type_id stat_type false).

(** [_transaction_org_all_stats(org_type)] *)
Definition _transaction_org_all_stats (org_type : string)
  : result (list (string * org_out)) :=
  all_stats (fun stat_type => _transaction_org_stats org_type stat_type false).

Definition funding_org_transaction_stats := _participating_org_all_stats "1".
Definition funding_org_valid_prefixes := _participating_org_stats "1" "total_valid_refs" true.
Definition accountable_org_transaction_stats := _participating_org_all_stats "2".
Definition accountable_org_valid_prefixes := _participating_org_stats "2" "total_valid_refs" true.
Definition extending_org_transaction_stats := _participating_org_all_stats "3".
Definition extending_org_valid_prefixes := _participating_org_stats "3" "total_valid_refs" true.
Definition implementing_org_transaction_stats := _participating_org_all_stats "4".
Definition implementing_org_valid_prefixes := _participating_org_stats "4" "total_valid_refs" true.
Definition provider_org_transaction_stats := _transaction_org_all_stats "provider-org".
Definition provider_org_valid_prefixes :=
  _transaction_org_stats "provider-org" "total_valid_refs" true.
Definition receiver_org_transaction_stats := _transaction_org_all_stats "receiver-org".
Definition receiver_org_valid_prefixes :=
  _transaction_org_stats "receiver-org" "total_valid_refs" true.

End OrgReferences.

(** ** Element counts *)

(** [count_dict[k] += 1] when [count_multiple], [count_dict[k] = 1]
    otherwise; with [count_multiple] the dictionary is the
    [defaultdict(int)] that [elements_total] passes. *)
Definition count_path (count_multiple : bool) (k : string) (count_dict : gmap string Z)
  : gmap string Z :=
  if count_multiple then increment k count_dict else <[k := 1]> count_dict.

(** [element_to_count_dict(element, path, count_dict, count_multiple)]:
    the element, then its children in document order, then its
    attributes with a non-empty value. *)
Fixpoint element_to_count_dict (element : Element) (path : string)
    (count_dict : gmap string Z) (count_multiple : bool) {struct element}
  : gmap string Z :=
  let count_dict := count_path count_multiple path count_dict in
  let count_dict :=
    (fix children_loop (cs : list Element) (count_dict : gmap string Z) {struct cs}
       : gmap string Z :=
       match cs with
       | [] => count_dict
       | child :: cs' =>
           children_loop cs'
             (element_to_count_dict child (path ++ "/" ++ tag child) count_dict
                count_multiple)
       end) (children element) count_dict in
  foldl (fun count_dict '(attribute, value) =>
           if String.eqb value "" then count_dict
           else count_path count_multiple (path ++ "/@" ++ attribute) count_dict)
    count_dict (attrib element).

(** [ActivityStats.elements] and [ActivityStats.elements_total] *)
Definition elements (self : ActivityStats) : gmap string Z :=
  element_to_count_dict (element self) "iati-activity" ∅ false.

Definition elements_total (self : ActivityStats) : gmap string Z :=
  element_to_count_dict (element self) "iati-activity" ∅ true.

(** ** Financial roll-ups *)

(** A dictionary in insertion order, as the loops over [items()] see it. *)
Definition odict (K V : Type) : Type := list (K * V).

(** [d[k] = f(d[k])] on a [defaultdict] whose missing entries are [dflt]:
    an entry that exists keeps its place, a new one comes last. *)
Fixpoint od_update {K V} (eqb : K -> K -> bool) (k : K) (dflt : V) (f : V -> result V)
    (d : odict K V) : result (odict K V) :=
  match d with
  | [] => v' <- f dflt ;; Return [(k, v')]
  | (k', v) :: d' =>
      if eqb k k' then v' <- f v ;; Return ((k', v') :: d')
      else d'' <- od_update eqb k dflt f d' ;; Return ((k', v) :: d'')
  end.

(** A loop whose body may raise. *)
Fixpoint fold_m {A B} (f : B -> A -> result B) (b : B) (l : list A) : result B :=
  match l with
  | [] => Return b
  | x :: l' => b' <- f b x ;; fold_m f b' l'
  end.

(** The roll-ups: type, then currency, then year. *)
Definition rollup : Type :=
  odict (option string) (odict (option string) (odict Z Decimal.decimal)).

(** [out[t][c][y] += x] on
    [defaultdict(lambda: defaultdict(lambda: defaultdict(Decimal)))];
    [Decimal()] is zero. *)
Definition rollup_add (t c : option string) (y : Z) (x : Decimal.decimal) (out : rollup)
  : result rollup :=
  od_update option_string_eqb t []
    (od_update option_string_eqb c []
       (od_update Z.eqb y (Decimal.of_Z 0) (fun old => Decimal.add old x)))
    out.

Section RollUps.

Context (env : Env).
Context (self : ActivityStats).

Local Abbreviation el := (element self).

(** [_transaction_type_code(transaction)] *)
Definition _transaction_type_code (transaction : Element) : option string :=
  match Etree.find transaction "transaction-type" with
  | Some transaction_type => Etree.get transaction_type "code"
  | None => None
  end.

(** [_transaction_year(transaction)] *)
Definition _transaction_year (transaction : Element) : option Z :=
  match transaction_date env transaction with
  | Some t_date => Some (year t_date)
  | None => None
  end.

(** [0 if (value is None or value.text is None) else Decimal(value.text)] *)
Definition value_of (value : option Element) : result Decimal.decimal :=
  match value with
  | None => Return (Decimal.of_Z 0)
  | Some v =>
      match text v with
      | None => Return (Decimal.of_Z 0)
      | Some s => Decimal.of_string s
      end
  end.

(** [_count_transactions_by_type_by_year] *)
Definition _count_transactions_by_type_by_year
  : gmap (option string) (gmap (option Z) Z) :=
  foldl (fun out transaction =>
           let t := _transaction_type_code transaction in
           <[t := increment (_transaction_year transaction) (default ∅ (out !! t))]> out)
    ∅ (Etree.findall el "transaction").

(** [_sum_transactions_by_type_by_year] *)
Definition _sum_transactions_by_type_by_year : result rollup :=
  fold_m (fun out transaction =>
            let value := Etree.find transaction "value" in
            if match Etree.find transaction "transaction-type" with
               | Some transaction_type =>
                   match Etree.get transaction_type "code" with
                   | Some code =>
                       PyStr.mem code [_incoming_funds_code env self; _commitment_code env self;
                                       _disbursement_code env self; _expenditure_code env self]
                   | None => false
                   end
               | None => false
               end
            then
              transaction_value <-
                try_except (value_of value) (fun e => exn_eqb e InvalidOperation)
                  (Return (Decimal.of_Z 0)) ;;
              match _transaction_year transaction with
              | Some y =>
                  if y =? 0 then Return out
                  else rollup_add (_transaction_type_code transaction)
                         (get_currency self transaction) y transaction_value out
              | None => Return out
              end
            else Return out)
    [] (Etree.findall el "transaction").

(** The loops of the two USD roll-ups over the items of a roll-up, from
    the innermost: the years of one currency, the currencies of one type,
    the types. [year_used] is what the loop does to the year before it
    converts: [sum_transactions_by_type_by_year_usd] replaces a year after
    2014 by 2014, [sum_budgets_by_type_by_year_usd] leaves it. An item
    without a currency is skipped. *)
Definition usd_add_years (year_used : Z -> Z) (transaction_type currency : option string)
    (out : rollup) (years : odict Z Decimal.decimal) : result rollup :=
  fold_m (fun out '(y, value) =>
            let y := year_used y in
            match currency with
            | Some c =>
                usd <- get_USD_value (currency_values env) c value y ;;
                rollup_add transaction_type (Some "USD") y usd out
            | None => Return out
            end)
    out years.

Definition usd_add_currencies (year_used : Z -> Z) (transaction_type : option string)
    (out : rollup) (data : odict (option string) (odict Z Decimal.decimal))
  : result rollup :=
  fold_m (fun out '(currency, years) =>
            usd_add_years year_used transaction_type currency out years)
    out data.

Definition usd_of_rollup (year_used : Z -> Z) (sums : rollup) : result rollup :=
  fold_m (fun out '(transaction_type, data) =>
            usd_add_currencies year_used transaction_type out data)
    [] sums.

(** [if year > 2014: year = 2014] *)
Definition year_capped (y : Z) : Z := if 2014 <? y then 2014 else y.

(** [sum_transactions_by_type_by_year_usd] *)
Definition sum_transactions_by_type_by_year_usd : result rollup :=
  sums <- _sum_transactions_by_type_by_year ;;
  usd_of_rollup year_capped sums.

(** [count_budgets_by_type_by_year] *)
Definition count_budgets_by_type_by_year : gmap (option string) (gmap Z Z) :=
  foldl (fun out budget =>
           match budget_year env budget with
           | Some y =>
               if y =? 0 then out
               else let t := Etree.get budget "type" in
                    <[t := increment y (default ∅ (out !! t))]> out
           | None => out
           end)
    ∅ (Etree.findall el "budget").

(** [sum_budgets_by_type_by_year] *)
Definition sum_budgets_by_type_by_year : result rollup :=
  fold_m (fun out budget =>
            let value := Etree.find budget "value" in
            budget_value <-
              try_except (value_of value)
                (fun e => exn_eqb e TypeError || exn_eqb e AttributeError
                          || exn_eqb e InvalidOperation)
                (Return (Decimal.of_Z 0)) ;;
            match budget_year env budget with
            | Some y =>
                if y =? 0 then Return out
                else rollup_add (Etree.get budget "type") (get_currency self budget) y
                       budget_value out
            | None => Return out
            end)
    [] (Etree.findall el "budget").

(** [sum_budgets_by_type_by_year_usd] *)
Definition sum_budgets_by_type_by_year_usd : result rollup :=
  sums <- sum_budgets_by_type_by_year ;;
  usd_of_rollup (fun y => y) sums.

End RollUps.

(** ** Statistics over aggregated data ([PublisherStats], [AllDataStats]) *)

(** [out[k] += n] on a [defaultdict(int)]. *)
Definition add_to `{Countable K} (k : K) (n : Z) (out : gmap K Z) : gmap K Z :=
  <[k := default 0 (out !! k) + n]> out.

(** [PublisherStats.provider_activity_id_without_own], from
    [aggregated['provider_activity_id']] and [aggregated['iati_identifiers']]. *)
Definition provider_activity_id_without_own
    (provider_activity_id iati_identifiers : gmap string Z) : gmap string Z :=
  filter (fun kv => iati_identifiers !! kv.1 = None) provider_activity_id.

(** [PublisherStats.publisher_duplicate_identifiers] and
    [AllDataStats._duplicate_identifiers] *)
Definition duplicate_identifiers (iati_identifiers : gmap string Z) : gmap string Z :=
  filter (fun kv => 1 < kv.2) iati_identifiers.

(** [AllDataStats.traceable_activities_by_publisher_id], from the items
    of [aggregated['iati_identifiers_by_publisher_id']] and
    [aggregated['provider_activity_id_without_own']]. *)
Definition traceable_activities_by_publisher_id
    (iati_identifiers_by_publisher_id : list (string * list (string * Z)))
    (without_own : gmap string Z) : gmap string Z :=
  foldl (fun out '(publisher_id, iati_identifiers_counts) =>
           foldl (fun out '(iati_identifier, count) =>
                    if bool_decide (is_Some (without_own !! iati_identifier))
                    then add_to publisher_id count out else out)
             out iati_identifiers_counts)
    ∅ iati_identifiers_by_publisher_id.

(** [AllDataStats.traceable_activities_by_publisher_id_denominator] *)
Definition traceable_activities_by_publisher_id_denominator
    (iati_identifiers_by_publisher_id : list (string * list (string * Z)))
  : gmap string Z :=
  foldl (fun out '(publisher_id, iati_identifiers_counts) =>
           foldl (fun out '(iati_identifier, count) => add_to publisher_id count out)
             out iati_identifiers_counts)
    ∅ iati_identifiers_by_publisher_id.

(** [d[k]] on a dict: a missing key raises KeyError. *)
Definition getitem `{Countable K} {V} (d : gmap K V) (k : K) : result V :=
  from_option Return (Raise KeyError) (d !! k).

(** [[a, b, c].count(0)] *)
Definition count_zeros (l : list Z) : Z :=
  Z.of_nat (length (List.filter (fun x => x =? 0) l)).

(** [PublisherStats._timeliness_transactions], on
    [aggregated['transaction_timing']]. *)
Definition _timeliness_transactions (tt : gmap string Z) : result string :=
  let first_three :=
    a <- getitem tt "30" ;; b <- getitem tt "60" ;; c <- getitem tt "90" ;;
    Return (count_zeros [a; b; c]) in
  n <- first_three ;;
  if n <=? 1 then Return "Monthly"
  else
    n <- first_three ;;
    if n <=? 2 then Return "Quarterly"
    else
      d <- getitem tt "180" ;;
      if negb (d =? 0) then Return "Six-monthly"
      else
        e <- getitem tt "360" ;;
        if negb (e =? 0) then Return "Annual" else Return "Beyond one year".

(** [AllDataStats.traceable_sum_commitments_and_disbursements_by_publisher_id],
    from the items of
    [aggregated['sum_commitments_and_disbursements_by_activity_id_by_publisher_id_usd']]
    and [aggregated['provider_activity_id_without_own']]; [out] is a
    [defaultdict(Decimal)]. *)
Definition traceable_sum_commitments_and_disbursements_by_publisher_id
    (sums_by_publisher_id : list (string * list (string * Decimal.decimal)))
    (without_own : gmap string Z) : result (gmap string Decimal.decimal) :=
  fold_m (fun out '(publisher_id, d) =>
            fold_m (fun out '(k, v) =>
                      if bool_decide (is_Some (without_own !! k))
                      then total <- Decimal.add (default (Decimal.of_Z 0) (out !! publisher_id)) v ;;
                           Return (<[publisher_id := total]> out)
                      else Return out)
              out d)
    ∅ sums_by_publisher_id.

(** Modelled from the spec: the aggregation code is missing; "Counter1:
    union of keys, summing values for keys present in both", over the
    results of a list of records. *)
Definition merge_counts (results : list (gmap string Z)) : gmap string Z :=
  foldr (Merge.merge_counter Z.add) ∅ results.

(** [aggregated['provider_activity_id_without_own']] as [AllDataStats]
    sees it: for each publisher, the counters [provider_activity_id] of
    its activities are merged and
    [PublisherStats.provider_activity_id_without_own] drops the keys that
    are among the publisher's [aggregated['iati_identifiers']]; the
    results of the publishers are merged. A publisher is given by its
    activities and its identifiers. *)
Definition all_provider_activity_id_without_own
    (publishers : list (list ActivityStats * gmap string Z)) : gmap string Z :=
  merge_counts
    (map (fun '(activities, iati_identifiers) =>
            provider_activity_id_without_own
              (merge_counts (map provider_activity_id activities)) iati_identifiers)
       publishers).

(** ** The exchange rate table *)

Section RateTable.

(** [float(s)] for the text of a rate. *)
Context (float_of_string : string -> result float).

(** The loop that fills [currency_values] from the rows of
    [exchange_rates.csv], each with its Currency, Rate and Date columns:
    [currency_values[currency][year] = rate]. *)
Definition load_currency_values (rows : list (string * string * string))
  : result (gmap string (gmap Z float)) :=
  fold_m (fun currency_values '(currency, rate_text, date_text) =>
            rate <- float_of_string rate_text ;;
            y <- py_int (String.substring 0 4 date_text) ;;
            Return (<[currency := <[y := rate]> (default ∅ (currency_values !! currency))]>
                      currency_values))
    ∅ rows.

End RateTable.

(** * Properties of the statistics *)

(** Whether a computation returned. *)
Definition returned {A} (r : result A) : bool :=
  match r with Return _ => true | Raise _ => false end.

Lemma Return_inj {A} (a b : A) : Return a = Return b -> a = b.
Proof. congruence. Qed.

(** ** Merge: a commutative monoid at every shape *)

Section MergeLaws.

Import Merge.

Lemma merge_counter_lookup {A} (m : A -> A -> A) (a b : gmap string A) (k : string) :
  merge_counter m a b !! k =
    match a !! k, b !! k with
    | Some x, Some y => Some (m x y)
    | Some x, None => Some x
    | None, o => o
    end.
Proof.
  unfold merge_counter. rewrite lookup_union_with.
  destruct (a !! k), (b !! k); reflexivity.
Qed.

Lemma merge_counter_comm {A} (m : A -> A -> A) :
  (forall x y, m x y = m y x) ->
  forall a b, merge_counter m a b = merge_counter m b a.
Proof.
  intros Hm a b. apply map_eq. intros k. rewrite !merge_counter_lookup.
  destruct (a !! k), (b !! k); try reflexivity. by rewrite Hm.
Qed.

Lemma merge_counter_assoc {A} (m : A -> A -> A) :
  (forall x y z, m x (m y z) = m (m x y) z) ->
  forall a b c, merge_counter m a (merge_counter m b c) = merge_counter m (merge_counter m a b) c.
Proof.
  intros Hm a b c. apply map_eq. intros k. rewrite !merge_counter_lookup.
  destruct (a !! k), (b !! k), (c !! k); try reflexivity. by rewrite Hm.
Qed.

Lemma merge_counter_empty_l {A} (m : A -> A -> A) (a : gmap string A) :
  merge_counter m ∅ a = a.
Proof.
  apply map_eq. intros k. rewrite merge_counter_lookup, lookup_empty. reflexivity.
Qed.

Lemma merge_comm (s : Shape) (a b : StatResult s) : merge s a b = merge s b a.
Proof.
  destruct s; simpl in *.
  - apply Qcplus_comm.
  - apply merge_counter_comm, Qcplus_comm.
  - apply merge_counter_comm, merge_counter_comm, Qcplus_comm.
  - apply merge_counter_comm, merge_counter_comm, merge_counter_comm, Qcplus_comm.
Qed.

Lemma merge_assoc (s : Shape) (a b c : StatResult s) :
  merge s a (merge s b c) = merge s (merge s a b) c.
Proof.
  destruct s; simpl in *.
  - apply Qcplus_assoc.
  - apply merge_counter_assoc, Qcplus_assoc.
  - apply merge_counter_assoc, merge_counter_assoc, Qcplus_assoc.
  - apply merge_counter_assoc, merge_counter_assoc, merge_counter_assoc, Qcplus_assoc.
Qed.

Lemma merge_identity_l (s : Shape) (a : StatResult s) : merge s (identity s) a = a.
Proof.
  destruct s; simpl in *; [apply Qcplus_0_l | apply merge_counter_empty_l ..].
Qed.

Lemma merge_identity_r (s : Shape) (a : StatResult s) : merge s a (identity s) = a.
Proof. rewrite merge_comm. apply merge_identity_l. Qed.

(** A left fold from any start is the start merged with the fold. *)
Lemma foldl_merge_start (s : Shape) (l : list (StatResult s)) (a : StatResult s) :
  foldl (merge s) a l = merge s a (fold s l).
Proof.
  unfold fold. revert a. induction l as [|x l IH] using rev_ind; intros a.
  - simpl. by rewrite merge_identity_r.
  - rewrite !foldl_app. simpl. rewrite IH, (IH (identity s)).
    by rewrite merge_identity_l, merge_assoc, <- IH.
Qed.

Lemma fold_app (s : Shape) (l1 l2 : list (StatResult s)) :
  fold s (l1 ++ l2) = merge s (fold s l1) (fold s l2).
Proof. unfold fold at 1. rewrite foldl_app. apply foldl_merge_start. Qed.

Lemma fold_cons (s : Shape) (x : StatResult s) (l : list (StatResult s)) :
  fold s (x :: l) = merge s x (fold s l).
Proof.
  change (x :: l) with ([x] ++ l)%list. rewrite fold_app. unfold fold at 1. simpl.
  by rewrite merge_identity_l.
Qed.

Lemma fold_permutation (s : Shape) (l1 l2 : list (StatResult s)) :
  l1 ≡ₚ l2 -> fold s l1 = fold s l2.
Proof.
  induction 1 as [|x l l' _ IH|x y l|l l' l'' _ IH1 _ IH2].
  - reflexivity.
  - by rewrite !fold_cons, IH.
  - rewrite !fold_cons, !merge_assoc. f_equal. apply merge_comm.
  - by rewrite IH1.
Qed.

Lemma tree_reduce_leaves (s : Shape) (t : Reduction (StatResult s)) :
  tree_reduce s t = fold s (leaves t).
Proof.
  induction t as [|x|l IHl r IHr]; simpl.
  - reflexivity.
  - unfold fold. simpl. by rewrite merge_identity_l.
  - by rewrite fold_app, IHl, IHr.
Qed.

End MergeLaws.

(** C1. The merge of every shape is commutative and associative, and so
    reducing results of one shape along any grouping tree, with the leaves
    taken in any order, gives the result of the sequential left fold. *)
Theorem merge_any_order_any_grouping (s : Merge.Shape)
    (t : Merge.Reduction (Merge.StatResult s)) (l : list (Merge.StatResult s)) :
  Merge.leaves t ≡ₚ l ->
  Merge.tree_reduce s t = Merge.fold s l
  /\ (forall a b, Merge.merge s a b = Merge.merge s b a)
  /\ (forall a b c, Merge.merge s a (Merge.merge s b c) = Merge.merge s (Merge.merge s a b) c).
Proof.
  intros Hp. split; [|split].
  - rewrite tree_reduce_leaves. by apply fold_permutation.
  - apply merge_comm.
  - apply merge_assoc.
Qed.

Definition c1_a : gmap string (gmap string Qc) :=
  {[ "3" := {[ "2013" := Merge.count 100 ]} ]}.
Definition c1_b : gmap string (gmap string Qc) :=
  {[ "3" := {[ "2013" := Merge.count 25; "2014" := Merge.count 1 ]}; "2" := {[ "2013" := Merge.count 7 ]} ]}.
Definition c1_c : gmap string (gmap string Qc) :=
  {[ "2" := {[ "2013" := Merge.count 5 ]} ]}.

Lemma merge_any_order_any_grouping_witness :
  Merge.tree_reduce Merge.Counter2
    (Merge.Pair (Merge.One c1_a) (Merge.Pair (Merge.One c1_b) (Merge.One c1_c)))
  = Merge.fold Merge.Counter2 [c1_c; c1_a; c1_b].
Proof.
  apply (merge_any_order_any_grouping Merge.Counter2
           (Merge.Pair (Merge.One c1_a) (Merge.Pair (Merge.One c1_b) (Merge.One c1_c)))
           [c1_c; c1_a; c1_b]).
  simpl. symmetry. apply (Permutation_cons_append [c1_a; c1_b] c1_c).
Defined.

(** ** Currency conversion: the zero fallback *)

Lemma get_USD_value_no_currency cv c v y :
  cv !! c = None -> get_USD_value cv c v y = Return (Decimal.of_Z 0).
Proof. intros H. unfold get_USD_value. rewrite H. reflexivity. Qed.

Lemma get_USD_value_no_year cv c v y years :
  cv !! c = Some years -> years !! y = None ->
  get_USD_value cv c v y = Return (Decimal.of_Z 0).
Proof. intros Hc Hy. unfold get_USD_value. rewrite Hc. simpl. rewrite Hy. reflexivity. Qed.

Lemma get_USD_value_zero_rate cv c v y years rate :
  cv !! c = Some years -> years !! y = Some rate -> PrimFloat.eqb rate 0 = true ->
  get_USD_value cv c v y = Return (Decimal.of_Z 0).
Proof.
  intros Hc Hy Hr. unfold get_USD_value. rewrite Hc. simpl. rewrite Hy. simpl.
  rewrite Hr. reflexivity.
Qed.

(** What the table records for a currency and a year. *)
Definition recorded_rate (cv : gmap string (gmap Z float)) (c : string) (y : Z) : option float :=
  match cv !! c with
  | Some years => years !! y
  | None => None
  end.

(** C2. Whatever the amount and the year, [get_USD_value] returns the
    Decimal zero, and raises nothing, when the currency is not in the rate
    table, when the year is not recorded for the currency, or when the
    recorded rate is zero. *)
Theorem get_USD_value_fallback_zero (cv : gmap string (gmap Z float))
    (c : string) (v : Decimal.decimal) (y : Z) :
  (cv !! c = None
   \/ recorded_rate cv c y = None
   \/ exists rate, recorded_rate cv c y = Some rate /\ PrimFloat.eqb rate 0 = true) ->
  get_USD_value cv c v y = Return (Decimal.of_Z 0).
Proof.
  unfold recorded_rate. intros [H | [H | (rate & H & Hr)]].
  - by apply get_USD_value_no_currency.
  - destruct (cv !! c) as [years|] eqn:Hc.
    + by apply (get_USD_value_no_year _ _ _ _ years).
    + by apply get_USD_value_no_currency.
  - destruct (cv !! c) as [years|] eqn:Hc; [|discriminate].
    by apply (get_USD_value_zero_rate _ _ _ _ years rate).
Qed.

(** A small rate table: euros at 0.8 in 2013 and 0.75 in 2014, a currency
    with a zero rate, and dollars at par. *)
Definition rates_example : gmap string (gmap Z float) :=
  {[ "EUR" := {[ 2013 := 0.8%float; 2014 := 0.75%float ]};
     "ZWD" := {[ 2013 := 0%float ]};
     "USD" := {[ 2013 := 1%float; 2014 := 1%float ]} ]}.

Lemma get_USD_value_fallback_zero_witness :
  get_USD_value rates_example "XXX" (Decimal.NaN true) 2013 = Return (Decimal.of_Z 0)
  /\ get_USD_value rates_example "EUR" (Decimal.of_Z 100) 1999 = Return (Decimal.of_Z 0)
  /\ get_USD_value rates_example "ZWD" (Decimal.of_Z 100) 2013 = Return (Decimal.of_Z 0).
Proof.
  split; [|split].
  - apply (get_USD_value_fallback_zero rates_example "XXX" (Decimal.NaN true) 2013).
    left. reflexivity.
  - apply (get_USD_value_fallback_zero rates_example "EUR" (Decimal.of_Z 100) 1999).
    right. left. vm_compute. reflexivity.
  - apply (get_USD_value_fallback_zero rates_example "ZWD" (Decimal.of_Z 100) 2013).
    right. right. exists 0%float. split; vm_compute; reflexivity.
Defined.

(** The conversion itself, on the scenario of the specification: 100 euros
    of 2013 at a rate of 0.8 are 125 dollars. *)
Example get_USD_value_eur_2013 :
  get_USD_value rates_example "EUR" (Decimal.of_Z 100) 2013 = Return (Decimal.Fin false 125 0).
Proof. vm_compute. reflexivity. Qed.

(** ** The humanitarian veto *)

Lemma is_not_humanitarian_by_attrib_activity_flag (self : ActivityStats) (v : string) :
  Etree.get (element self) "humanitarian" = Some v ->
  v = "0" \/ v = "false" ->
  is_not_humanitarian_by_attrib_activity self = true.
Proof.
  intros Hget Hv. unfold is_not_humanitarian_by_attrib_activity. rewrite Hget.
  destruct Hv as [-> | ->]; reflexivity.
Qed.

Lemma is_humanitarian_vetoed (env : Env) (self : ActivityStats) :
  is_not_humanitarian_by_attrib_activity self = true -> is_humanitarian env self = false.
Proof. intros H. unfold is_humanitarian. rewrite H. reflexivity. Qed.

Lemma humanitarian_is_humanitarian (env : Env) (self : ActivityStats) :
  humanitarian env self !! "is_humanitarian" = Some (b2z (is_humanitarian env self)).
Proof. unfold humanitarian. simpl. apply lookup_insert_eq. Qed.

(** C3. An activity whose [humanitarian] attribute is ['0'] or ['false']
    has [is_humanitarian] equal to 0, whatever its version, its
    transactions' flags and the sector codes of the activity and of its
    transactions. *)
Theorem humanitarian_veto (env : Env) (self : ActivityStats) (v : string) :
  Etree.get (element self) "humanitarian" = Some v ->
  v = "0" \/ v = "false" ->
  humanitarian env self !! "is_humanitarian" = Some 0.
Proof.
  intros Hget Hv. rewrite humanitarian_is_humanitarian.
  rewrite (is_humanitarian_vetoed env self); [reflexivity|].
  by apply (is_not_humanitarian_by_attrib_activity_flag self v).
Qed.

(** A date reader for the examples: the [iso-date] attribute when it has
    the form YYYY-MM-DD. *)
Definition iso_date_example (e : Element) : option date :=
  match Etree.get e "iso-date" with
  | Some s =>
      let y := String.substring 0 4 s in
      let m := String.substring 5 2 s in
      let d := String.substring 8 2 s in
      if (String.length s =? 10)%nat && PyStr.all_digits (y ++ m ++ d)
      then Some (mkDate (Z.of_N (PyStr.digits_val y)) (Z.of_N (PyStr.digits_val m))
                   (Z.of_N (PyStr.digits_val d)))
      else None
  | None => None
  end.

(** An environment for the examples: the version codelist, the example
    rates, and schema validators that accept everything. *)
Definition env_example : Env :=
  {| CODELISTS := fun major name =>
       if String.eqb name "Version" then ["1.01"; "1.05"; "2.01"; "2.02"; "2.03"] else [];
     country_lang_map := fun _ => None;
     currency_values := rates_example;
     iso_date := iso_date_example;
     transaction_date := fun t => e ← Etree.find t "transaction-date"; iso_date_example e;
     budget_year := fun _ => None;
     schema_validate_date := fun _ => true;
     schema_validate_url := fun _ => true;
     schema_validate_value := fun _ => true |}.

Definition leaf (t : string) (a : list (string * string)) (x : option string) : Element :=
  mkElement t a x None [].

Definition node (t : string) (a : list (string * string)) (c : list Element) : Element :=
  mkElement t a None None c.

(** A 2.03 activity with every positive signal: a humanitarian transaction
    flag and humanitarian sector codes at both levels. *)
Definition humanitarian_signals : list Element :=
  [ leaf "iati-identifier" [] (Some "AA-AAA-1");
    leaf "sector" [("vocabulary", "1"); ("code", "72010")] None;
    node "transaction" [("humanitarian", "1")]
      [ leaf "sector" [("vocabulary", "2"); ("code", "720")] None ] ].

Definition activity_of (a : list (string * string)) (c : list Element) : ActivityStats :=
  {| element := node "iati-activity" a c;
     getparent := Some (node "iati-activities" [("version", "2.03")] []);
     today := mkDate 2026 11 4 |}.

Definition vetoed_activity : ActivityStats :=
  activity_of [("humanitarian", "false")] humanitarian_signals.

Lemma humanitarian_veto_witness :
  humanitarian env_example vetoed_activity !! "is_humanitarian" = Some 0.
Proof.
  apply (humanitarian_veto env_example vetoed_activity "false").
  - reflexivity.
  - right. reflexivity.
Defined.

(** Without the flag the same activity is humanitarian: the veto is what
    decides. *)
Example humanitarian_without_veto :
  humanitarian env_example (activity_of [] humanitarian_signals) !! "is_humanitarian" = Some 1
  /\ is_humanitarian_by_sector env_example vetoed_activity = true.
Proof. split; vm_compute; reflexivity. Qed.

(** ** Provider activity ids: no self-reference *)













Section TraceableSums.

Context (without_own : gmap string Z).
Context (p : string).



End TraceableSums.


Section TraceableActivities.

Context (without_own : gmap string Z).
Context (p : string).



End TraceableActivities.



(** An activity that names itself twice and another activity once. *)
Definition self_referencing_activity : ActivityStats :=
  activity_of []
    [ leaf "iati-identifier" [] (Some "AA-AAA-1");
      node "transaction" [] [ leaf "provider-org" [("provider-activity-id", "AA-AAA-1")] None ];
      node "transaction" [] [ leaf "provider-org" [("provider-activity-id", "BB-BBB-2")] None ];
      node "transaction" [] [ leaf "provider-org" [("provider-activity-id", "AA-AAA-1")] None ] ].

Example provider_activity_id_example :
  provider_activity_id self_referencing_activity = {[ "BB-BBB-2" := 1 ]}.
Proof. vm_compute. reflexivity. Qed.

(** Two publishers: the first has the activity above, the second the
    activity it names. Only the second activity is traceable: the first
    is named by itself alone. *)
Definition publishers_example : list (list ActivityStats * gmap string Z) :=
  [ ([self_referencing_activity], {[ "AA-AAA-1" := 1 ]});
    ([activity_of [] [ leaf "iati-identifier" [] (Some "BB-BBB-2") ]],
     {[ "BB-BBB-2" := 1 ]}) ].

Example traceable_example :
  all_provider_activity_id_without_own publishers_example = {[ "BB-BBB-2" := 1 ]}
  /\ match traceable_sum_commitments_and_disbursements_by_publisher_id
             [ ("first", [("AA-AAA-1", Decimal.of_Z 100)]);
               ("second", [("BB-BBB-2", Decimal.of_Z 50)]) ]
             (all_provider_activity_id_without_own publishers_example) with
     | Return out => out !! "first" = None /\ out !! "second" = Some (Decimal.of_Z 50)
     | Raise _ => False
     end
  /\ traceable_activities_by_publisher_id
       [ ("first", [("AA-AAA-1", 1)]); ("second", [("BB-BBB-2", 1)]) ]
       (all_provider_activity_id_without_own publishers_example)
     = {[ "second" := 1 ]}.
Proof.
  split; [vm_compute; reflexivity|]. split; [|vm_compute; reflexivity].
  vm_compute. split; reflexivity.
Qed.

(** ** Comprehensiveness: current and non-current activities *)

(** Looking a literal key up in a dictionary written as a literal. *)
Ltac lookup_literal :=
  cbn [list_to_map foldr uncurry fst snd];
  repeat first [ rewrite lookup_insert_eq
               | rewrite lookup_insert_ne by discriminate
               | rewrite lookup_empty ].

Section Current.

Context (env : Env).
Context (self : ActivityStats).

(** The three rules of the specification, on the dates and the status
    code the activity carries. *)
Definition planned_end_dates : list date :=
  omap (iso_date env) (activity_dates_of_type self (_planned_end_code env self)).

Definition actual_end_dates : list date :=
  omap (iso_date env) (activity_dates_of_type self (_actual_end_code env self)).

Definition current_by_status : Prop :=
  planned_end_dates = []
  /\ exists c rest,
       Etree.xpath_attr (element self) "activity-status" "code" = c :: rest
       /\ (c = "2" \/ c = "4").

Definition current_by_recent_actual_end : Prop :=
  exists d, In d actual_end_dates
            /\ Date.leb (add_years (today self) (-1)) d = true
            /\ Date.leb d (today self) = true.

Definition current_by_future_planned_end : Prop :=
  exists d, In d planned_end_dates /\ Date.leb (today self) d = true.

Lemma current_by_status_dec :
  current_by_status <->
  (negb (truthy planned_end_dates)
   && match Etree.xpath_attr (element self) "activity-status" "code" with
      | c :: _ => String.eqb c "2" || String.eqb c "4"
      | [] => false
      end) = true.
Proof.
  unfold current_by_status. split.
  - intros [Hp (c & rest & Hc & Hv)]. rewrite Hp, Hc. simpl.
    destruct Hv as [-> | ->]; reflexivity.
  - intros H. apply andb_true_iff in H as [Hp Hc]. split.
    + destruct planned_end_dates; [reflexivity | discriminate].
    + destruct (Etree.xpath_attr (element self) "activity-status" "code") as [|c rest];
        [discriminate|].
      exists c, rest. split; [reflexivity|].
      apply orb_true_iff in Hc as [H | H]; apply String.eqb_eq in H; auto.
Qed.

Lemma is_current_iff :
  _comprehensiveness_is_current env self = true
  <-> current_by_status \/ current_by_recent_actual_end \/ current_by_future_planned_end.
Proof.
  unfold _comprehensiveness_is_current, _comprehensiveness_is_current_status.
  fold planned_end_dates actual_end_dates.
  rewrite current_by_status_dec.
  unfold current_by_recent_actual_end, current_by_future_planned_end.
  destruct (negb (truthy planned_end_dates) && _) eqn:E1; simpl.
  { split; auto. }
  destruct (existsb _ actual_end_dates) eqn:E2; simpl.
  { split; [|reflexivity]. intros _. right. left.
    apply existsb_exists in E2 as (d & Hd & Hc).
    apply andb_true_iff in Hc as [? ?]. eauto. }
  destruct (existsb _ planned_end_dates) eqn:E3; simpl.
  { split; [|reflexivity]. intros _. right. right.
    apply existsb_exists in E3 as (d & Hd & Hc). eauto. }
  split; [discriminate|]. intros [H | [(d & Hd & H1 & H2) | (d & Hd & H1)]].
  - discriminate.
  - assert (existsb (fun a => Date.leb (add_years (today self) (-1)) a
                              && Date.leb a (today self)) actual_end_dates = true) as Hx.
    { apply existsb_exists. exists d. rewrite H1, H2. auto. }
    congruence.
  - assert (existsb (fun p => Date.leb (today self) p) planned_end_dates = true) as Hx.
    { apply existsb_exists. eauto. }
    congruence.
Qed.

Lemma not_current_iff :
  _comprehensiveness_is_current env self = false
  <-> ~ current_by_status /\ ~ current_by_recent_actual_end /\ ~ current_by_future_planned_end.
Proof.
  rewrite <- not_true_iff_false, is_current_iff. tauto.
Qed.

Lemma denominators_not_current :
  _comprehensiveness_is_current env self = false ->
  comprehensiveness_denominators env self
  = {[ "recipient_language" := 0; "transaction_spend" := 0; "transaction_traceability" := 0 ]}.
Proof.
  intros H. unfold comprehensiveness_denominators. rewrite H. reflexivity.
Qed.

End Current.

(** C4 (as the code has it). An activity is non-current exactly when it
    fails the three rules; for a non-current activity both numerator
    mappings are empty and nothing is raised, the per-criterion denominator
    mapping has its three entries, each 0, and the default denominator is
    the number 0. *)
Theorem non_current_excluded (env : Env) (self : ActivityStats) :
  ~ current_by_status env self ->
  ~ current_by_recent_actual_end env self ->
  ~ current_by_future_planned_end env self ->
  _comprehensiveness_is_current env self = false
  /\ comprehensiveness env self = Return ∅
  /\ comprehensiveness_with_validation env self = Return ∅
  /\ comprehensiveness_denominators env self
     = {[ "recipient_language" := 0; "transaction_spend" := 0; "transaction_traceability" := 0 ]}
  /\ comprehensiveness_denominator_default env self = 0.
Proof.
  intros H1 H2 H3.
  assert (_comprehensiveness_is_current env self = false) as Hc
    by (apply not_current_iff; auto).
  split; [exact Hc|].
  unfold comprehensiveness, comprehensiveness_with_validation,
    comprehensiveness_denominator_default.
  rewrite (denominators_not_current env self Hc), Hc. auto.
Qed.

(** The scenario of the specification, on 4 November 2026: a planned end
    one day in the past, an actual end thirteen months ago, and status
    code 3. *)
Definition ended_activity : ActivityStats :=
  activity_of []
    [ leaf "iati-identifier" [] (Some "AA-AAA-1");
      leaf "activity-status" [("code", "3")] None;
      leaf "activity-date" [("type", "1"); ("iso-date", "2020-01-01")] None;
      leaf "activity-date" [("type", "3"); ("iso-date", "2026-11-03")] None;
      leaf "activity-date" [("type", "4"); ("iso-date", "2025-10-04")] None;
      leaf "title" [] None ].

Lemma ended_activity_fails_rules :
  ~ current_by_status env_example ended_activity
  /\ ~ current_by_recent_actual_end env_example ended_activity
  /\ ~ current_by_future_planned_end env_example ended_activity.
Proof.
  apply not_current_iff. vm_compute. reflexivity.
Defined.

Lemma non_current_excluded_witness :
  comprehensiveness env_example ended_activity = Return ∅
  /\ comprehensiveness_denominator_default env_example ended_activity = 0.
Proof.
  destruct ended_activity_fails_rules as (H1 & H2 & H3).
  destruct (non_current_excluded env_example ended_activity H1 H2 H3)
    as (_ & Hc & _ & _ & Hd).
  split; assumption.
Defined.

(** C4 as stated fails: the per-criterion denominator mapping of a
    non-current activity is not empty, it holds three zero entries. *)
Lemma non_current_denominators_not_absent :
  _comprehensiveness_is_current env_example ended_activity = false
  /\ comprehensiveness_denominators env_example ended_activity <> ∅
  /\ comprehensiveness_denominators env_example ended_activity !! "transaction_spend" = Some 0.
Proof.
  split; [vm_compute; reflexivity|].
  assert (comprehensiveness_denominators env_example ended_activity !! "transaction_spend"
          = Some 0) as H by (vm_compute; reflexivity).
  split; [|exact H].
  intros He. rewrite He, lookup_empty in H. discriminate.
Qed.

(** ** Comprehensiveness: numerators against denominators *)

Section Bound.

Context (env : Env).
Context (self : ActivityStats).

(** The denominator a criterion is scored against: its own entry of
    [comprehensiveness_denominators] when it has one, the default
    denominator otherwise. *)
Definition denominator_of (k : string) : Z :=
  default (comprehensiveness_denominator_default env self)
    (comprehensiveness_denominators env self !! k).

(** What the claim says of one entry [n] computed from the test value [v]
    of criterion [k]. *)
Definition entry_ok (k : string) (v : pyval) (n : Z) : Prop :=
  (n = 0 \/ n = 1)
  /\ (n = 1 -> truth v = true)
  /\ (comprehensiveness_denominators env self !! k = Some 0 -> n = 0)
  /\ n <= denominator_of k.

Lemma denominators_binary (k : string) (d : Z) :
  comprehensiveness_denominators env self !! k = Some d -> d = 0 \/ d = 1.
Proof.
  unfold comprehensiveness_denominators.
  destruct (_comprehensiveness_is_current env self);
    cbn [list_to_map foldr uncurry fst snd]; intros H;
    repeat (apply lookup_insert_Some in H as [[_ <-] | [_ H]];
            [repeat case_match; auto|]);
    rewrite lookup_empty in H; discriminate.
Qed.

Lemma numerator_ok (k : string) (v : pyval) :
  _comprehensiveness_is_current env self = true -> entry_ok k v (numerator env self k v).
Proof.
  intros Hc. unfold entry_ok, numerator, denominator_of, comprehensiveness_denominator_default.
  rewrite Hc.
  destruct (comprehensiveness_denominators env self !! k) as [d|] eqn:Hd; cbn [default].
  - destruct (denominators_binary k d Hd) as [-> | ->]; destruct (truth v); simpl;
      repeat split; auto; try lia; try discriminate; intros [=].
  - destruct (truth v); simpl; repeat split; auto; try lia; discriminate.
Qed.

Lemma scored_entries (bools : gmap string pyval) (k : string) (n : Z) :
  _comprehensiveness_is_current env self = true ->
  map_imap (fun k v => Some (numerator env self k v)) bools !! k = Some n ->
  exists v, bools !! k = Some v /\ entry_ok k v n.
Proof.
  intros Hc. rewrite map_lookup_imap.
  destruct (bools !! k) as [v|]; simpl; [|discriminate].
  intros [= <-]. exists v. split; [reflexivity|]. by apply numerator_ok.
Qed.

End Bound.

(** C5. For a current activity the default denominator is 1, and every
    entry of [comprehensiveness] and of [comprehensiveness_with_validation]
    is 0 or 1, is 1 only when the criterion's test is true, is 0 when the
    criterion has a denominator entry equal to 0, and is at most the
    criterion's denominator. *)
Theorem comprehensiveness_numerator_bound (env : Env) (self : ActivityStats)
    (k : string) (n : Z) :
  _comprehensiveness_is_current env self = true ->
  comprehensiveness_denominator_default env self = 1
  /\ (forall m, comprehensiveness env self = Return m -> m !! k = Some n ->
        exists bools v, _comprehensiveness_bools env self = Return bools
                        /\ bools !! k = Some v /\ entry_ok env self k v n)
  /\ (forall m, comprehensiveness_with_validation env self = Return m -> m !! k = Some n ->
        exists bools v, _comprehensiveness_with_validation_bools env self = Return bools
                        /\ bools !! k = Some v /\ entry_ok env self k v n).
Proof.
  intros Hc. split; [|split].
  - unfold comprehensiveness_denominator_default. by rewrite Hc.
  - unfold comprehensiveness. rewrite Hc. intros m Hm Hk.
    destruct (_comprehensiveness_bools env self) as [bools|e]; [|discriminate].
    injection Hm as <-.
    destruct (scored_entries env self bools k n Hc Hk) as (v & Hv & Hok). eauto.
  - unfold comprehensiveness_with_validation. rewrite Hc. intros m Hm Hk.
    destruct (_comprehensiveness_with_validation_bools env self) as [bools|e]; [|discriminate].
    injection Hm as <-.
    destruct (scored_entries env self bools k n Hc Hk) as (v & Hv & Hok). eauto.
Qed.

(** An implementing activity of 2020 with a title, a location at the
    origin and a disbursement. *)
Definition current_activity : ActivityStats :=
  activity_of [("default-currency", "EUR")]
    [ leaf "iati-identifier" [] (Some "AA-AAA-1");
      node "reporting-org" [("ref", "AA-AAA")] [ leaf "narrative" [] (Some "Agency") ];
      node "title" [] [ leaf "narrative" [] (Some "Wells") ];
      leaf "activity-status" [("code", "2")] None;
      leaf "activity-date" [("type", "2"); ("iso-date", "2020-01-01")] None;
      node "location" [] [ node "point" [] [ leaf "pos" [] (Some "0 0") ] ];
      node "transaction" []
        [ leaf "transaction-type" [("code", "3")] None;
          leaf "transaction-date" [("iso-date", "2013-05-01")] None;
          leaf "value" [("value-date", "2013-05-01")] (Some "100") ] ].

Lemma comprehensiveness_numerator_bound_witness :
  comprehensiveness_denominator_default env_example current_activity = 1.
Proof.
  apply (comprehensiveness_numerator_bound env_example current_activity "title" 1).
  vm_compute. reflexivity.
Defined.

(** The entry of a criterion in a mapping that was returned. *)
Definition entry (r : result (gmap string Z)) (k : string) : option Z :=
  match r with
  | Return m => m !! k
  | Raise _ => None
  end.

Example comprehensiveness_current_activity :
  map (entry (comprehensiveness env_example current_activity))
    ["title"; "description"; "transaction_spend"; "recipient_language"; "location_point_pos"]
  = [Some 1; Some 0; Some 1; Some 0; Some 1]
  /\ map (entry (comprehensiveness_with_validation env_example current_activity))
       ["title"; "transaction_spend"; "location_point_pos"]
     = [Some 1; Some 1; Some 0].
Proof. split; vm_compute; reflexivity. Qed.

(** ** The recent-spend criterion *)

(** A dictionary written as a literal holds, under a key, the value of the
    first pair with that key. *)
Fixpoint first_with_key {A} (k : string) (l : list (string * A)) : option A :=
  match l with
  | [] => None
  | (k', v) :: l' => if String.eqb k k' then Some v else first_with_key k l'
  end.

Lemma lookup_list_to_map_first {A} (k : string) (l : list (string * A)) :
  (list_to_map l : gmap string A) !! k = first_with_key k l.
Proof.
  induction l as [|[k' v] l IH]; simpl.
  - apply lookup_empty.
  - destruct (String.eqb_spec k k') as [-> | Hne].
    + apply lookup_insert_eq.
    + rewrite lookup_insert_ne by congruence. exact IH.
Qed.

Section RecentSpend.

Context (env : Env).
Context (self : ActivityStats).

(** The start date in the words of the specification: that of the first
    actual start date of the activity when it has one, else that of its
    first planned start date. *)
Definition preferred_start_date : option date :=
  match activity_dates_of_type self (_actual_start_code env self) with
  | d :: _ => iso_date env d
  | [] =>
      match activity_dates_of_type self (_planned_start_code env self) with
      | d :: _ => iso_date env d
      | [] => None
      end
  end.

(** The activity started before today and more than 365 days ago. *)
Definition started_over_a_year_ago : Prop :=
  exists d, preferred_start_date = Some d
            /\ Date.ltb d (today self) = true
            /\ 365 < Date.sub_days (today self) d.

Lemma start_date_preferred : start_date env self = preferred_start_date.
Proof.
  unfold start_date, preferred_start_date.
  destruct (activity_dates_of_type self (_actual_start_code env self)); reflexivity.
Qed.

Lemma transaction_spend_denominator_current :
  _comprehensiveness_is_current env self = true ->
  comprehensiveness_denominators env self !! "transaction_spend"
  = Some match preferred_start_date with
         | Some d =>
             if Date.ltb d (today self) && (365 <? Date.sub_days (today self) d)
             then 1 else 0
         | None => 0
         end.
Proof.
  intros Hc. unfold comprehensiveness_denominators. rewrite Hc, start_date_preferred.
  lookup_literal. reflexivity.
Qed.

Lemma transaction_spend_denominator_one :
  _comprehensiveness_is_current env self = true ->
  comprehensiveness_denominators env self !! "transaction_spend" = Some 1
  <-> started_over_a_year_ago.
Proof.
  intros Hc. rewrite (transaction_spend_denominator_current Hc).
  unfold started_over_a_year_ago.
  destruct preferred_start_date as [d|].
  - destruct (Date.ltb d (today self)) eqn:E1; simpl.
    + destruct (Z.ltb_spec 365 (Date.sub_days (today self) d)).
      * split; [|reflexivity]. intros _. exists d. auto.
      * split; [discriminate|]. intros (d' & [= <-] & _ & ?). lia.
    + split; [discriminate|]. intros (d' & [= <-] & ? & _). congruence.
  - split; [discriminate|]. intros (d' & ? & _). discriminate.
Qed.

Lemma transaction_spend_denominator_zero :
  _comprehensiveness_is_current env self = true ->
  ~ started_over_a_year_ago ->
  comprehensiveness_denominators env self !! "transaction_spend" = Some 0.
Proof.
  intros Hc Hn.
  destruct (comprehensiveness_denominators env self !! "transaction_spend") as [d|] eqn:Hd.
  - destruct (denominators_binary env self _ _ Hd) as [-> | ->]; [reflexivity|].
    apply (transaction_spend_denominator_one Hc) in Hd. contradiction.
  - rewrite (transaction_spend_denominator_current Hc) in Hd. discriminate.
Qed.

(** Both dictionaries of tests have the criterion. *)
Lemma bools_transaction_spend (bools : gmap string pyval) :
  _comprehensiveness_bools env self = Return bools ->
  is_Some (bools !! "transaction_spend").
Proof.
  unfold _comprehensiveness_bools.
  destruct (_budget_not_provided self) as [bnp|e]; cbn [bind]; [|discriminate].
  intros H. apply Return_inj in H. subst bools. rewrite lookup_list_to_map_first.
  lazy beta iota delta [first_with_key String.eqb Ascii.eqb Bool.eqb]. eauto.
Qed.

Lemma validation_bools_extend (vb : gmap string pyval) (k : string) :
  _comprehensiveness_with_validation_bools env self = Return vb ->
  exists bools, _comprehensiveness_bools env self = Return bools
                /\ (is_Some (bools !! k) -> is_Some (vb !! k)).
Proof.
  unfold _comprehensiveness_with_validation_bools.
  destruct (_comprehensiveness_bools env self) as [bools|e]; cbn [bind]; [|discriminate].
  intros H. exists bools. split; [reflexivity|]. intros Hb.
  repeat match type of H with
         | bind ?m _ = _ => destruct m; cbn [bind] in H; [|discriminate]
         end.
  apply Return_inj in H. subst vb. apply lookup_union_is_Some. auto.
Qed.

End RecentSpend.

Lemma numerator_zero_denominator (env : Env) (self : ActivityStats) (k : string) (v : pyval) :
  comprehensiveness_denominators env self !! k = Some 0 -> numerator env self k v = 0.
Proof.
  intros H. unfold numerator. rewrite H. cbn [Z.eqb negb]. rewrite andb_false_r. reflexivity.
Qed.

(** X1. For a current activity the [transaction_spend] entry of
    [comprehensiveness_denominators] is 1 exactly when the start date (that
    of the first actual start date element when there is one, else of the
    first planned one) lies before today and more than 365 days in the
    past. Otherwise the entry is 0, and whenever [comprehensiveness] or
    [comprehensiveness_with_validation] returns, its [transaction_spend]
    entry is present and is 0. *)
Theorem transaction_spend_denominator (env : Env) (self : ActivityStats) :
  _comprehensiveness_is_current env self = true ->
  (comprehensiveness_denominators env self !! "transaction_spend" = Some 1
   <-> started_over_a_year_ago env self)
  /\ (~ started_over_a_year_ago env self ->
      comprehensiveness_denominators env self !! "transaction_spend" = Some 0
      /\ (forall m, comprehensiveness env self = Return m ->
                    m !! "transaction_spend" = Some 0)
      /\ (forall m, comprehensiveness_with_validation env self = Return m ->
                    m !! "transaction_spend" = Some 0)).
Proof.
  intros Hc. split; [exact (transaction_spend_denominator_one env self Hc)|].
  intros Hn.
  pose proof (transaction_spend_denominator_zero env self Hc Hn) as Hz.
  split; [exact Hz|]. split.
  - intros m. unfold comprehensiveness. rewrite Hc.
    destruct (_comprehensiveness_bools env self) as [bools|e] eqn:Hb; cbn [bind];
      [|discriminate].
    intros H. apply Return_inj in H. subst m. rewrite map_lookup_imap.
    destruct (bools_transaction_spend env self bools Hb) as [v ->]. cbn.
    by rewrite (numerator_zero_denominator env self _ v Hz).
  - intros m. unfold comprehensiveness_with_validation. rewrite Hc.
    destruct (_comprehensiveness_with_validation_bools env self) as [vb|e] eqn:Hv;
      cbn [bind]; [|discriminate].
    intros H. apply Return_inj in H. subst m. rewrite map_lookup_imap.
    destruct (validation_bools_extend env self vb "transaction_spend" Hv)
      as (bools & Hb & Hext).
    destruct (Hext (bools_transaction_spend env self bools Hb)) as [v ->]. cbn.
    by rewrite (numerator_zero_denominator env self _ v Hz).
Qed.

(** An activity that started last month: implementing, with a title and a
    disbursement. *)
Definition recent_activity : ActivityStats :=
  activity_of [("default-currency", "EUR")]
    [ leaf "iati-identifier" [] (Some "AA-AAA-2");
      node "title" [] [ leaf "narrative" [] (Some "Wells") ];
      leaf "activity-status" [("code", "2")] None;
      leaf "activity-date" [("type", "1"); ("iso-date", "2019-01-01")] None;
      leaf "activity-date" [("type", "2"); ("iso-date", "2026-10-01")] None;
      node "transaction" []
        [ leaf "transaction-type" [("code", "3")] None;
          leaf "transaction-date" [("iso-date", "2026-10-10")] None;
          leaf "value" [("value-date", "2026-10-10")] (Some "100") ] ].

Lemma transaction_spend_denominator_witness :
  comprehensiveness_denominators env_example current_activity !! "transaction_spend" = Some 1
  /\ comprehensiveness_denominators env_example recent_activity !! "transaction_spend" = Some 0.
Proof.
  split.
  - destruct (transaction_spend_denominator env_example current_activity) as [[_ H] _];
      [vm_compute; reflexivity|].
    apply H. eexists. split; [vm_compute; reflexivity|]. split; vm_compute; reflexivity.
  - destruct (transaction_spend_denominator env_example recent_activity) as [_ H];
      [vm_compute; reflexivity|].
    destruct H as [H _]; [|exact H].
    intros (d & Hd & _ & Hlt). vm_compute in Hd. injection Hd as <-.
    vm_compute in Hlt. discriminate.
Defined.

(** C8. For every current activity, the [transaction_spend] criterion
    counts in the denominator, its entry of
    [comprehensiveness_denominators] being 1, if and only if the activity
    has a start date (the actual one preferred, else the planned one) that
    lies before today and more than 365 days in the past. Otherwise the
    entry is 0 and the activity cannot contribute to the numerator of the
    criterion: its entry is 0 in [comprehensiveness] and in
    [comprehensiveness_with_validation], whatever its transactions. *)
Theorem recent_spend_denominator (env : Env) (self : ActivityStats) :
  _comprehensiveness_is_current env self = true ->
  (comprehensiveness_denominators env self !! "transaction_spend" = Some 1
   <-> exists d, preferred_start_date env self = Some d
                 /\ Date.ltb d (today self) = true
                 /\ 365 < Date.sub_days (today self) d)
  /\ ((forall d, preferred_start_date env self = Some d ->
                 Date.ltb d (today self) = false
                 \/ Date.sub_days (today self) d <= 365) ->
      comprehensiveness_denominators env self !! "transaction_spend" = Some 0
      /\ (forall m, comprehensiveness env self = Return m ->
                    m !! "transaction_spend" = Some 0)
      /\ (forall m, comprehensiveness_with_validation env self = Return m ->
                    m !! "transaction_spend" = Some 0)).
Proof.
  intros Hc. split; [exact (transaction_spend_denominator_one env self Hc)|].
  intros Hnot.
  assert (~ started_over_a_year_ago env self) as Hn.
  { intros (d & Hd & Hlt & Hdays). destruct (Hnot d Hd) as [H | H]; [congruence|lia]. }
  pose proof (transaction_spend_denominator_zero env self Hc Hn) as Hz.
  split; [exact Hz|]. split.
  - intros m. unfold comprehensiveness. rewrite Hc.
    destruct (_comprehensiveness_bools env self) as [bools|e] eqn:Hb; cbn [bind];
      [|discriminate].
    intros H. apply Return_inj in H. subst m. rewrite map_lookup_imap.
    destruct (bools_transaction_spend env self bools Hb) as [v ->]. cbn.
    by rewrite (numerator_zero_denominator env self _ v Hz).
  - intros m. unfold comprehensiveness_with_validation. rewrite Hc.
    destruct (_comprehensiveness_with_validation_bools env self) as [vb|e] eqn:Hv;
      cbn [bind]; [|discriminate].
    intros H. apply Return_inj in H. subst m. rewrite map_lookup_imap.
    destruct (validation_bools_extend env self vb "transaction_spend" Hv)
      as (bools & Hb & Hext).
    destruct (Hext (bools_transaction_spend env self bools Hb)) as [v ->]. cbn.
    by rewrite (numerator_zero_denominator env self _ v Hz).
Qed.

Lemma recent_spend_denominator_witness :
  comprehensiveness_denominators env_example recent_activity !! "transaction_spend" = Some 0
  /\ entry (comprehensiveness env_example recent_activity) "transaction_spend" = Some 0
  /\ comprehensiveness_denominators env_example current_activity !! "transaction_spend"
     = Some 1.
Proof.
  destruct (recent_spend_denominator env_example recent_activity) as [_ H];
    [vm_compute; reflexivity|].
  destruct H as (Hd & Hm & _).
  { intros d Hd. vm_compute in Hd. injection Hd as <-. right. vm_compute. discriminate. }
  split; [exact Hd|]. split.
  - destruct (comprehensiveness env_example recent_activity) as [m|e] eqn:E.
    + exact (Hm m eq_refl).
    + assert (returned (comprehensiveness env_example recent_activity) = true) as Hr
        by (vm_compute; reflexivity).
      rewrite E in Hr. discriminate.
  - destruct (recent_spend_denominator env_example current_activity) as [[_ H] _];
      [vm_compute; reflexivity|].
    apply H. eexists. split; [vm_compute; reflexivity|]. split; vm_compute; reflexivity.
Defined.

(** ** Coordinates *)

Section Coordinates.

(** The rational a finite decimal denotes, (-1)^sign * coef * 10^exp;
    infinities and NaNs denote none. *)
Definition decimal_value (d : Decimal.decimal) : option Q :=
  match d with
  | Decimal.Fin s c e => Some (inject_Z (Decimal.signed s c) * inject_Z 10 ^ e)%Q
  | _ => None
  end.

Lemma signed_of_Z (n : Z) : Decimal.signed (n <? 0) (Z.abs_N n) = n.
Proof.
  unfold Decimal.signed. rewrite N2Z.inj_abs_N.
  destruct (Z.ltb_spec n 0); lia.
Qed.

Lemma Qcompare_inject_Z (a b : Z) : (inject_Z a ?= inject_Z b)%Q = (a ?= b).
Proof. unfold Qcompare. simpl. by rewrite !Z.mul_1_r. Qed.

Lemma Pos_pow_1_l (p : positive) : (1 ^ p)%positive = 1%positive.
Proof.
  induction p as [|p IH] using Pos.peano_ind; [reflexivity|].
  by rewrite Pos.pow_succ_r, IH.
Qed.

(** [Decimal._cmp] against an integer is the order of the values. *)
Lemma cmp_of_Z (s : bool) (c : N) (e : Z) (n : Z) :
  Decimal.cmp (Decimal.Fin s c e) (Decimal.of_Z n)
  = (inject_Z (Decimal.signed s c) * inject_Z 10 ^ e ?= inject_Z n)%Q.
Proof.
  unfold Decimal.of_Z. cbn [Decimal.cmp]. rewrite signed_of_Z.
  set (a := Decimal.signed s c).
  destruct e as [|p|p].
  - cbn [Z.min Z.sub Z.opp Z.pow Z.add]. simpl Qpower.
    rewrite Qmult_1_r, Qcompare_inject_Z. by rewrite !Z.mul_1_r.
  - replace (Z.min (Z.pos p) 0) with 0 by lia. rewrite !Z.sub_0_r.
    change (10 ^ 0) with 1. rewrite Z.mul_1_r.
    rewrite <- Zpower_Qpower by lia. rewrite <- inject_Z_mult.
    apply eq_sym, Qcompare_inject_Z.
  - replace (Z.min (Z.neg p) 0) with (Z.neg p) by lia.
    rewrite Z.sub_diag. change (10 ^ 0) with 1. rewrite Z.mul_1_r.
    replace (0 - Z.neg p) with (Z.pos p) by lia.
    cbn [Qpower]. unfold inject_Z at 2. rewrite Qpower_decomp_positive.
    rewrite Pos_pow_1_l.
    assert (0 < 10 ^ Z.pos p) as Hpos by (apply Z.pow_pos_nonneg; lia).
    destruct (10 ^ Z.pos p) as [|q|q] eqn:Hq; try lia.
    unfold Qcompare, Qinv, Qmult, inject_Z. simpl.
    by rewrite !Z.mul_1_r, Pos.mul_1_l.
Qed.

Lemma lt_of_Z (s : bool) (c : N) (e n : Z) :
  Decimal.lt (Decimal.Fin s c e) (Decimal.of_Z n)
  = Return (if Qlt_le_dec (inject_Z (Decimal.signed s c) * inject_Z 10 ^ e) (inject_Z n)
            then true else false).
Proof.
  unfold Decimal.lt. cbn [Decimal.is_nan Decimal.of_Z orb]. fold (Decimal.of_Z n).
  rewrite cmp_of_Z.
  destruct (Qcompare_spec (inject_Z (Decimal.signed s c) * inject_Z 10 ^ e) (inject_Z n));
    destruct (Qlt_le_dec _ _); try reflexivity; exfalso; lra.
Qed.

Lemma gt_of_Z (s : bool) (c : N) (e n : Z) :
  Decimal.gt (Decimal.Fin s c e) (Decimal.of_Z n)
  = Return (if Qlt_le_dec (inject_Z n) (inject_Z (Decimal.signed s c) * inject_Z 10 ^ e)
            then true else false).
Proof.
  unfold Decimal.gt. cbn [Decimal.is_nan Decimal.of_Z orb]. fold (Decimal.of_Z n).
  rewrite cmp_of_Z.
  destruct (Qcompare_spec (inject_Z (Decimal.signed s c) * inject_Z 10 ^ e) (inject_Z n));
    destruct (Qlt_le_dec _ _); try reflexivity; exfalso; lra.
Qed.

Lemma eq_of_Z (s : bool) (c : N) (e n : Z) :
  Decimal.eq (Decimal.Fin s c e) (Decimal.of_Z n)
  = Return (if Qeq_dec (inject_Z (Decimal.signed s c) * inject_Z 10 ^ e) (inject_Z n)
            then true else false).
Proof.
  unfold Decimal.eq. cbn [Decimal.is_nan Decimal.is_snan Decimal.of_Z orb].
  fold (Decimal.of_Z n). rewrite cmp_of_Z.
  destruct (Qcompare_spec (inject_Z (Decimal.signed s c) * inject_Z 10 ^ e) (inject_Z n));
    destruct (Qeq_dec _ _); try reflexivity; exfalso; lra.
Qed.

(** The tests of [valid_coords] on the two parsed numbers. *)
Definition coords_checks (lat lng : Decimal.decimal) : result bool :=
  origin <- and_m (Decimal.eq lat (Decimal.of_Z 0)) (Decimal.eq lng (Decimal.of_Z 0)) ;;
  if origin then Return false
  else
    outside <- or_m (Decimal.lt lat (Decimal.of_Z (-90)))
                 (or_m (Decimal.gt lat (Decimal.of_Z 90))
                    (or_m (Decimal.lt lng (Decimal.of_Z (-180)))
                       (Decimal.gt lng (Decimal.of_Z 180)))) ;;
    if outside then Return false else Return true.

(** A latitude and a longitude that are in range and not both zero. *)
Definition in_bounds (lat lng : Q) : Prop :=
  (inject_Z (-90) <= lat /\ lat <= inject_Z 90
   /\ inject_Z (-180) <= lng /\ lng <= inject_Z 180
   /\ ~ (lat == 0 /\ lng == 0))%Q.

Lemma coords_checks_finite (lat lng : Decimal.decimal) (vlat vlng : Q) :
  decimal_value lat = Some vlat -> decimal_value lng = Some vlng ->
  (coords_checks lat lng = Return true /\ in_bounds vlat vlng)
  \/ (coords_checks lat lng = Return false /\ ~ in_bounds vlat vlng).
Proof.
  destruct lat as [s1 c1 e1| |]; try discriminate.
  destruct lng as [s2 c2 e2| |]; try discriminate.
  cbn [decimal_value]. intros [= <-] [= <-].
  unfold coords_checks, in_bounds.
  rewrite !eq_of_Z, !lt_of_Z, !gt_of_Z.
  set (a := (inject_Z (Decimal.signed s1 c1) * inject_Z 10 ^ e1)%Q).
  set (b := (inject_Z (Decimal.signed s2 c2) * inject_Z 10 ^ e2)%Q).
  change (inject_Z 0) with 0%Q.
  destruct (Qeq_dec a 0) as [Ha | Ha]; cbn [and_m bind];
    [destruct (Qeq_dec b 0) as [Hb | Hb]; cbn [and_m bind]|].
  - right. split; [reflexivity|]. tauto.
  - destruct (Qlt_le_dec a (inject_Z (-90))) as [H1 | H1]; cbn [or_m bind].
    { right. split; [reflexivity|]. intros (H & _). exact (Qlt_not_le _ _ H1 H). }
    destruct (Qlt_le_dec (inject_Z 90) a) as [H2 | H2]; cbn [or_m bind].
    { right. split; [reflexivity|]. intros (_ & H & _). exact (Qlt_not_le _ _ H2 H). }
    destruct (Qlt_le_dec b (inject_Z (-180))) as [H3 | H3]; cbn [or_m bind].
    { right. split; [reflexivity|]. intros (_ & _ & H & _). exact (Qlt_not_le _ _ H3 H). }
    destruct (Qlt_le_dec (inject_Z 180) b) as [H4 | H4]; cbn [or_m bind].
    { right. split; [reflexivity|]. intros (_ & _ & _ & H & _). exact (Qlt_not_le _ _ H4 H). }
    left. split; [reflexivity|]. repeat split; auto. tauto.
  - destruct (Qlt_le_dec a (inject_Z (-90))) as [H1 | H1]; cbn [or_m bind].
    { right. split; [reflexivity|]. intros (H & _). exact (Qlt_not_le _ _ H1 H). }
    destruct (Qlt_le_dec (inject_Z 90) a) as [H2 | H2]; cbn [or_m bind].
    { right. split; [reflexivity|]. intros (_ & H & _). exact (Qlt_not_le _ _ H2 H). }
    destruct (Qlt_le_dec b (inject_Z (-180))) as [H3 | H3]; cbn [or_m bind].
    { right. split; [reflexivity|]. intros (_ & _ & H & _). exact (Qlt_not_le _ _ H3 H). }
    destruct (Qlt_le_dec (inject_Z 180) b) as [H4 | H4]; cbn [or_m bind].
    { right. split; [reflexivity|]. intros (_ & _ & _ & H & _). exact (Qlt_not_le _ _ H4 H). }
    left. split; [reflexivity|]. repeat split; auto. tauto.
Qed.

Lemma coords_checks_not_finite (lat lng : Decimal.decimal) :
  decimal_value lat = None \/ decimal_value lng = None ->
  coords_checks lat lng = Return false \/ coords_checks lat lng = Raise InvalidOperation.
Proof.
  intros H. unfold coords_checks.
  destruct lat as [s1 c1 e1|s1|n1], lng as [s2 c2 e2|s2|n2];
    cbn [decimal_value] in H; try (destruct H; discriminate);
    rewrite ?eq_of_Z, ?lt_of_Z, ?gt_of_Z;
    repeat match goal with
           | |- context [Qeq_dec ?a ?b] => destruct (Qeq_dec a b)
           | |- context [Qlt_le_dec ?a ?b] => destruct (Qlt_le_dec a b)
           | b : bool |- _ => destruct b
           end;
    cbn; auto.
Qed.

Lemma of_string_raises (s : string) (e : exn) :
  Decimal.of_string s = Raise e -> e = InvalidOperation.
Proof.
  unfold Decimal.of_string.
  destruct (Decimal.parse_sign _) as [neg r].
  destruct (Decimal.parse_number neg r); [discriminate|].
  destruct (Decimal.parse_special neg r); [discriminate|].
  congruence.
Qed.

End Coordinates.

(** What [valid_coords] returns, in the embedding of [Decimal]. *)
Lemma valid_coords_cases (x : option string) :
  (valid_coords x = Return true \/ valid_coords x = Return false)
  /\ (valid_coords x = Return true <->
      exists s c0 c1 lat lng vlat vlng,
        x = Some s /\ PyStr.split " " s = [c0; c1]
        /\ Decimal.of_string c0 = Return lat /\ Decimal.of_string c1 = Return lng
        /\ decimal_value lat = Some vlat /\ decimal_value lng = Some vlng
        /\ in_bounds vlat vlng).
Proof.
  destruct x as [s|]; cbn [valid_coords].
  2:{ split; [auto|]. split; [discriminate|]. intros (s & ? & ? & ? & ? & ? & ? & ? & _).
      discriminate. }
  destruct (PyStr.split " " s) as [|c0 [|c1 [|c2 rest]]] eqn:Hs;
    try (split; [auto|]; split; [discriminate|];
         intros (s' & ? & ? & ? & ? & ? & ? & [= <-] & Hs' & _); congruence).
  unfold valid_coords_body. fold coords_checks.
  destruct (Decimal.of_string c0) as [lat|e0] eqn:H0; cbn [bind try_except].
  2:{ rewrite (of_string_raises _ _ H0). cbn. split; [auto|]. split; [discriminate|].
      intros (s' & ? & ? & ? & ? & ? & ? & [= <-] & Hs' & Hl & _).
      rewrite Hs in Hs'. injection Hs' as <- <-. congruence. }
  destruct (Decimal.of_string c1) as [lng|e1] eqn:H1; cbn [bind try_except].
  2:{ rewrite (of_string_raises _ _ H1). cbn. split; [auto|]. split; [discriminate|].
      intros (s' & ? & ? & ? & ? & ? & ? & [= <-] & Hs' & _ & Hl & _).
      rewrite Hs in Hs'. injection Hs' as <- <-. congruence. }
  change (origin <- _ ;; _) with (coords_checks lat lng).
  destruct (decimal_value lat) as [vlat|] eqn:Vlat; [destruct (decimal_value lng) as [vlng|] eqn:Vlng|].
  - destruct (coords_checks_finite lat lng vlat vlng Vlat Vlng) as [[-> Hb] | [-> Hb]].
    + split; [auto|]. split; [|reflexivity]. intros _.
      exists s, c0, c1, lat, lng, vlat, vlng. auto 10.
    + split; [auto|]. split; [discriminate|].
      intros (s' & c0' & c1' & lat' & lng' & vlat' & vlng' & [= <-] & Hs' & Hl0 & Hl1 & V0 & V1 & Hin).
      rewrite Hs in Hs'. injection Hs' as <- <-.
      rewrite H0 in Hl0. rewrite H1 in Hl1. apply Return_inj in Hl0, Hl1. subst lat' lng'.
      rewrite Vlat in V0. rewrite Vlng in V1. injection V0 as <-. injection V1 as <-.
      contradiction.
  - destruct (coords_checks_not_finite lat lng (or_intror Vlng)) as [-> | ->];
      (split; [auto|]; split; [discriminate|]);
      intros (s' & c0' & c1' & lat' & lng' & vlat' & vlng' & [= <-] & Hs' & Hl0 & Hl1 & V0 & V1 & Hin);
      rewrite Hs in Hs'; injection Hs' as <- <-;
      rewrite H1 in Hl1; apply Return_inj in Hl1; subst lng'; congruence.
  - destruct (coords_checks_not_finite lat lng (or_introl Vlat)) as [-> | ->];
      (split; [auto|]; split; [discriminate|]);
      intros (s' & c0' & c1' & lat' & lng' & vlat' & vlng' & [= <-] & Hs' & Hl0 & Hl1 & V0 & V1 & Hin);
      rewrite Hs in Hs'; injection Hs' as <- <-;
      rewrite H0 in Hl0; apply Return_inj in Hl0; subst lat'; congruence.
Qed.

(** The text of an element is absent or ASCII. *)
Definition ascii_text (x : option string) : Prop :=
  forall s, x = Some s -> PyStr.is_ascii s = true.

(** X2. On a text of ASCII characters, or no text, [valid_coords] never
    raises, and it returns True exactly for a string that splits on
    single spaces into two fields, each of which [Decimal] parses to a
    finite number, the first in [-90, 90], the second in [-180, 180], and
    not both zero. *)
Theorem valid_coords_true_iff (x : option string) :
  ascii_text x ->
  (valid_coords x = Return true \/ valid_coords x = Return false)
  /\ (valid_coords x = Return true <->
      exists s c0 c1 lat lng vlat vlng,
        x = Some s /\ PyStr.split " " s = [c0; c1]
        /\ Decimal.of_string c0 = Return lat /\ Decimal.of_string c1 = Return lng
        /\ decimal_value lat = Some vlat /\ decimal_value lng = Some vlng
        /\ in_bounds vlat vlng).
Proof. intros _. apply valid_coords_cases. Qed.

Lemma valid_coords_true_iff_witness :
  valid_coords (Some "51.5 -0.12") = Return true
  /\ valid_coords (Some "0.0 0e5") = Return false.
Proof.
  split.
  - destruct (valid_coords_true_iff (Some "51.5 -0.12")) as [_ [_ H]].
    + intros s [= <-]. reflexivity.
    + apply H.
      exists "51.5 -0.12", "51.5", "-0.12", (Decimal.Fin false 515 (-1)),
        (Decimal.Fin true 12 (-2)), (515 # 10)%Q, (-12 # 100)%Q.
      repeat split; try reflexivity; try discriminate.
      intros [H0 _]. discriminate.
  - destruct (valid_coords_true_iff (Some "0.0 0e5")) as [[Ht | Hf] [Hiff _]].
    + intros s [= <-]. reflexivity.
    + destruct (Hiff Ht)
        as (s & c0 & c1 & lat & lng & vlat & vlng & [= <-] & Hs & H0 & H1 & V0 & V1 & Hin).
      vm_compute in Hs. injection Hs as <- <-.
      vm_compute in H0, H1. apply Return_inj in H0, H1. subst lat lng.
      cbn [decimal_value] in V0, V1. injection V0 as <-. injection V1 as <-.
      exfalso. destruct Hin as (_ & _ & _ & _ & Hz). apply Hz. split; reflexivity.
    + exact Hf.
Defined.

Lemma map_m_Forall2 {A B} (f : A -> result B) (l : list A) (ys : list B) :
  map_m f l = Return ys -> Forall2 (fun x y => f x = Return y) l ys.
Proof.
  revert ys. induction l as [|x l IH]; intros ys; cbn [map_m].
  - intros H. apply Return_inj in H. subst ys. constructor.
  - destruct (f x) as [y|e] eqn:Hx; [|discriminate].
    destruct (map_m f l) as [ys'|e]; [|discriminate].
    intros H. apply Return_inj in H. subst ys. constructor; auto.
Qed.

Lemma all_true_and_not_empty_iff (l : list bool) :
  all_true_and_not_empty l = true <-> l <> [] /\ Forall (fun b => b = true) l.
Proof.
  unfold all_true_and_not_empty.
  destruct l as [|b l]; cbn [length].
  - rewrite andb_false_r. split; [discriminate|]. intros [H _]. contradiction.
  - replace (0 <? Z.of_nat (S (length l))) with true by (symmetry; apply Z.ltb_lt; lia).
    rewrite andb_true_r.
    destruct (forallb id (b :: l)) eqn:E.
    + split; [|reflexivity]. intros _. split; [discriminate|].
      apply Forall_forall. intros x Hx.
      rewrite forallb_forall in E. apply (E x). by apply list_elem_of_In.
    + split; [discriminate|]. intros [_ H].
      assert (forallb id (b :: l) = true) as E'; [|congruence].
      apply forallb_forall. intros x Hx. rewrite Forall_forall in H.
      apply H. by apply list_elem_of_In.
Qed.

(** The validated test on the coordinates, through [valid_coords]. *)
Lemma location_point_pos_test (env : Env) (self : ActivityStats) (vb : gmap string pyval) :
  _comprehensiveness_with_validation_bools env self = Return vb ->
  exists b, vb !! "location_point_pos" = Some (VBool b)
            /\ (b = true <->
                location_point_pos self <> []
                /\ Forall (fun x => valid_coords (text x) = Return true)
                     (location_point_pos self)).
Proof.
  unfold _comprehensiveness_with_validation_bools. intros H.
  destruct (_comprehensiveness_bools env self) as [bools|e]; cbn [bind] in H; [|discriminate].
  repeat match type of H with
         | bind (map_m _ _) _ = _ => fail 1
         | bind ?m _ = _ => destruct m; cbn [bind] in H; [|discriminate]
         end.
  destruct (map_m _ (location_point_pos self)) as [coords|e] eqn:Hc; cbn [bind] in H;
    [|discriminate].
  apply Return_inj in H. subst vb.
  exists (all_true_and_not_empty coords). split.
  - rewrite lookup_union, lookup_list_to_map_first.
    lazy beta iota delta [first_with_key String.eqb Ascii.eqb Bool.eqb].
    by destruct (bools !! "location_point_pos").
  - apply map_m_Forall2 in Hc. rewrite all_true_and_not_empty_iff.
    split; intros [Hne Hall]; split.
    + intros E. rewrite E in Hc. inversion Hc. congruence.
    + clear Hne. induction Hc; inversion Hall; subst; constructor; auto; congruence.
    + intros E. rewrite E in Hc. inversion Hc. congruence.
    + clear Hne. induction Hc; inversion Hall; subst; constructor; auto; congruence.
Qed.

(** X3. For an activity whose [location/point/pos] elements have ASCII
    text or none: whenever [_comprehensiveness_with_validation_bools]
    returns, its [location_point_pos] test is a truth value that is true
    exactly when the activity has at least one [location/point/pos]
    element and [valid_coords] accepts the text of every one of them. *)
Theorem location_point_pos_validated (env : Env) (self : ActivityStats)
    (vb : gmap string pyval) :
  Forall (fun x => ascii_text (text x)) (location_point_pos self) ->
  _comprehensiveness_with_validation_bools env self = Return vb ->
  exists b, vb !! "location_point_pos" = Some (VBool b)
            /\ (b = true <->
                location_point_pos self <> []
                /\ Forall (fun x => valid_coords (text x) = Return true)
                     (location_point_pos self)).
Proof. intros _. apply location_point_pos_test. Qed.

Lemma location_point_pos_validated_witness :
  exists vb, _comprehensiveness_with_validation_bools env_example current_activity = Return vb
             /\ vb !! "location_point_pos" = Some (VBool false).
Proof.
  destruct (_comprehensiveness_with_validation_bools env_example current_activity)
    as [vb|e] eqn:H.
  - exists vb. split; [reflexivity|].
    assert (location_point_pos current_activity = [leaf "pos" [] (Some "0 0")]) as Hl
      by (vm_compute; reflexivity).
    destruct (location_point_pos_validated env_example current_activity vb)
      as (b & Hb & Hiff); [|exact H|].
    { rewrite Hl. constructor; [|constructor]. intros s [= <-]. reflexivity. }
    rewrite Hb. destruct b; [|reflexivity].
    destruct Hiff as [Hiff _]. destruct (Hiff eq_refl) as [_ Hall].
    rewrite Hl in Hall. apply Forall_inv in Hall.
    vm_compute in Hall. discriminate.
  - assert (returned (_comprehensiveness_with_validation_bools env_example current_activity)
            = true) as Hr by (vm_compute; reflexivity).
    rewrite H in Hr. discriminate.
Defined.

(** C9. On a text of ASCII characters, [valid_coords] returns False when
    the text does not split on single spaces into exactly two fields,
    when [Decimal] rejects one of the two fields, when one of the two
    numbers is an infinity or a NaN, when both are zero, and when the
    first lies outside [-90, 90] or the second outside [-180, 180].
    Consequently, for an activity whose only [location/point/pos] has the
    text [0 0], the validated [location_point_pos] test is false and the
    criterion scores 0 in [comprehensiveness_with_validation]. *)
Theorem valid_coords_rejects (s : string) :
  PyStr.is_ascii s = true ->
  ((forall c0 c1, PyStr.split " " s <> [c0; c1]) -> valid_coords (Some s) = Return false)
  /\ (forall c0 c1,
        PyStr.split " " s = [c0; c1] ->
        (forall lat, Decimal.of_string c0 <> Return lat)
        \/ (forall lng, Decimal.of_string c1 <> Return lng) ->
        valid_coords (Some s) = Return false)
  /\ (forall c0 c1 lat lng,
        PyStr.split " " s = [c0; c1] ->
        Decimal.of_string c0 = Return lat -> Decimal.of_string c1 = Return lng ->
        decimal_value lat = None \/ decimal_value lng = None ->
        valid_coords (Some s) = Return false)
  /\ (forall c0 c1 lat lng vlat vlng,
        PyStr.split " " s = [c0; c1] ->
        Decimal.of_string c0 = Return lat -> Decimal.of_string c1 = Return lng ->
        decimal_value lat = Some vlat -> decimal_value lng = Some vlng ->
        ((vlat == 0 /\ vlng == 0)
         \/ vlat < inject_Z (-90) \/ inject_Z 90 < vlat
         \/ vlng < inject_Z (-180) \/ inject_Z 180 < vlng)%Q ->
        valid_coords (Some s) = Return false)
  /\ (forall env self pos,
        location_point_pos self = [pos] -> text pos = Some "0 0" ->
        (forall vb, _comprehensiveness_with_validation_bools env self = Return vb ->
                    vb !! "location_point_pos" = Some (VBool false))
        /\ (forall m, _comprehensiveness_is_current env self = true ->
                      comprehensiveness_with_validation env self = Return m ->
                      m !! "location_point_pos" = Some 0)).
Proof.
  intros _.
  destruct (valid_coords_cases (Some s)) as [Hcases Hiff].
  assert (~ valid_coords (Some s) = Return true -> valid_coords (Some s) = Return false)
    as Hfalse by (destruct Hcases; [contradiction|auto]).
  assert (forall env self pos vb,
            location_point_pos self = [pos] -> text pos = Some "0 0" ->
            _comprehensiveness_with_validation_bools env self = Return vb ->
            vb !! "location_point_pos" = Some (VBool false)) as Hzero.
  { intros env self pos vb Hpos Htext Hvb.
    destruct (location_point_pos_test env self vb Hvb) as (b & Hb & Hbiff).
    rewrite Hb. destruct b; [|reflexivity].
    destruct Hbiff as [Hbiff _]. destruct (Hbiff eq_refl) as [_ Hall].
    rewrite Hpos in Hall. apply Forall_inv in Hall. rewrite Htext in Hall.
    vm_compute in Hall. discriminate. }
  split; [|split; [|split; [|split]]].
  - intros Hsplit. apply Hfalse. intros Ht.
    apply Hiff in Ht as (s' & c0 & c1 & ? & ? & ? & ? & [= <-] & Hs & _).
    exact (Hsplit c0 c1 Hs).
  - intros c0 c1 Hsplit Hrej. apply Hfalse. intros Ht.
    apply Hiff in Ht as (s' & c0' & c1' & lat & lng & ? & ? & [= <-] & Hs & H0 & H1 & _).
    rewrite Hsplit in Hs. injection Hs as <- <-.
    destruct Hrej as [Hrej | Hrej]; [exact (Hrej lat H0)|exact (Hrej lng H1)].
  - intros c0 c1 lat lng Hsplit H0 H1 Hnone. apply Hfalse. intros Ht.
    apply Hiff in Ht
      as (s' & c0' & c1' & lat' & lng' & ? & ? & [= <-] & Hs & H0' & H1' & V0 & V1 & _).
    rewrite Hsplit in Hs. injection Hs as <- <-.
    rewrite H0 in H0'. rewrite H1 in H1'. apply Return_inj in H0', H1'. subst lat' lng'.
    destruct Hnone as [Hn | Hn]; congruence.
  - intros c0 c1 lat lng vlat vlng Hsplit H0 H1 V0 V1 Hout. apply Hfalse. intros Ht.
    apply Hiff in Ht
      as (s' & c0' & c1' & lat' & lng' & vlat' & vlng' & [= <-] & Hs & H0' & H1' & V0' & V1'
          & Hin).
    rewrite Hsplit in Hs. injection Hs as <- <-.
    rewrite H0 in H0'. rewrite H1 in H1'. apply Return_inj in H0', H1'. subst lat' lng'.
    rewrite V0 in V0'. rewrite V1 in V1'. injection V0' as <-. injection V1' as <-.
    destruct Hin as (L1 & L2 & L3 & L4 & Hnz).
    destruct Hout as [Hz | [H | [H | [H | H]]]];
      [exact (Hnz Hz) | exact (Qlt_not_le _ _ H L1) | exact (Qlt_not_le _ _ H L2)
      | exact (Qlt_not_le _ _ H L3) | exact (Qlt_not_le _ _ H L4)].
  - intros env self pos Hpos Htext. split.
    + intros vb. by apply (Hzero env self pos vb).
    + intros m Hc. unfold comprehensiveness_with_validation. rewrite Hc.
      destruct (_comprehensiveness_with_validation_bools env self) as [vb|e] eqn:Hvb;
        cbn [bind]; [|discriminate].
      intros H. apply Return_inj in H. subst m. rewrite map_lookup_imap.
      rewrite (Hzero env self pos vb Hpos Htext Hvb). reflexivity.
Qed.

Lemma valid_coords_rejects_witness :
  valid_coords (Some "0 0") = Return false
  /\ valid_coords (Some "91 0") = Return false
  /\ valid_coords (Some "10,5 20") = Return false
  /\ valid_coords (Some "10 20 30") = Return false.
Proof.
  split; [|split; [|split]].
  - destruct (valid_coords_rejects "0 0" eq_refl) as (_ & _ & _ & H & _).
    apply (H "0" "0" (Decimal.Fin false 0 0) (Decimal.Fin false 0 0) 0%Q 0%Q);
      try reflexivity.
    left. split; reflexivity.
  - destruct (valid_coords_rejects "91 0" eq_refl) as (_ & _ & _ & H & _).
    apply (H "91" "0" (Decimal.Fin false 91 0) (Decimal.Fin false 0 0)
             (inject_Z 91 * 1)%Q 0%Q); try reflexivity.
    right. right. left. reflexivity.
  - destruct (valid_coords_rejects "10,5 20" eq_refl) as (_ & H & _).
    apply (H "10,5" "20"); [reflexivity|]. left. intros lat. vm_compute. discriminate.
  - destruct (valid_coords_rejects "10 20 30" eq_refl) as (H & _).
    apply H. intros c0 c1. vm_compute. discriminate.
Defined.

(** The activity of the example above has the origin as its only point:
    the criterion holds without validation and fails with it. *)
Example location_point_pos_origin :
  location_point_pos current_activity = [leaf "pos" [] (Some "0 0")]
  /\ entry (comprehensiveness env_example current_activity) "location_point_pos" = Some 1
  /\ entry (comprehensiveness_with_validation env_example current_activity)
       "location_point_pos" = Some 0.
Proof. repeat split; vm_compute; reflexivity. Qed.

(** ** Adding years to a date *)

Section AddYears.

(** A date that [datetime.date] can hold. *)
Definition date_ok (d : date) : Prop :=
  1 <= year d <= 9999 /\ 1 <= month d <= 12
  /\ 1 <= day d <= Date.days_in_month (year d) (month d).

Lemma days_before_year_step (y : Z) :
  Date.days_before_year (y + 1) = Date.days_before_year y + (if Date.is_leap y then 366 else 365).
Proof.
  unfold Date.days_before_year, Date.is_leap.
  replace (y + 1 - 1) with y by lia.
  destruct (Z.eqb_spec (y mod 4) 0), (Z.eqb_spec (y mod 100) 0), (Z.eqb_spec (y mod 400) 0);
    cbn [negb andb orb]; Z.div_mod_to_equations; lia.
Qed.

(** The sixtieth day of a year that is not a leap year is its first of
    March. *)
Lemma sixtieth_day (y : Z) :
  1 <= y <= 9999 -> Date.is_leap y = false ->
  Date.fromordinal (Date.days_before_year y + 60) = mkDate y 3 1.
Proof.
  intros Hy Hl. unfold Date.fromordinal.
  set (n := Date.days_before_year y + 60).
  set (search := fix search (fuel : nat) (y0 : Z) {struct fuel} : Z :=
         match fuel with
         | O => y0
         | S f => if Date.days_before_year (y0 + 1) <? n then search f (y0 + 1) else y0
         end).
  assert (forall fuel y0, y0 <= y -> y - y0 <= Z.of_nat fuel -> search fuel y0 = y) as Hs.
  { induction fuel as [|f IH]; intros y0 H1 H2; cbn [search].
    - lia.
    - destruct (Z.ltb_spec (Date.days_before_year (y0 + 1)) n) as [Hlt | Hge].
      + apply IH; [|lia].
        destruct (Z.le_gt_cases (y0 + 1) y); [assumption|].
        assert (y0 = y) as -> by lia.
        rewrite days_before_year_step, Hl in Hlt. unfold n in Hlt. lia.
      + destruct (Z.eq_dec y0 y); [assumption|].
        assert (Date.days_before_year (y0 + 1) <= Date.days_before_year y); [|unfold n in Hge; lia].
        clear -H1 n0. assert (y0 + 1 <= y) as Hle by lia. clear H1 n0.
        unfold Date.days_before_year. Z.div_mod_to_equations. lia. }
  rewrite Hs.
  - replace (n - Date.days_before_year y) with 60 by (unfold n; lia).
    cbn [Date.month_of_yday_aux]. unfold Date.days_in_month. rewrite Hl. reflexivity.
  - unfold n, Date.days_before_year. Z.div_mod_to_equations. lia.
  - unfold n, Date.days_before_year. Z.div_mod_to_equations. lia.
Qed.

Lemma days_in_month_other (y y' m : Z) : m <> 2 -> Date.days_in_month y m = Date.days_in_month y' m.
Proof.
  intros H. unfold Date.days_in_month. destruct (Z.eqb_spec m 2); [contradiction|reflexivity].
Qed.

End AddYears.

(** X4. For a date and a number of years whose destination year is
    within 1..9999, [add_years] gives the same month and day in the
    destination year, except for a 29 February whose destination year is
    not a leap year, which becomes the 1 March of that year. *)
Theorem add_years_calendar (d : date) (years : Z) :
  date_ok d -> 1 <= year d + years <= 9999 ->
  add_years d years
  = if (month d =? 2) && (day d =? 29) && negb (Date.is_leap (year d + years))
    then mkDate (year d + years) 3 1
    else mkDate (year d + years) (month d) (day d).
Proof.
  intros (Hy & Hm & Hd) Hy'. unfold add_years, Date.replace_year.
  destruct (Z.eqb_spec (month d) 2) as [E2 | E2]; cbn [andb].
  - rewrite E2 in *. unfold Date.days_in_month in *.
    change (2 =? 2) with true in *. cbn iota in *.
    destruct (Date.is_leap (year d + years)) eqn:L'; cbn [negb].
    + rewrite andb_false_r.
      destruct (Date.is_leap (year d)); (destruct (Z.leb_spec (day d) 29); [reflexivity|lia]).
    + rewrite andb_true_r. destruct (Z.eqb_spec (day d) 29) as [E29 | E29].
      * rewrite E29. cbn [Z.leb Z.compare Pos.compare Pos.compare_cont].
        unfold Date.toordinal. cbn [year month day]. rewrite E2, E29.
        change (Date.days_before_month (year d) 2) with 31.
        change (Date.days_before_month (year d) 1) with 0.
        change (Date.days_before_month (year d + years) 1) with 0.
        replace (Date.days_before_year (year d) + 31 + 29
                 + (Date.days_before_year (year d + years) + 0 + 1
                    - (Date.days_before_year (year d) + 0 + 1)))
          with (Date.days_before_year (year d + years) + 60) by lia.
        by apply sixtieth_day.
      * destruct (Z.leb_spec (day d) 28); [reflexivity|].
        destruct (Date.is_leap (year d)); lia.
  - rewrite <- (days_in_month_other (year d) (year d + years) (month d) E2).
    destruct (Z.leb_spec (day d) (Date.days_in_month (year d) (month d))); [reflexivity|lia].
Qed.

Lemma add_years_calendar_witness :
  add_years (mkDate 2024 2 29) 1 = mkDate 2025 3 1
  /\ add_years (mkDate 2024 2 29) 4 = mkDate 2028 2 29
  /\ add_years (mkDate 2026 11 4) (-1) = mkDate 2025 11 4.
Proof.
  split; [|split].
  - apply (add_years_calendar (mkDate 2024 2 29) 1); [vm_compute; intuition discriminate|].
    vm_compute. intuition discriminate.
  - apply (add_years_calendar (mkDate 2024 2 29) 4); [vm_compute; intuition discriminate|].
    vm_compute. intuition discriminate.
  - apply (add_years_calendar (mkDate 2026 11 4) (-1)); [vm_compute; intuition discriminate|].
    vm_compute. intuition discriminate.
Defined.

(** ** Versions *)

Lemma mem_In (s : string) (l : list string) : PyStr.mem s l = true <-> In s l.
Proof.
  unfold PyStr.mem. rewrite existsb_exists. split.
  - intros (x & Hx & E). apply String.eqb_eq in E. by subst.
  - intros H. exists s. split; [exact H|]. apply String.eqb_refl.
Qed.

(** The version declared on the parent element, when it is not empty and
    is one of the codes of the Version codelist. *)
Definition listed_version (env : Env) (self : ActivityStats) (v : string) : Prop :=
  exists parent, getparent self = Some parent
                 /\ Etree.get parent "version" = Some v
                 /\ v <> "" /\ In v (CODELISTS env "2" "Version").

Lemma version_listed (env : Env) (self : ActivityStats) (v : string) :
  listed_version env self v -> _version env self = v.
Proof.
  intros (p & Hp & Hv & Hne & Hin). unfold _version. rewrite Hp, Hv.
  unfold truthy_s. apply String.eqb_neq in Hne. rewrite Hne.
  apply mem_In in Hin. rewrite Hin. reflexivity.
Qed.

Lemma version_not_listed (env : Env) (self : ActivityStats) :
  (forall v, ~ listed_version env self v) -> _version env self = "1.01".
Proof.
  intros H. unfold _version.
  destruct (getparent self) as [p|] eqn:Hp; [|reflexivity].
  destruct (Etree.get p "version") as [v|] eqn:Hv; [|reflexivity].
  unfold truthy_s. destruct (String.eqb_spec v "") as [E | Hne]; [reflexivity|].
  cbn [negb andb]. destruct (PyStr.mem v (CODELISTS env "2" "Version")) eqn:Hm; [|reflexivity].
  exfalso. apply (H v). exists p. rewrite mem_In in Hm. auto.
Qed.

Lemma listed_version_dec (env : Env) (self : ActivityStats) :
  (exists v, listed_version env self v) \/ (forall v, ~ listed_version env self v).
Proof.
  destruct (getparent self) as [p|] eqn:Hp.
  2:{ right. intros v (p & H & _). congruence. }
  destruct (Etree.get p "version") as [v|] eqn:Hv.
  2:{ right. intros v (p' & H & H' & _). congruence. }
  destruct (String.eqb_spec v "") as [E | Hne].
  { right. intros v' (p' & H & H' & H'' & _). congruence. }
  destruct (PyStr.mem v (CODELISTS env "2" "Version")) eqn:Hm.
  - left. exists v, p. rewrite mem_In in Hm. auto.
  - right. intros v' (p' & H & H' & _ & Hin).
    assert (v' = v) as -> by congruence. apply mem_In in Hin. congruence.
Qed.

(** X5. [_version] is the version attribute of the parent element when
    that is a non-empty code of the Version codelist, and 1.01 in every
    other case (no parent, no attribute, an unknown version);
    [_major_version] is 2 exactly when that attribute is a listed version
    that starts with [2.], and 1 otherwise. *)
Theorem version_of_parent (env : Env) (self : ActivityStats) :
  (forall v, listed_version env self v -> _version env self = v)
  /\ ((forall v, ~ listed_version env self v) -> _version env self = "1.01")
  /\ (_major_version env self = "2"
      <-> exists v, listed_version env self v /\ PyStr.startswith v "2." = true)
  /\ (_major_version env self = "2" \/ _major_version env self = "1").
Proof.
  split; [exact (version_listed env self)|].
  split; [exact (version_not_listed env self)|].
  unfold _major_version. split.
  - destruct (listed_version_dec env self) as [(v & Hv) | Hn].
    + rewrite (version_listed env self v Hv).
      destruct (PyStr.startswith v "2.") eqn:Hs.
      * split; [|reflexivity]. intros _. eauto.
      * split; [discriminate|]. intros (v' & Hv' & Hs').
        assert (v' = v) as ->; [|congruence].
        rewrite <- (version_listed env self v' Hv'). by apply version_listed.
    + rewrite (version_not_listed env self Hn). cbn.
      split; [discriminate|]. intros (v & Hv & _). destruct (Hn v Hv).
  - destruct (PyStr.startswith _ "2."); auto.
Qed.

(** ** When the conversion raises *)

Lemma to_float_raises (v : Decimal.decimal) (e : exn) :
  Decimal.to_float v = Raise e <-> e = ValueError /\ v = Decimal.NaN true.
Proof.
  split.
  - destruct v as [s [|c] x|s|[]]; cbn; try discriminate. intros [= <-]. auto.
  - intros [-> ->]. reflexivity.
Qed.

(** X6. [get_USD_value] raises in one case only: the amount is a
    signaling NaN while the table records a rate other than zero for the
    currency and the year; the exception is then the ValueError of
    [float(input_value)]. *)
Theorem get_USD_value_raises_iff (cv : gmap string (gmap Z float))
    (c : string) (v : Decimal.decimal) (y : Z) (e : exn) :
  get_USD_value cv c v y = Raise e
  <-> e = ValueError /\ v = Decimal.NaN true
      /\ exists rate, recorded_rate cv c y = Some rate /\ PrimFloat.eqb rate 0 = false.
Proof.
  unfold recorded_rate.
  destruct (cv !! c) as [years|] eqn:Hc.
  2:{ rewrite get_USD_value_no_currency by exact Hc.
      split; [discriminate|]. intros (_ & _ & r & H & _). discriminate. }
  destruct (years !! y) as [rate|] eqn:Hy.
  2:{ rewrite (get_USD_value_no_year cv c v y years Hc Hy).
      split; [discriminate|]. intros (_ & _ & r & H & _). discriminate. }
  destruct (PrimFloat.eqb rate 0) eqn:Hr.
  { rewrite (get_USD_value_zero_rate cv c v y years rate Hc Hy Hr).
    split; [discriminate|]. intros (_ & _ & r & [= <-] & H). congruence. }
  unfold get_USD_value. rewrite Hc. cbn [from_option bind]. rewrite Hy.
  cbn [from_option bind]. rewrite Hr. cbn [bind].
  destruct (Decimal.to_float v) as [f|e'] eqn:Hv; cbn [bind try_except].
  - split; [discriminate|]. intros (_ & -> & _). discriminate.
  - apply to_float_raises in Hv as [-> ->]. cbn.
    split.
    + intros [= <-]. split; [reflexivity|]. split; [reflexivity|]. eauto.
    + intros (-> & _). reflexivity.
Qed.

(** ** Transaction timing *)

Section Timing.

Context (env : Env).
Context (self : ActivityStats).
Context (now_date : date).

(** A transaction dated at most one day after [now_date] and less than
    [k] days before it. *)
Definition within_days (k : Z) (transaction : Element) : bool :=
  match transaction_date env transaction with
  | Some d => (-1 <=? Date.sub_days now_date d) && (Date.sub_days now_date d <? k)
  | None => false
  end.

Definition count_within (k : Z) (l : list Element) : Z :=
  Z.of_nat (length (List.filter (within_days k) l)).

Lemma increment_keys_lookup (days : Z) (ks : list Z) (out : gmap Z Z) (k : Z) :
  NoDup ks ->
  foldl (fun out k => if days <? k then increment k out else out) out ks !! k
  = if bool_decide (k ∈ ks) && (days <? k)
    then Some (default 0 (out !! k) + 1) else out !! k.
Proof.
  intros Hnd. revert out. induction Hnd as [|a ks Ha Hnd IH]; intros out; cbn [foldl].
  - reflexivity.
  - rewrite IH. destruct (decide (k = a)) as [-> | Hne].
    + rewrite (bool_decide_eq_false_2 (a ∈ ks)) by exact Ha.
      rewrite bool_decide_eq_true_2 by left. cbn [andb].
      destruct (days <? a); [|reflexivity].
      unfold increment. by rewrite lookup_insert_eq.
    + assert ((if days <? a then increment a out else out) !! k = out !! k) as ->.
      { destruct (days <? a); [|reflexivity]. unfold increment.
        by rewrite lookup_insert_ne. }
      assert (bool_decide (k ∈ a :: ks) = bool_decide (k ∈ ks)) as ->; [|reflexivity].
      apply bool_decide_ext. rewrite elem_of_cons. tauto.
Qed.

Lemma timing_keys_NoDup : NoDup timing_keys.
Proof.
  unfold timing_keys.
  repeat (constructor; [rewrite ?elem_of_cons, elem_of_nil; lia|]). constructor.
Qed.

Lemma timing_step_lookup (out : gmap Z Z) (t : Element) (k b : Z) :
  k ∈ timing_keys -> out !! k = Some b ->
  timing_step env now_date out t !! k = Some (b + (if within_days k t then 1 else 0)).
Proof.
  intros Hk Hb. unfold timing_step, within_days.
  destruct (transaction_date env t) as [d|]; [|rewrite Hb; f_equal; lia].
  destruct (Z.ltb_spec (Date.sub_days now_date d) (-1)) as [Hlt | Hge].
  - rewrite Hb. replace (-1 <=? Date.sub_days now_date d) with false
      by (symmetry; apply Z.leb_gt; lia).
    cbn [andb]. f_equal. lia.
  - rewrite increment_keys_lookup by exact timing_keys_NoDup.
    rewrite bool_decide_eq_true_2 by exact Hk. cbn [andb]. rewrite Hb.
    replace (-1 <=? Date.sub_days now_date d) with true
      by (symmetry; apply Z.leb_le; lia).
    cbn [andb default]. destruct (Date.sub_days now_date d <? k); f_equal; lia.
Qed.

Lemma timing_step_other (out : gmap Z Z) (t : Element) (k : Z) :
  k ∉ timing_keys -> timing_step env now_date out t !! k = out !! k.
Proof.
  intros Hk. unfold timing_step.
  destruct (transaction_date env t) as [d|]; [|reflexivity].
  destruct (Date.sub_days now_date d <? -1); [reflexivity|].
  rewrite increment_keys_lookup by exact timing_keys_NoDup.
  by rewrite bool_decide_eq_false_2 by exact Hk.
Qed.

Lemma timing_fold_lookup (l : list Element) (out : gmap Z Z) (k b : Z) :
  k ∈ timing_keys -> out !! k = Some b ->
  foldl (timing_step env now_date) out l !! k = Some (b + count_within k l).
Proof.
  intros Hk. revert out b. induction l as [|t l IH]; intros out b Hb; cbn [foldl].
  - rewrite Hb. unfold count_within. cbn. f_equal. lia.
  - rewrite (IH _ _ (timing_step_lookup out t k b Hk Hb)). f_equal.
    unfold count_within. cbn [List.filter].
    destruct (within_days k t); cbn [length]; lia.
Qed.

Lemma timing_fold_other (l : list Element) (out : gmap Z Z) (k : Z) :
  k ∉ timing_keys -> foldl (timing_step env now_date) out l !! k = out !! k.
Proof.
  intros Hk. revert out. induction l as [|t l IH]; intros out; cbn [foldl].
  - reflexivity.
  - rewrite IH. by apply timing_step_other.
Qed.

Lemma count_within_mono (k k' : Z) (l : list Element) :
  k <= k' -> count_within k l <= count_within k' l.
Proof.
  intros Hk. unfold count_within. induction l as [|t l IH]; cbn [List.filter]; [lia|].
  assert (within_days k t = true -> within_days k' t = true) as Himp.
  { unfold within_days. destruct (transaction_date env t) as [d|]; [|discriminate].
    rewrite !andb_true_iff, !Z.ltb_lt. intros [? ?]. split; [assumption|lia]. }
  destruct (within_days k t); [rewrite Himp by reflexivity|destruct (within_days k' t)];
    cbn [length]; lia.
Qed.

Lemma count_within_bound (k : Z) (l : list Element) :
  0 <= count_within k l <= Z.of_nat (length l).
Proof.
  unfold count_within. pose proof (filter_length_le (within_days k) l). lia.
Qed.

End Timing.

(** X7. [_transaction_timing] has exactly the keys 30, 60, 90, 180 and
    360; the entry of [k] is the number of transactions with a date that
    lies at most one day after the current date and less than [k] days
    before it. The counts are therefore cumulative: each is at most the
    next one, and the last at most the number of transactions. *)
Theorem transaction_timing_counts (env : Env) (self : ActivityStats) (now_date : date) :
  let out := _transaction_timing env self now_date in
  let transactions := Etree.findall (element self) "transaction" in
  (forall k, out !! k
             = if bool_decide (k ∈ timing_keys)
               then Some (count_within env now_date k transactions) else None)
  /\ (forall a b x y, a <= b -> out !! a = Some x -> out !! b = Some y ->
                      0 <= x <= y /\ y <= Z.of_nat (length transactions)).
Proof.
  intros out transactions.
  assert (forall k, out !! k
                    = if bool_decide (k ∈ timing_keys)
                      then Some (count_within env now_date k transactions) else None) as H.
  { intros k. unfold out, _transaction_timing. fold transactions.
    destruct (decide (k ∈ timing_keys)) as [Hk | Hk].
    - rewrite bool_decide_eq_true_2 by exact Hk.
      rewrite (timing_fold_lookup env now_date transactions _ k 0 Hk); [f_equal; lia|].
      unfold timing_keys in Hk.
      repeat (apply elem_of_cons in Hk as [-> | Hk]; [reflexivity|]).
      by apply elem_of_nil in Hk.
    - rewrite bool_decide_eq_false_2 by exact Hk.
      rewrite timing_fold_other by exact Hk.
      apply not_elem_of_list_to_map_1. exact Hk. }
  split; [exact H|].
  intros a b x y Hab Ha Hb. rewrite H in Ha, Hb.
  destruct (bool_decide (a ∈ timing_keys)); [|discriminate].
  destruct (bool_decide (b ∈ timing_keys)); [|discriminate].
  injection Ha as <-. injection Hb as <-.
  pose proof (count_within_mono env now_date a b transactions Hab).
  pose proof (count_within_bound env now_date a transactions).
  pose proof (count_within_bound env now_date b transactions). lia.
Qed.

(** ** Counters filled by a loop *)

Section CounterLoops.

Context {A K : Type} `{Countable K}.

(** How many elements of [l] the loop counts under the key [k]. *)
Definition counted (key : A -> option K) (k : K) (l : list A) : Z :=
  Z.of_nat (length (List.filter (fun t => bool_decide (key t = Some k)) l)).

Lemma counted_nonneg (key : A -> option K) (k : K) (l : list A) : 0 <= counted key k l.
Proof. unfold counted. lia. Qed.

Lemma counted_cons (key : A -> option K) (k : K) (t : A) (l : list A) :
  counted key k (t :: l) = (if bool_decide (key t = Some k) then 1 else 0) + counted key k l.
Proof.
  unfold counted. cbn [List.filter]. destruct (bool_decide (key t = Some k)); cbn [length]; lia.
Qed.

(** A loop that increments [out[key(t)]] for the elements that have a key
    leaves, under each key, what was there plus the number of elements
    counted; a key that no element has is not created. *)
Lemma increment_loop_lookup (step : gmap K Z -> A -> gmap K Z) (key : A -> option K) :
  (forall out t, step out t = match key t with
                              | Some k => increment k out
                              | None => out
                              end) ->
  forall (l : list A) (out : gmap K Z) (k : K),
    foldl step out l !! k
    = if counted key k l =? 0 then out !! k
      else Some (default 0 (out !! k) + counted key k l).
Proof.
  intros Hstep l. induction l as [|t l IH]; intros out k; cbn [foldl].
  - reflexivity.
  - rewrite IH, counted_cons, Hstep.
    pose proof (counted_nonneg key k l) as Hn.
    destruct (key t) as [k'|] eqn:Hk.
    + destruct (decide (k' = k)) as [-> | Hne].
      * rewrite bool_decide_eq_true_2 by reflexivity.
        unfold increment. rewrite lookup_insert_eq. cbn [default].
        unfold id.
        destruct (Z.eqb_spec (counted key k l) 0);
          destruct (Z.eqb_spec (1 + counted key k l) 0); try lia; f_equal; lia.
      * rewrite bool_decide_eq_false_2 by congruence.
        unfold increment. rewrite lookup_insert_ne by exact Hne. reflexivity.
    + rewrite bool_decide_eq_false_2 by discriminate. reflexivity.
Qed.

Lemma counted_one_key (p : A -> bool) (k0 k : K) (l : list A) :
  counted (fun t => if p t then Some k0 else None) k l
  = if bool_decide (k = k0) then Z.of_nat (length (List.filter p l)) else 0.
Proof.
  unfold counted. induction l as [|t l IH]; cbn [List.filter].
  - by destruct (bool_decide (k = k0)).
  - destruct (p t).
    + destruct (decide (k = k0)) as [-> | Hne].
      * rewrite bool_decide_eq_true_2 by reflexivity.
        rewrite bool_decide_eq_true_2 in IH |- * by reflexivity.
        cbn [length]. lia.
      * rewrite (bool_decide_eq_false_2 (Some k0 = Some k)) by congruence.
        rewrite bool_decide_eq_false_2 in IH |- * by exact Hne. exact IH.
    + rewrite (bool_decide_eq_false_2 (None = Some k)) by discriminate. exact IH.
Qed.

End CounterLoops.

(** X8. [_transactions_incoming_funds] always has the entry
    [transactions_with_incoming_funds], the number of transactions with a
    transaction type of the incoming funds code (0 when there is none); it
    has the entry [activities_with_incoming_funds], equal to 1, exactly
    when that number is positive; it has no other entry. *)
Theorem transactions_incoming_funds_entries (env : Env) (self : ActivityStats) (k : string) :
  let n := Z.of_nat (length (List.filter (has_type_code (_incoming_funds_code env self))
                               (Etree.findall (element self) "transaction"))) in
  _transactions_incoming_funds env self !! k
  = if String.eqb k "transactions_with_incoming_funds" then Some n
    else if String.eqb k "activities_with_incoming_funds"
         then (if 0 <? n then Some 1 else None)
         else None.
Proof.
  intros n. unfold _transactions_incoming_funds.
  set (key := fun t : Element =>
                if has_type_code (_incoming_funds_code env self) t
                then Some "transactions_with_incoming_funds" else None).
  set (step := fun (out : gmap string Z) (t : Element) =>
                 if has_type_code (_incoming_funds_code env self) t
                 then increment "transactions_with_incoming_funds" out else out).
  assert (forall out t, step out t = match key t with
                                     | Some k => increment k out
                                     | None => out
                                     end) as Hstep.
  { intros out t. unfold step, key. by destruct (has_type_code _ t). }
  pose proof (increment_loop_lookup step key Hstep
                (Etree.findall (element self) "transaction") ∅) as Hl.
  assert (forall k', k' <> "transactions_with_incoming_funds" ->
                     counted key k' (Etree.findall (element self) "transaction") = 0) as H0.
  { intros k' Hk'. unfold key. rewrite counted_one_key.
    by rewrite bool_decide_eq_false_2 by exact Hk'. }
  assert (counted key "transactions_with_incoming_funds"
            (Etree.findall (element self) "transaction") = n) as Hn.
  { unfold key. rewrite counted_one_key.
    by rewrite bool_decide_eq_true_2 by reflexivity. }
  clearbody n.
  set (out := foldl step ∅ (Etree.findall (element self) "transaction")) in *.
  assert (default 0 (out !! "transactions_with_incoming_funds") = n) as Hd.
  { rewrite Hl, Hn, lookup_empty.
    destruct (Z.eqb_spec n 0); simpl; lia. }
  rewrite Hd.
  destruct (String.eqb_spec k "transactions_with_incoming_funds") as [-> | Hk1].
  - destruct (0 <? n); unfold increment;
      rewrite ?lookup_insert_ne by discriminate; by rewrite lookup_insert_eq.
  - destruct (String.eqb_spec k "activities_with_incoming_funds") as [-> | Hk2].
    + destruct (0 <? n).
      * unfold increment. rewrite lookup_insert_eq.
        rewrite lookup_insert_ne by discriminate.
        rewrite Hl, H0 by discriminate. cbn [Z.eqb]. rewrite lookup_empty. reflexivity.
      * rewrite lookup_insert_ne by discriminate.
        rewrite Hl, H0 by discriminate. cbn [Z.eqb]. apply lookup_empty.
    + destruct (0 <? n); unfold increment;
        rewrite !lookup_insert_ne by congruence;
        rewrite Hl, H0 by exact Hk1; cbn [Z.eqb]; apply lookup_empty.
Qed.

(** The ref of the first [org_tag] child of a transaction, when it has
    such a child. *)
Definition org_ref (org_tag : string) (transaction : Element) : option (option string) :=
  match Etree.find transaction org_tag with
  | Some org => Some (Etree.get org "ref")
  | None => None
  end.

Lemma count_transaction_orgs_lookup (self : ActivityStats) (org_tag : string)
    (ref : option string) :
  count_transaction_orgs self org_tag !! ref
  = let n := counted (org_ref org_tag) ref (Etree.findall (element self) "transaction") in
    if n =? 0 then None else Some n.
Proof.
  unfold count_transaction_orgs.
  rewrite (increment_loop_lookup _ (org_ref org_tag)).
  - rewrite lookup_empty. cbn [default]. cbn zeta.
    destruct (counted _ _ _ =? 0); [reflexivity|]. f_equal.
  - intros out t. unfold org_ref. by destruct (Etree.find t org_tag).
Qed.

(** X9. [_provider_org] and [_receiver_org] hold, under each ref (the
    missing ref included), the number of transactions whose first
    [provider-org] (or [receiver-org]) carries that ref, and have no entry
    for a ref that no transaction carries: no entry is 0. *)
Theorem transaction_org_counts (self : ActivityStats) (ref : option string) :
  let transactions := Etree.findall (element self) "transaction" in
  _provider_org self !! ref
  = (let n := counted (org_ref "provider-org") ref transactions in
     if n =? 0 then None else Some n)
  /\ _receiver_org self !! ref
     = (let n := counted (org_ref "receiver-org") ref transactions in
        if n =? 0 then None else Some n).
Proof.
  split; apply count_transaction_orgs_lookup.
Qed.

(** ** Transactions dated in the future *)

Section FutureTransactions.

Context (env : Env).
Context (self : ActivityStats).

(** A transaction with a date that is not after today. *)
Definition dated_not_after_today (transaction : Element) : Prop :=
  exists d, transaction_date env transaction = Some d /\ Date.ltb (today self) d = false.

Lemma future_transactions_loop_cases (l : list Element) :
  match future_transactions_loop env self l with
  | Return n =>
      (n = 1 /\ exists l1 t l2 d,
                  l = (l1 ++ t :: l2)%list /\ Forall dated_not_after_today l1
                  /\ transaction_date env t = Some d /\ Date.ltb (today self) d = true)
      \/ (n = 0 /\ Forall dated_not_after_today l)
  | Raise e =>
      e = TypeError
      /\ exists l1 t l2,
           l = (l1 ++ t :: l2)%list /\ Forall dated_not_after_today l1
           /\ transaction_date env t = None
  end.
Proof.
  induction l as [|t l IH]; cbn [future_transactions_loop].
  - right. split; [reflexivity|constructor].
  - destruct (transaction_date env t) as [d|] eqn:Hd.
    + destruct (Date.ltb (today self) d) eqn:Hlt.
      * left. split; [reflexivity|]. exists [], t, l, d. repeat split; auto.
      * assert (dated_not_after_today t) as Ht by (exists d; auto).
        destruct (future_transactions_loop env self l) as [n|e].
        -- destruct IH as [(-> & l1 & t' & l2 & d' & -> & Hall & Hd' & Hlt') | (-> & Hall)].
           ++ left. split; [reflexivity|]. exists (t :: l1), t', l2, d'.
              repeat split; auto.
           ++ right. split; [reflexivity|]. constructor; assumption.
        -- destruct IH as (-> & l1 & t' & l2 & -> & Hall & Hd').
           split; [reflexivity|]. exists (t :: l1), t', l2. repeat split; auto.
    + split; [reflexivity|]. exists [], t, l. repeat split; auto.
Qed.

End FutureTransactions.

(** X10. [activities_with_future_transactions] walks the transactions in
    document order: it returns 1 at the first transaction dated after
    today, 0 when every transaction has a date that is not after today,
    and it raises TypeError at a transaction without a date that comes
    before any transaction dated after today. *)
Theorem activities_with_future_transactions_cases (env : Env) (self : ActivityStats) :
  let l := Etree.findall (element self) "transaction" in
  match activities_with_future_transactions env self with
  | Return n =>
      (n = 1 /\ exists l1 t l2 d,
                  l = (l1 ++ t :: l2)%list /\ Forall (dated_not_after_today env self) l1
                  /\ transaction_date env t = Some d /\ Date.ltb (today self) d = true)
      \/ (n = 0 /\ Forall (dated_not_after_today env self) l)
  | Raise e =>
      e = TypeError
      /\ exists l1 t l2,
           l = (l1 ++ t :: l2)%list /\ Forall (dated_not_after_today env self) l1
           /\ transaction_date env t = None
  end.
Proof.
  intros l. exact (future_transactions_loop_cases env self l).
Qed.

(** An undated transaction before one of next year: the comparison with
    [None] is reached first. *)
Example activities_with_future_transactions_undated :
  activities_with_future_transactions env_example
    (activity_of []
       [ node "transaction" [] [ leaf "transaction-type" [("code", "3")] None ];
         node "transaction" []
           [ leaf "transaction-date" [("iso-date", "2027-01-01")] None ] ])
  = Raise TypeError.
Proof. vm_compute. reflexivity. Qed.

(** ** Forward-looking: current activities *)

(** X11. [_forwardlooking_is_current(year)] holds exactly when the
    activity has no planned or actual end date that [iso_date] reads, or
    has one in [year] or later; an activity current for a year is
    therefore current for every earlier year. *)
Theorem forwardlooking_is_current_iff (env : Env) (self : ActivityStats) (y : Z) :
  (_forwardlooking_is_current env self y = true
   <-> activity_end_years env self = []
       \/ exists e, In e (activity_end_years env self) /\ y <= e)
  /\ (forall y', y <= y' -> _forwardlooking_is_current env self y' = true ->
                 _forwardlooking_is_current env self y = true).
Proof.
  assert (forall y, _forwardlooking_is_current env self y = true
                    <-> activity_end_years env self = []
                        \/ exists e, In e (activity_end_years env self) /\ y <= e) as H.
  { intros z. unfold _forwardlooking_is_current.
    rewrite orb_true_iff, existsb_exists. split.
    - intros [Hn | (e & He & Hle)].
      + left. destruct (activity_end_years env self); [reflexivity|discriminate].
      + right. exists e. split; [exact He|]. by apply Z.leb_le.
    - intros [-> | (e & He & Hle)].
      + left. reflexivity.
      + right. exists e. split; [exact He|]. by apply Z.leb_le. }
  split; [apply H|].
  intros y' Hy Hc. apply H. apply H in Hc as [Hn | (e & He & Hle)].
  - left. exact Hn.
  - right. exists e. split; [exact He|lia].
Qed.

(** ** Organisation identifier prefixes *)

Section GroupAdd.

Context {K : Type} (eqb : K -> K -> bool).

Lemma group_add_elements (k : K) (x y : string) (g : list (K * list string)) :
  In y (flat_map snd (group_add eqb k x g)) <-> In y (flat_map snd g) \/ y = x.
Proof.
  induction g as [|[k' xs] g IH]; cbn [group_add flat_map snd].
  - cbn. intuition.
  - destruct (eqb k k'); cbn [flat_map snd].
    + rewrite !in_app_iff. cbn. intuition.
    + rewrite !in_app_iff, IH. intuition.
Qed.

Lemma grouped_elements (key : string -> K) (l : list string) (g : list (K * list string))
    (y : string) :
  In y (flat_map snd (foldl (fun out x => group_add eqb (key x) x out) g l))
  <-> In y (flat_map snd g) \/ In y l.
Proof.
  revert g. induction l as [|x l IH]; intros g; cbn [foldl].
  - cbn. intuition.
  - rewrite IH, group_add_elements. cbn. intuition.
Qed.

End GroupAdd.

Lemma first_prefix_of_Some {K} (org_id : string) (g : list (K * list string)) (p : string) :
  first_prefix_of org_id g = Some p ->
  In p (flat_map snd g) /\ PyStr.startswith org_id p = true.
Proof. unfold first_prefix_of. apply find_some. Qed.

Lemma first_prefix_of_None {K} (org_id : string) (g : list (K * list string)) (p : string) :
  first_prefix_of org_id g = None -> In p (flat_map snd g) ->
  PyStr.startswith org_id p = false.
Proof. unfold first_prefix_of. intros H Hp. exact (find_none _ _ H p Hp). Qed.

(** X12. [valid_org_prefix] answers True exactly when some registration
    agency code or CRS channel code of the major version is a prefix of
    the organisation identifier, whatever the order in which the codelists
    are enumerated; the prefix it returns with True is such a code, and
    with False it returns the string None. *)
Theorem valid_org_prefix_codes (env : Env) (major_version org_id : string) :
  let codes := (CODELISTS env major_version "OrganisationRegistrationAgency"
                ++ CODELISTS env major_version "CRSChannelCode")%list in
  let r := valid_org_prefix env major_version org_id in
  (fst r = true <-> exists p, In p codes /\ PyStr.startswith org_id p = true)
  /\ (fst r = true -> In (snd r) codes /\ PyStr.startswith org_id (snd r) = true)
  /\ (fst r = false -> snd r = "None").
Proof.
  intros codes r. unfold r, valid_org_prefix, codes.
  destruct (first_prefix_of org_id (org_prefix_list env major_version)) as [p|] eqn:H1.
  { apply first_prefix_of_Some in H1 as [Hin Hs].
    apply grouped_elements in Hin as [[] | Hin]. cbn [fst snd].
    assert (In p (CODELISTS env major_version "OrganisationRegistrationAgency"
                  ++ CODELISTS env major_version "CRSChannelCode")) as Hp
      by (apply in_app_iff; auto).
    split; [|split]; [|auto|discriminate].
    split; [eauto|reflexivity]. }
  destruct (first_prefix_of org_id (channel_code_list env major_version)) as [p|] eqn:H2.
  { apply first_prefix_of_Some in H2 as [Hin Hs].
    apply grouped_elements in Hin as [[] | Hin]. cbn [fst snd].
    assert (In p (CODELISTS env major_version "OrganisationRegistrationAgency"
                  ++ CODELISTS env major_version "CRSChannelCode")) as Hp
      by (apply in_app_iff; auto).
    split; [|split]; [|auto|discriminate].
    split; [eauto|reflexivity]. }
  cbn [fst snd]. split; [|split]; [|discriminate|reflexivity].
  split; [discriminate|]. intros (p & Hp & Hs). apply in_app_iff in Hp as [Hp | Hp].
  - rewrite (first_prefix_of_None org_id _ p H1) in Hs; [discriminate|].
    apply grouped_elements. auto.
  - rewrite (first_prefix_of_None org_id _ p H2) in Hs; [discriminate|].
    apply grouped_elements. auto.
Qed.

(** ** Organisation reference statistics *)

Lemma option_string_eqb_eq (a b : option string) : option_string_eqb a b = true <-> a = b.
Proof.
  destruct a as [a|], b as [b|]; cbn; try (split; [discriminate|congruence]);
    [|split; reflexivity].
  rewrite String.eqb_eq. split; congruence.
Qed.

Section OrgStats.

Context (env : Env).
Context (self : ActivityStats).

(** The organisations counted by each statistic. *)
Definition has_ref (org : Element) : bool :=
  match Etree.get org "ref" with Some _ => true | None => false end.

Definition has_full_ref (org : Element) : bool :=
  match Etree.get org "ref" with Some ref => truthy_s ref | None => false end.

Definition has_notself_ref (reporting_org : option string) (org : Element) : bool :=
  match Etree.get org "ref" with
  | Some ref => truthy_s ref && negb (option_string_eqb (Some ref) reporting_org)
  | None => false
  end.

Definition has_valid_ref (reporting_org : option string) (org : Element) : bool :=
  match Etree.get org "ref" with
  | Some ref => truthy_s ref && negb (option_string_eqb (Some ref) reporting_org)
                && fst (valid_org_prefix env (_major_version env self) ref)
  | None => false
  end.

Definition counted_by (reporting_org : option string) (stat_type : string)
  : Element -> bool :=
  if String.eqb stat_type "total" then fun _ => true
  else if String.eqb stat_type "total_refs" then has_ref
  else if String.eqb stat_type "total_full_refs" then has_full_ref
  else if String.eqb stat_type "total_notself_refs" then has_notself_ref reporting_org
  else if String.eqb stat_type "total_valid_refs" then has_valid_ref reporting_org
  else fun _ => false.

Definition how_many (p : Element -> bool) (orgs : list Element) : Z :=
  Z.of_nat (length (List.filter p orgs)).

Lemma org_stats_step_int (org : Element) (reporting_org : option string)
    (stat_type : string) (n : Z) :
  (if String.eqb stat_type "total" then add_one (OutInt n)
   else _check_org_reference env self org reporting_org stat_type (OutInt n) false)
  = Return (OutInt (n + (if counted_by reporting_org stat_type org then 1 else 0))).
Proof.
  unfold counted_by, _check_org_reference.
  destruct (String.eqb stat_type "total"); [reflexivity|].
  destruct (String.eqb stat_type "total_refs").
  { unfold has_ref. destruct (Etree.get org "ref"); cbn [add_one]; by rewrite ?Z.add_0_r. }
  destruct (String.eqb stat_type "total_full_refs").
  { unfold has_full_ref. destruct (Etree.get org "ref") as [ref|]; [|by rewrite Z.add_0_r].
    destruct (truthy_s ref); cbn [add_one]; by rewrite ?Z.add_0_r. }
  destruct (String.eqb stat_type "total_notself_refs").
  { unfold has_notself_ref. destruct (Etree.get org "ref") as [ref|]; [|by rewrite Z.add_0_r].
    destruct (truthy_s ref); cbn [andb]; [|by rewrite Z.add_0_r].
    destruct (negb (option_string_eqb (Some ref) reporting_org)); cbn [add_one];
      by rewrite ?Z.add_0_r. }
  destruct (String.eqb stat_type "total_valid_refs").
  { unfold has_valid_ref. destruct (Etree.get org "ref") as [ref|]; [|by rewrite Z.add_0_r].
    destruct (truthy_s ref); cbn [andb]; [|by rewrite Z.add_0_r].
    destruct (negb (option_string_eqb (Some ref) reporting_org)); cbn [andb];
      [|by rewrite Z.add_0_r].
    destruct (valid_org_prefix env (_major_version env self) ref) as [[] prefix];
      cbn [fst add_one]; by rewrite ?Z.add_0_r. }
  destruct (Etree.get org "ref") as [ref|]; [|by rewrite Z.add_0_r].
  destruct (truthy_s ref); [|by rewrite Z.add_0_r].
  destruct (negb (option_string_eqb (Some ref) reporting_org)); by rewrite Z.add_0_r.
Qed.

Lemma org_stats_loop_int (orgs : list Element) (reporting_org : option string)
    (stat_type : string) (n : Z) :
  org_stats_loop env self orgs reporting_org stat_type false (OutInt n)
  = Return (OutInt (n + how_many (counted_by reporting_org stat_type) orgs)).
Proof.
  revert n. induction orgs as [|org orgs IH]; intros n; cbn [org_stats_loop].
  - unfold how_many. cbn. by rewrite Z.add_0_r.
  - rewrite org_stats_step_int. cbn [bind]. rewrite IH. do 2 f_equal.
    unfold how_many. cbn [List.filter].
    destruct (counted_by reporting_org stat_type org); cbn [length]; lia.
Qed.

Lemma how_many_le (p q : Element -> bool) (orgs : list Element) :
  (forall org, p org = true -> q org = true) -> how_many p orgs <= how_many q orgs.
Proof.
  intros Hpq. unfold how_many. induction orgs as [|org orgs IH]; cbn [List.filter]; [lia|].
  destruct (p org) eqn:Hp.
  - rewrite (Hpq org Hp). cbn [length]. lia.
  - destruct (q org); cbn [length]; lia.
Qed.

(** The five statistics of a list of organisations, as
    [_participating_org_all_stats] and [_transaction_org_all_stats] lay
    them out: all of them, those with a ref attribute, those whose ref is
    not empty, those whose ref is not empty and is not the reporting
    organisation's, and those whose ref, on top of that, has a valid
    prefix. *)
Definition org_counts (reporting_org : option string) (orgs : list Element)
  : list (string * org_out) :=
  [ ("total_orgs", OutInt (Z.of_nat (length orgs)));
    ("total_refs", OutInt (how_many has_ref orgs));
    ("total_full_refs", OutInt (how_many has_full_ref orgs));
    ("total_notself_refs", OutInt (how_many (has_notself_ref reporting_org) orgs));
    ("total_valid_refs", OutInt (how_many (has_valid_ref reporting_org) orgs)) ].

Lemma how_many_all (orgs : list Element) :
  how_many (fun _ => true) orgs = Z.of_nat (length orgs).
Proof.
  unfold how_many. f_equal. induction orgs as [|o os IH]; cbn; [reflexivity|]. by rewrite IH.
Qed.

Lemma all_stats_int_counts (orgs : list Element) (reporting_org : option string) :
  all_stats (fun stat_type =>
               org_stats_loop env self orgs reporting_org stat_type false (OutInt 0))
  = Return (org_counts reporting_org orgs).
Proof.
  unfold all_stats, org_stat_types, org_counts. cbn [map_m].
  rewrite !org_stats_loop_int. rewrite <- how_many_all. reflexivity.
Qed.

(** Each count is at most the one before. *)
Lemma org_counts_chain (orgs : list Element) (reporting_org : option string) :
  0 <= how_many (has_valid_ref reporting_org) orgs
    <= how_many (has_notself_ref reporting_org) orgs
  /\ how_many (has_notself_ref reporting_org) orgs <= how_many has_full_ref orgs
  /\ how_many has_full_ref orgs <= how_many has_ref orgs
  /\ how_many has_ref orgs <= Z.of_nat (length orgs).
Proof.
  repeat split.
  - unfold how_many. lia.
  - apply how_many_le. intros org. unfold has_valid_ref, has_notself_ref.
    destruct (Etree.get org "ref"); [|discriminate].
    rewrite andb_true_iff. tauto.
  - apply how_many_le. intros org. unfold has_full_ref, has_notself_ref.
    destruct (Etree.get org "ref"); [|discriminate].
    rewrite andb_true_iff. tauto.
  - apply how_many_le. intros org. unfold has_full_ref, has_ref.
    destruct (Etree.get org "ref"); [reflexivity|discriminate].
  - rewrite <- how_many_all. apply how_many_le. intros org _. reflexivity.
Qed.

(** With [prefixes=True] the valid-refs statistic counts, under the
    prefix [valid_org_prefix] returns, every organisation with a non-empty
    ref other than the reporting organisation's. *)
Definition prefix_of_ref (reporting_org : option string) (org : Element) : option string :=
  if has_notself_ref reporting_org org
  then match Etree.get org "ref" with
       | Some ref => Some (snd (valid_org_prefix env (_major_version env self) ref))
       | None => None
       end
  else None.

Lemma org_stats_loop_prefixes (orgs : list Element) (reporting_org : option string)
    (d : gmap string Z) :
  org_stats_loop env self orgs reporting_org "total_valid_refs" true (OutDict d)
  = Return (OutDict (foldl (fun d org => match prefix_of_ref reporting_org org with
                                         | Some p => increment p d
                                         | None => d
                                         end) d orgs)).
Proof.
  revert d. induction orgs as [|org orgs IH]; intros d; cbn [org_stats_loop foldl].
  - reflexivity.
  - change (String.eqb "total_valid_refs" "total") with false. cbn iota.
    unfold _check_org_reference, prefix_of_ref, has_notself_ref.
    change (String.eqb "total_valid_refs" "total_refs") with false.
    change (String.eqb "total_valid_refs" "total_full_refs") with false.
    change (String.eqb "total_valid_refs" "total_notself_refs") with false.
    change (String.eqb "total_valid_refs" "total_valid_refs") with true.
    cbn iota.
    destruct (Etree.get org "ref") as [ref|]; [|cbn [bind]; apply IH].
    destruct (truthy_s ref); cbn [andb]; [|cbn [bind]; apply IH].
    destruct (negb (option_string_eqb (Some ref) reporting_org)); [|cbn [bind]; apply IH].
    destruct (valid_org_prefix env (_major_version env self) ref) as [valid prefix].
    cbn [add_prefix bind snd]. apply IH.
Qed.

End OrgStats.

(** The organisations [_participating_org_stats] goes through: the
    participating-org children whose role is the given one. *)
Definition participating_orgs (self : ActivityStats) (org_type_id : string) : list Element :=
  List.filter (fun org => match Etree.get org "role" with
                           | Some role => truthy_s role && String.eqb role org_type_id
                           | None => false
                           end)
    (Etree.findall (element self) "participating-org").

(** The organisations [_transaction_org_stats] goes through: the first
    child of the given kind of each transaction that has one. *)
Definition transaction_orgs (self : ActivityStats) (org_type : string) : list Element :=
  omap (fun transaction => Etree.find transaction org_type)
    (Etree.findall (element self) "transaction").

(** X13. The five organisation statistics of a participating role and
    of a transaction organisation are always returned, as integers:
    [total_orgs] is the number of the organisations gone through,
    [total_refs] the number of those with a ref attribute,
    [total_full_refs] of those whose ref is not empty,
    [total_notself_refs] of those whose ref is not empty and differs from
    the reporting organisation's ref, [total_valid_refs] of those whose
    ref, on top of that, [valid_org_prefix] accepts. So they are nested:
    each count is at most the one before. *)
Theorem org_stats_nested (env : Env) (self : ActivityStats) (org_type : string) :
  _participating_org_all_stats env self org_type
  = Return (org_counts env self (_reporting_org_ref self) (participating_orgs self org_type))
  /\ _transaction_org_all_stats env self org_type
     = Return (org_counts env self (_reporting_org_ref self) (transaction_orgs self org_type))
  /\ (forall org,
        (has_ref org = true <-> exists ref, Etree.get org "ref" = Some ref)
        /\ (has_full_ref org = true <->
            exists ref, Etree.get org "ref" = Some ref /\ ref <> "")
        /\ (has_notself_ref (_reporting_org_ref self) org = true <->
            exists ref, Etree.get org "ref" = Some ref /\ ref <> ""
                        /\ Some ref <> _reporting_org_ref self)
        /\ (has_valid_ref env self (_reporting_org_ref self) org = true <->
            exists ref, Etree.get org "ref" = Some ref /\ ref <> ""
                        /\ Some ref <> _reporting_org_ref self
                        /\ fst (valid_org_prefix env (_major_version env self) ref) = true))
  /\ (forall orgs,
        0 <= how_many (has_valid_ref env self (_reporting_org_ref self)) orgs
          <= how_many (has_notself_ref (_reporting_org_ref self)) orgs
        /\ how_many (has_notself_ref (_reporting_org_ref self)) orgs
           <= how_many has_full_ref orgs
        /\ how_many has_full_ref orgs <= how_many has_ref orgs
        /\ how_many has_ref orgs <= Z.of_nat (length orgs)).
Proof.
  split; [|split; [|split]].
  - apply all_stats_int_counts.
  - apply all_stats_int_counts.
  - intros org. unfold has_ref, has_full_ref, has_notself_ref, has_valid_ref.
    assert (forall ref, truthy_s ref = true <-> ref <> "") as Htruthy.
    { intros ref. unfold truthy_s. rewrite negb_true_iff.
      destruct (String.eqb_spec ref ""); split; congruence. }
    assert (forall ref, negb (option_string_eqb (Some ref) (_reporting_org_ref self)) = true
                        <-> Some ref <> _reporting_org_ref self) as Hself.
    { intros ref. rewrite negb_true_iff.
      destruct (option_string_eqb (Some ref) (_reporting_org_ref self)) eqn:E.
      - apply option_string_eqb_eq in E. split; congruence.
      - split; [|reflexivity]. intros _ Heq.
        apply option_string_eqb_eq in Heq. congruence. }
    destruct (Etree.get org "ref") as [ref|].
    + split; [|split; [|split]].
      * split; [eauto | reflexivity].
      * rewrite Htruthy. split; [eauto | intros (r & [= <-] & Hr); exact Hr].
      * rewrite andb_true_iff, Htruthy, Hself.
        split; [intros [? ?]; eauto | intros (r & [= <-] & ? & ?); auto].
      * rewrite !andb_true_iff, Htruthy, Hself.
        split; [intros [[? ?] ?]; eauto 6 | intros (r & [= <-] & ? & ? & ?); auto].
    + split; [|split; [|split]];
        (split; [discriminate|];
         intros [r Hr]; first [discriminate Hr | destruct Hr as [Hr _]; discriminate Hr]).
  - intros orgs. apply org_counts_chain.
Qed.

(** An activity of the agency AA-AAA with four funding organisations:
    the agency itself, a company with a registered prefix, one with an
    empty ref and one without a ref. *)
Definition env_orgs_example : Env :=
  {| CODELISTS := fun major name =>
       if String.eqb name "OrganisationRegistrationAgency" then ["GB-COH"; "NL-KVK"]
       else CODELISTS env_example major name;
     country_lang_map := country_lang_map env_example;
     currency_values := rates_example;
     iso_date := iso_date_example;
     transaction_date := transaction_date env_example;
     budget_year := budget_year env_example;
     schema_validate_date := fun _ => true;
     schema_validate_url := fun _ => true;
     schema_validate_value := fun _ => true |}.

Definition funded_activity : ActivityStats :=
  activity_of []
    [ leaf "reporting-org" [("ref", "AA-AAA")] None;
      leaf "participating-org" [("role", "1"); ("ref", "AA-AAA")] None;
      leaf "participating-org" [("role", "1"); ("ref", "GB-COH-0123")] None;
      leaf "participating-org" [("role", "1"); ("ref", "")] None;
      leaf "participating-org" [("role", "1")] None;
      leaf "participating-org" [("role", "4"); ("ref", "NL-KVK-9")] None ].

Example funding_org_stats_example :
  funding_org_transaction_stats env_orgs_example funded_activity
  = Return [ ("total_orgs", OutInt 4); ("total_refs", OutInt 3);
             ("total_full_refs", OutInt 2); ("total_notself_refs", OutInt 1);
             ("total_valid_refs", OutInt 1) ].
Proof. vm_compute. reflexivity. Qed.

(** X14. With [prefixes=True] the valid-refs statistic never raises and
    returns a dictionary that counts, under the prefix [valid_org_prefix]
    gives (the string None for an identifier without a valid prefix),
    every organisation whose ref is non-empty and differs from the
    reporting organisation's; a prefix no such organisation has is
    absent. *)
Theorem org_valid_prefixes_counts (env : Env) (self : ActivityStats)
    (org_type prefix : string) :
  let reporting_org := _reporting_org_ref self in
  let entry orgs :=
    let n := counted (prefix_of_ref env self reporting_org) prefix orgs in
    if n =? 0 then None else Some n in
  (exists d, _participating_org_stats env self org_type "total_valid_refs" true
             = Return (OutDict d)
             /\ d !! prefix
                = entry (List.filter
                           (fun org => match Etree.get org "role" with
                                       | Some role => truthy_s role && String.eqb role org_type
                                       | None => false
                                       end)
                           (Etree.findall (element self) "participating-org")))
  /\ (exists d, _transaction_org_stats env self org_type "total_valid_refs" true
                = Return (OutDict d)
                /\ d !! prefix
                   = entry (omap (fun transaction => Etree.find transaction org_type)
                              (Etree.findall (element self) "transaction"))).
Proof.
  intros reporting_org entry. split.
  - unfold _participating_org_stats. rewrite org_stats_loop_prefixes.
    eexists. split; [reflexivity|].
    rewrite (increment_loop_lookup _ (prefix_of_ref env self reporting_org))
      by reflexivity.
    unfold entry. rewrite lookup_empty. cbn [default]. cbn zeta.
    destruct (counted _ _ _ =? 0); [reflexivity|]. f_equal.
  - unfold _transaction_org_stats. rewrite org_stats_loop_prefixes.
    eexists. split; [reflexivity|].
    rewrite (increment_loop_lookup _ (prefix_of_ref env self reporting_org))
      by reflexivity.
    unfold entry. rewrite lookup_empty. cbn [default]. cbn zeta.
    destruct (counted _ _ _ =? 0); [reflexivity|]. f_equal.
Qed.

(** ** Element counts *)

(** Induction on an element with the hypothesis for all its children. *)
Fixpoint Element_children_ind (P : Element -> Prop)
    (step : forall t a x tl cs, Forall P cs -> P (mkElement t a x tl cs))
    (e : Element) {struct e} : P e :=
  match e with
  | mkElement t a x tl cs =>
      step t a x tl cs
        ((fix go (l : list Element) : Forall P l :=
            match l with
            | [] => @Stdlib.Lists.List.Forall_nil _ P
            | c :: l' =>
                @Stdlib.Lists.List.Forall_cons _ P c l'
                  (Element_children_ind P step c) (go l')
            end) cs)
  end.

Section ElementCounts.

(** What the two dictionaries have in common while they are filled: the
    same keys, ones on the one side, positive counts on the other. *)
Definition counts_agree (once total : gmap string Z) : Prop :=
  dom once = dom total
  /\ (forall k v, once !! k = Some v -> v = 1)
  /\ (forall k v, total !! k = Some v -> 1 <= v).

Lemma count_path_agree (k : string) (once total : gmap string Z) :
  counts_agree once total ->
  counts_agree (count_path false k once) (count_path true k total).
Proof.
  intros (Hd & H1 & H2). unfold count_path, increment. split; [|split].
  - rewrite !dom_insert_L. by rewrite Hd.
  - intros k' v. destruct (decide (k' = k)) as [-> | Hne].
    + rewrite lookup_insert_eq. congruence.
    + rewrite lookup_insert_ne by congruence. apply H1.
  - intros k' v. destruct (decide (k' = k)) as [-> | Hne].
    + rewrite lookup_insert_eq. intros [= <-].
      destruct (total !! k) as [n|] eqn:Hn; cbn; [|lia].
      specialize (H2 k n Hn). lia.
    + rewrite lookup_insert_ne by congruence. apply H2.
Qed.

Lemma attributes_agree (path : string) (attrs : list (string * string))
    (once total : gmap string Z) :
  counts_agree once total ->
  counts_agree
    (foldl (fun d '(attribute, value) =>
              if String.eqb value "" then d
              else count_path false (path ++ "/@" ++ attribute) d) once attrs)
    (foldl (fun d '(attribute, value) =>
              if String.eqb value "" then d
              else count_path true (path ++ "/@" ++ attribute) d) total attrs).
Proof.
  revert once total. induction attrs as [|[a v] attrs IH]; intros once total H; cbn [foldl].
  - exact H.
  - apply IH. destruct (String.eqb v ""); [exact H|]. by apply count_path_agree.
Qed.

Lemma element_to_count_dict_agree (e : Element) :
  forall path once total,
    counts_agree once total ->
    counts_agree (element_to_count_dict e path once false)
      (element_to_count_dict e path total true).
Proof.
  induction e as [t a x tl cs IH] using Element_children_ind.
  intros path once total H. cbn [element_to_count_dict children attrib].
  apply attributes_agree.
  apply (count_path_agree path) in H. revert H.
  generalize (count_path false path once) (count_path true path total).
  induction IH as [|c cs Hc _ IHcs]; intros d d' H.
  - exact H.
  - apply IHcs. apply Hc. exact H.
Qed.

(** No step removes a key. *)
Lemma count_path_keeps (m : bool) (k k' : string) (d : gmap string Z) :
  is_Some (d !! k') -> is_Some (count_path m k d !! k').
Proof.
  intros H. unfold count_path, increment.
  destruct m; (destruct (decide (k' = k)) as [-> | Hne];
               [rewrite lookup_insert_eq; eauto | by rewrite lookup_insert_ne by congruence]).
Qed.

Lemma attributes_keep (m : bool) (path k' : string) (attrs : list (string * string))
    (d : gmap string Z) :
  is_Some (d !! k') ->
  is_Some (foldl (fun d '(attribute, value) =>
                    if String.eqb value "" then d
                    else count_path m (path ++ "/@" ++ attribute) d) d attrs !! k').
Proof.
  revert d. induction attrs as [|[a v] attrs IH]; intros d H; cbn [foldl].
  - exact H.
  - apply IH. destruct (String.eqb v ""); [exact H|]. by apply count_path_keeps.
Qed.

Lemma element_to_count_dict_keeps (m : bool) (k' : string) (e : Element) :
  forall path d, is_Some (d !! k') -> is_Some (element_to_count_dict e path d m !! k').
Proof.
  induction e as [t a x tl cs IH] using Element_children_ind.
  intros path d H. cbn [element_to_count_dict children attrib].
  apply attributes_keep.
  apply (count_path_keeps m path) in H. revert H.
  generalize (count_path m path d).
  induction IH as [|c cs Hc _ IHcs]; intros d' H.
  - exact H.
  - apply IHcs. apply Hc. exact H.
Qed.

End ElementCounts.

(** X15. [elements] and [elements_total] have the same paths as keys;
    every entry of [elements] is 1 and every entry of [elements_total] is
    at least 1; the path of the activity element itself is always among
    them. *)
Theorem elements_and_elements_total (self : ActivityStats) :
  dom (elements self) = dom (elements_total self)
  /\ (forall k v, elements self !! k = Some v -> v = 1)
  /\ (forall k v, elements_total self !! k = Some v -> 1 <= v)
  /\ is_Some (elements self !! "iati-activity")
  /\ is_Some (elements_total self !! "iati-activity").
Proof.
  assert (counts_agree (elements self) (elements_total self)) as (Hd & H1 & H2).
  { apply element_to_count_dict_agree. split; [|split].
    - reflexivity.
    - intros k v. rewrite lookup_empty. discriminate.
    - intros k v. rewrite lookup_empty. discriminate. }
  split; [exact Hd|]. split; [exact H1|]. split; [exact H2|].
  assert (forall m, is_Some (element_to_count_dict (element self) "iati-activity" ∅ m
                             !! "iati-activity")) as Hroot.
  { intros m. destruct (element self) as [t a x tl cs].
    cbn [element_to_count_dict children attrib].
    apply attributes_keep.
    assert (is_Some (count_path m "iati-activity" ∅ !! "iati-activity")) as H.
    { unfold count_path, increment. destruct m; rewrite lookup_insert_eq; eauto. }
    revert H. generalize (count_path m "iati-activity" ∅).
    induction cs as [|c cs IH]; intros d H; [exact H|].
    apply IH. by apply element_to_count_dict_keeps. }
  split; apply Hroot.
Qed.

(** ** Financial roll-ups *)

Section OrderedDictionaries.

Context {K V X : Type}.
Context (eqb : K -> K -> bool).
Context (eqb_eq : forall a b, eqb a b = true <-> a = b).

(** [P v x]: the value [v] of an entry holds [x]. An update of the entry
    of [k] that adds [x0] to what a value holds adds [(k, x0)] to what
    the dictionary holds. *)
Lemma od_update_holds (P : V -> X -> Prop) (k : K) (x0 : X) (dflt : V)
    (f : V -> result V) :
  (forall v v', f v = Return v' -> forall x, P v' x <-> P v x \/ x = x0) ->
  (forall x, P dflt x -> x = x0) ->
  forall d d', od_update eqb k dflt f d = Return d' ->
  forall k' x,
    (exists v, In (k', v) d' /\ P v x)
    <-> (exists v, In (k', v) d /\ P v x) \/ (k' = k /\ x = x0).
Proof.
  intros Hf Hd d. induction d as [|[k1 v1] d IH]; intros d' H k' x; cbn [od_update] in H.
  - destruct (f dflt) as [v'|e] eqn:Hv; cbn [bind] in H; [|discriminate].
    apply Return_inj in H. subst d'. specialize (Hf _ _ Hv x). split.
    + intros (v & [[= <- <-] | []] & HP). right. split; [reflexivity|].
      apply Hf in HP as [HP | ->]; [by apply Hd|reflexivity].
    + intros [(v & [] & _) | [-> ->]]. exists v'. split; [by left|]. apply Hf. by right.
  - destruct (eqb k k1) eqn:E.
    + apply eqb_eq in E. subst k1.
      destruct (f v1) as [v'|e] eqn:Hv; cbn [bind] in H; [|discriminate].
      apply Return_inj in H. subst d'. specialize (Hf _ _ Hv x). split.
      * intros (v & [[= <- <-] | Hin] & HP).
        -- apply Hf in HP as [HP | ->]; [|by right].
           left. exists v1. split; [by left|exact HP].
        -- left. exists v. split; [by right|exact HP].
      * intros [(v & [[= <- <-] | Hin] & HP) | [-> ->]].
        -- exists v'. split; [by left|]. apply Hf. by left.
        -- exists v. split; [by right|exact HP].
        -- exists v'. split; [by left|]. apply Hf. by right.
    + destruct (od_update eqb k dflt f d) as [d''|e] eqn:Hu; cbn [bind] in H; [|discriminate].
      apply Return_inj in H. subst d'. specialize (IH d'' eq_refl k' x). split.
      * intros (v & [[= <- <-] | Hin] & HP).
        -- left. exists v1. split; [by left|exact HP].
        -- destruct IH as [IH _]. destruct IH as [(w & Hw & HPw) | Hk]; [eauto| |by right].
           left. exists w. split; [by right|exact HPw].
      * intros [(v & [[= <- <-] | Hin] & HP) | Hk].
        -- exists v1. split; [by left|exact HP].
        -- destruct IH as [_ IH]. destruct IH as (w & Hw & HPw); [left; eauto|].
           exists w. split; [by right|exact HPw].
        -- destruct IH as [_ IH]. destruct IH as (w & Hw & HPw); [by right|].
           exists w. split; [by right|exact HPw].
Qed.

End OrderedDictionaries.

Section RollUpKeys.

(** The years, the (currency, year) pairs and the (type, currency, year)
    triples that have an entry. *)
Definition has_year (years : odict Z Decimal.decimal) (y : Z) : Prop :=
  exists v, In (y, v) years.

Definition has_currency_year (data : odict (option string) (odict Z Decimal.decimal))
    (cy : option string * Z) : Prop :=
  exists years, In (cy.1, years) data /\ has_year years cy.2.

Definition has_entry (out : rollup) (t c : option string) (y : Z) : Prop :=
  exists data, In (t, data) out /\ has_currency_year data (c, y).

Lemma add_year_years (y : Z) (x : Decimal.decimal) (years years' : odict Z Decimal.decimal) :
  od_update Z.eqb y (Decimal.of_Z 0) (fun old => Decimal.add old x) years = Return years' ->
  forall y', has_year years' y' <-> has_year years y' \/ y' = y.
Proof.
  intros H y'.
  pose proof (od_update_holds Z.eqb Z.eqb_eq (fun (_ : Decimal.decimal) (_ : unit) => True)
                y tt (Decimal.of_Z 0) (fun old => Decimal.add old x)) as L.
  specialize (L ltac:(intros; destruct x0; tauto) ltac:(intros []; reflexivity)
                years years' H y' tt).
  unfold has_year. split.
  - intros (v & Hv). destruct L as [L _]. destruct L as [(w & Hw & _) | [-> _]]; eauto.
  - intros [(v & Hv) | ->]; destruct L as [_ L].
    + destruct L as (w & Hw & _); eauto.
    + destruct L as (w & Hw & _); eauto.
Qed.

Lemma add_currency_year_pairs (c : option string) (y : Z) (x : Decimal.decimal)
    (data data' : odict (option string) (odict Z Decimal.decimal)) :
  od_update option_string_eqb c []
    (od_update Z.eqb y (Decimal.of_Z 0) (fun old => Decimal.add old x)) data
  = Return data' ->
  forall cy, has_currency_year data' cy <-> has_currency_year data cy \/ cy = (c, y).
Proof.
  intros H [c' y'].
  pose proof (od_update_holds option_string_eqb option_string_eqb_eq has_year
                c y [] (od_update Z.eqb y (Decimal.of_Z 0) (fun old => Decimal.add old x)))
    as L.
  specialize (L (add_year_years y x) ltac:(intros ? [? []]) data data' H c' y').
  unfold has_currency_year. cbn [fst snd]. rewrite L. split.
  - intros [? | [-> ->]]; auto.
  - intros [? | [= -> ->]]; auto.
Qed.

Lemma rollup_add_entries (t c : option string) (y : Z) (x : Decimal.decimal)
    (out out' : rollup) :
  rollup_add t c y x out = Return out' ->
  forall t' c' y',
    has_entry out' t' c' y' <-> has_entry out t' c' y' \/ (t' = t /\ c' = c /\ y' = y).
Proof.
  intros H t' c' y'. unfold rollup_add in H.
  pose proof (od_update_holds option_string_eqb option_string_eqb_eq has_currency_year
                t (c, y) []
                (od_update option_string_eqb c []
                   (od_update Z.eqb y (Decimal.of_Z 0) (fun old => Decimal.add old x))))
    as L.
  specialize (L (add_currency_year_pairs c y x) ltac:(intros ? (? & [] & _))
                out out' H t' (c', y')).
  unfold has_entry. rewrite L. split.
  - intros [? | [-> [= -> ->]]]; auto.
  - intros [? | (-> & -> & ->)]; auto.
Qed.

Context (env : Env).
Context (year_used : Z -> Z).

Lemma usd_add_years_entries (t c : option string) (years : odict Z Decimal.decimal) :
  forall out out',
    usd_add_years env year_used t c out years = Return out' ->
    forall t' c' y',
      has_entry out' t' c' y'
      <-> has_entry out t' c' y'
          \/ (t' = t /\ c' = Some "USD" /\ c <> None
              /\ exists y, has_year years y /\ y' = year_used y).
Proof.
  unfold usd_add_years.
  induction years as [|[y v] years IH]; intros out out' H t' c' y'; cbn [fold_m] in H.
  - apply Return_inj in H. subst out'. split; [auto|].
    intros [? | (_ & _ & _ & y & (w & []) & _)]. assumption.
  - destruct c as [cur|].
    + destruct (get_USD_value (currency_values env) cur v (year_used y)) as [usd|e];
        cbn [bind] in H; [|discriminate].
      destruct (rollup_add t (Some "USD") (year_used y) usd out) as [out1|e] eqn:H1;
        cbn [bind] in H; [|discriminate].
      rewrite (IH out1 out' H t' c' y'), (rollup_add_entries _ _ _ _ _ _ H1 t' c' y').
      unfold has_year. split.
      * intros [[? | (-> & -> & ->)] | (-> & -> & Hc & y0 & (w & Hw) & ->)]; auto.
        -- right. repeat split; [discriminate|]. exists y. split; [|reflexivity].
           exists v. by left.
        -- right. repeat split; [discriminate|]. exists y0. split; [|reflexivity].
           exists w. by right.
      * intros [? | (-> & -> & Hc & y0 & (w & [[= <- <-] | Hw]) & ->)]; auto.
        right. repeat split; [discriminate|]. exists y0. split; [|reflexivity]. eauto.
    + cbn [bind] in H. rewrite (IH out out' H t' c' y'). split.
      * intros [? | (_ & _ & Hc & _)]; [auto|contradiction].
      * intros [? | (_ & _ & Hc & _)]; [auto|contradiction].
Qed.

Lemma usd_add_currencies_entries (t : option string)
    (data : odict (option string) (odict Z Decimal.decimal)) :
  forall out out',
    usd_add_currencies env year_used t out data = Return out' ->
    forall t' c' y',
      has_entry out' t' c' y'
      <-> has_entry out t' c' y'
          \/ (t' = t /\ c' = Some "USD"
              /\ exists cur y, has_currency_year data (Some cur, y) /\ y' = year_used y).
Proof.
  unfold usd_add_currencies.
  induction data as [|[c years] data IH]; intros out out' H t' c' y'; cbn [fold_m] in H.
  - apply Return_inj in H. subst out'. split; [auto|].
    intros [? | (_ & _ & cur & y & (ys & [] & _) & _)]. assumption.
  - destruct (usd_add_years env year_used t c out years) as [out1|e] eqn:H1;
      cbn [bind] in H; [|discriminate].
    rewrite (IH out1 out' H t' c' y'), (usd_add_years_entries _ _ _ _ _ H1 t' c' y').
    unfold has_currency_year. cbn [fst snd]. split.
    + intros [[? | (-> & -> & Hc & y & Hy & ->)]
             | (-> & -> & cur & y & (ys & Hin & Hy) & ->)]; auto.
      * right. repeat split. destruct c as [cur|]; [|contradiction].
        exists cur, y. split; [|reflexivity]. exists years. split; [by left|exact Hy].
      * right. repeat split. exists cur, y. split; [|reflexivity].
        exists ys. split; [by right|exact Hy].
    + intros [? | (-> & -> & cur & y & (ys & [[= -> ->] | Hin] & Hy) & ->)]; auto.
      * left. right. repeat split; [discriminate|]. eauto.
      * right. repeat split. exists cur, y. split; [|reflexivity]. eauto.
Qed.

Lemma usd_fold_entries (sums : rollup) :
  forall out out',
    fold_m (fun out '(transaction_type, data) =>
              usd_add_currencies env year_used transaction_type out data) out sums
    = Return out' ->
    forall t' c' y',
      has_entry out' t' c' y'
      <-> has_entry out t' c' y'
          \/ (c' = Some "USD"
              /\ exists cur y, has_entry sums t' (Some cur) y /\ y' = year_used y).
Proof.
  induction sums as [|[t data] sums IH]; intros out out' H t' c' y'; cbn [fold_m] in H.
  - apply Return_inj in H. subst out'. split; [auto|].
    intros [? | (_ & cur & y & (d & [] & _) & _)]. assumption.
  - destruct (usd_add_currencies env year_used t out data) as [out1|e] eqn:H1;
      cbn [bind] in H; [|discriminate].
    rewrite (IH out1 out' H t' c' y'), (usd_add_currencies_entries _ _ _ _ H1 t' c' y').
    unfold has_entry. split.
    + intros [[? | (-> & -> & cur & y & Hcy & ->)]
             | (-> & cur & y & (d & Hin & Hcy) & ->)]; auto.
      * right. split; [reflexivity|]. exists cur, y. split; [|reflexivity].
        exists data. split; [by left|exact Hcy].
      * right. split; [reflexivity|]. exists cur, y. split; [|reflexivity].
        exists d. split; [by right|exact Hcy].
    + intros [? | (-> & cur & y & (d & [[= -> ->] | Hin] & Hcy) & ->)]; auto.
      * left. right. repeat split. eauto.
      * right. split; [reflexivity|]. exists cur, y. split; [|reflexivity]. eauto.
Qed.

Lemma usd_of_rollup_entries (sums out : rollup) :
  usd_of_rollup env year_used sums = Return out ->
  forall t c y',
    has_entry out t c y'
    <-> c = Some "USD"
        /\ exists cur y, has_entry sums t (Some cur) y /\ y' = year_used y.
Proof.
  intros H t c y'. unfold usd_of_rollup in H.
  rewrite (usd_fold_entries sums [] out H t c y'). split.
  - intros [(d & [] & _) | ?]. assumption.
  - auto.
Qed.

End RollUpKeys.

(** ** The values of the roll-ups *)

Section OrderedDictionaryValues.

Context {K V : Type}.
Context (eqb : K -> K -> bool).
Context (eqb_eq : forall a b, eqb a b = true <-> a = b).

(** [d.get(k)]: the value under a key. *)
Fixpoint od_get (k : K) (d : odict K V) : option V :=
  match d with
  | [] => None
  | (k', v) :: d' => if eqb k k' then Some v else od_get k d'
  end.

(** An update applies the function to the value under the key, or to the
    default, and changes no other entry. *)
Lemma od_update_get (k : K) (dflt : V) (f : V -> result V) (d d' : odict K V) :
  od_update eqb k dflt f d = Return d' ->
  exists v', f (default dflt (od_get k d)) = Return v'
             /\ forall k', od_get k' d' = if eqb k' k then Some v' else od_get k' d.
Proof.
  revert d'. induction d as [|[k1 v1] d IH]; intros d' H; cbn [od_update] in H.
  - destruct (f dflt) as [v'|e] eqn:Hv; cbn [bind] in H; [|discriminate].
    apply Return_inj in H. subst d'. exists v'. split; [exact Hv|]. intros k'. reflexivity.
  - cbn [od_get]. destruct (eqb k k1) eqn:E.
    + apply eqb_eq in E. subst k1.
      destruct (f v1) as [v'|e] eqn:Hv; cbn [bind] in H; [|discriminate].
      apply Return_inj in H. subst d'. exists v'. split; [exact Hv|].
      intros k'. cbn [od_get]. by destruct (eqb k' k).
    + destruct (od_update eqb k dflt f d) as [d''|e] eqn:Hu; cbn [bind] in H; [|discriminate].
      apply Return_inj in H. subst d'. destruct (IH d'' eq_refl) as (v' & Hv & Hget).
      exists v'. split; [exact Hv|]. intros k'. cbn [od_get]. rewrite Hget.
      destruct (eqb k' k1) eqn:E1; [|reflexivity].
      destruct (eqb k' k) eqn:E2; [|reflexivity].
      apply eqb_eq in E1, E2. subst k1 k'.
      assert (eqb k k = true) as Hk by (by apply eqb_eq). congruence.
Qed.

End OrderedDictionaryValues.

(** [out[t][c][y]] where it exists. *)
Definition rollup_get (out : rollup) (t c : option string) (y : Z)
  : option Decimal.decimal :=
  match od_get option_string_eqb t out with
  | Some data =>
      match od_get option_string_eqb c data with
      | Some years => od_get Z.eqb y years
      | None => None
      end
  | None => None
  end.

(** [out[t][c][y] += x] adds [x] to the entry, or to [Decimal()] when
    there is none, and changes no other entry. *)
Lemma rollup_add_get (t c : option string) (y : Z) (x : Decimal.decimal)
    (out out' : rollup) :
  rollup_add t c y x out = Return out' ->
  exists v',
    Decimal.add (default (Decimal.of_Z 0) (rollup_get out t c y)) x = Return v'
    /\ forall t' c' y',
         rollup_get out' t' c' y'
         = if option_string_eqb t' t && option_string_eqb c' c && (y' =? y)
           then Some v' else rollup_get out t' c' y'.
Proof.
  unfold rollup_add. intros H.
  destruct (od_update_get option_string_eqb option_string_eqb_eq _ _ _ _ _ H)
    as (data' & H1 & G1).
  destruct (od_update_get option_string_eqb option_string_eqb_eq _ _ _ _ _ H1)
    as (years' & H2 & G2).
  destruct (od_update_get Z.eqb Z.eqb_eq _ _ _ _ _ H2) as (v' & H3 & G3).
  exists v'. split.
  - unfold rollup_get.
    destruct (od_get option_string_eqb t out) as [data|]; cbn in H3 |- *;
      [destruct (od_get option_string_eqb c data) as [years|]; cbn in H3 |- *|];
      exact H3.
  - intros t' c' y'. unfold rollup_get. rewrite G1.
    destruct (option_string_eqb t' t) eqn:Et; cbn [andb]; [|reflexivity].
    apply option_string_eqb_eq in Et. subst t'. rewrite G2.
    destruct (option_string_eqb c' c) eqn:Ec; cbn [andb].
    + apply option_string_eqb_eq in Ec. subst c'. rewrite G3.
      destruct (y' =? y); [reflexivity|].
      destruct (od_get option_string_eqb t out) as [data|]; cbn;
        [destruct (od_get option_string_eqb c data) as [years|]; cbn|]; reflexivity.
    + destruct (od_get option_string_eqb t out) as [data|]; cbn; reflexivity.
Qed.

(** What a list of terms, added one by one, makes of an entry. *)
Fixpoint add_terms (entry : option Decimal.decimal) (terms : list Decimal.decimal)
  : result (option Decimal.decimal) :=
  match terms with
  | [] => Return entry
  | x :: l =>
      v <- Decimal.add (default (Decimal.of_Z 0) entry) x ;; add_terms (Some v) l
  end.

(** An entry that is the sum of the terms: absent without a term,
    otherwise the terms added in order to [Decimal()], each addition
    rounded by the context. *)
Definition entry_is_sum (entry : option Decimal.decimal) (terms : list Decimal.decimal)
  : Prop :=
  match terms with
  | [] => entry = None
  | _ => exists total,
           fold_m Decimal.add (Decimal.of_Z 0) terms = Return total /\ entry = Some total
  end.

Lemma add_terms_Some (a : Decimal.decimal) (terms : list Decimal.decimal) :
  add_terms (Some a) terms = (total <- fold_m Decimal.add a terms ;; Return (Some total)).
Proof.
  revert a. induction terms as [|x l IH]; intros a; cbn [add_terms fold_m bind default];
    [reflexivity|].
  unfold id. destruct (Decimal.add a x) as [v|e]; cbn [bind]; [apply IH|reflexivity].
Qed.

Lemma add_terms_sum (terms : list Decimal.decimal) (entry : option Decimal.decimal) :
  add_terms None terms = Return entry -> entry_is_sum entry terms.
Proof.
  destruct terms as [|x l]; cbn [add_terms entry_is_sum].
  - intros H. apply Return_inj in H. by subst entry.
  - cbn [default fold_m]. unfold id.
    destruct (Decimal.add (Decimal.of_Z 0) x) as [v|e]; cbn [bind]; [|discriminate].
    rewrite add_terms_Some.
    destruct (fold_m Decimal.add v l) as [total|e]; cbn [bind]; [|discriminate].
    intros H. apply Return_inj in H. subst entry. eauto.
Qed.

Lemma fold_m_app {A B} (f : B -> A -> result B) (l1 l2 : list A) (b : B) :
  fold_m f b (l1 ++ l2)%list = (b' <- fold_m f b l1 ;; fold_m f b' l2).
Proof.
  revert b. induction l1 as [|x l1 IH]; intros b; cbn [fold_m app bind]; [reflexivity|].
  destruct (f b x) as [b'|e]; cbn [bind]; [apply IH|reflexivity].
Qed.

Section UsdValues.

Context (env : Env).
Context (year_used : Z -> Z).

(** An item of a roll-up: type, currency, year and value. *)
Definition rollup_item : Type := option string * option string * Z * Decimal.decimal.

(** The items of a roll-up in the order in which the nested loops over
    [items()] meet them. *)
Definition rollup_items (sums : rollup) : list rollup_item :=
  flat_map (fun '(t, data) =>
              flat_map (fun '(c, years) => map (fun '(y, v) => (t, c, y, v)) years) data)
    sums.

(** The body of the USD loops on one item. *)
Definition usd_step (out : rollup) (item : rollup_item) : result rollup :=
  let '(t, c, y, v) := item in
  match c with
  | Some cur =>
      usd <- get_USD_value (currency_values env) cur v (year_used y) ;;
      rollup_add t (Some "USD") (year_used y) usd out
  | None => Return out
  end.

Lemma usd_add_years_flat (t c : option string) (years : odict Z Decimal.decimal) :
  forall out,
    usd_add_years env year_used t c out years
    = fold_m usd_step out (map (fun '(y, v) => (t, c, y, v)) years).
Proof.
  unfold usd_add_years. induction years as [|[y v] years IH]; intros out;
    cbn [fold_m map]; [reflexivity|].
  cbn [usd_step].
  destruct c as [cur|]; [|cbn [bind]; apply IH].
  destruct (get_USD_value (currency_values env) cur v (year_used y)) as [usd|e];
    cbn [bind]; [|reflexivity].
  destruct (rollup_add t (Some "USD") (year_used y) usd out) as [out1|e];
    cbn [bind]; [apply IH|reflexivity].
Qed.

Lemma usd_add_currencies_flat (t : option string)
    (data : odict (option string) (odict Z Decimal.decimal)) :
  forall out,
    usd_add_currencies env year_used t out data
    = fold_m usd_step out
        (flat_map (fun '(c, years) => map (fun '(y, v) => (t, c, y, v)) years) data).
Proof.
  unfold usd_add_currencies. induction data as [|[c years] data IH]; intros out;
    cbn [fold_m flat_map]; [reflexivity|].
  rewrite fold_m_app, usd_add_years_flat.
  destruct (fold_m usd_step out _) as [out1|e]; cbn [bind]; [apply IH|reflexivity].
Qed.

Lemma usd_of_rollup_flat (sums : rollup) :
  usd_of_rollup env year_used sums = fold_m usd_step [] (rollup_items sums).
Proof.
  unfold usd_of_rollup, rollup_items. generalize (@nil (option string *
    odict (option string) (odict Z Decimal.decimal))) as out.
  induction sums as [|[t data] sums IH]; intros out; cbn [fold_m flat_map];
    [reflexivity|].
  rewrite fold_m_app, usd_add_currencies_flat.
  destruct (fold_m usd_step out _) as [out1|e]; cbn [bind]; [apply IH|reflexivity].
Qed.

(** What the items give to the USD entry of a type and a year: the
    currency and the value of every item of that type, with a currency,
    whose year, as the loop uses it, is that year. *)
Fixpoint contributions_of (items : list rollup_item) (t : option string) (y : Z)
  : list (string * Decimal.decimal) :=
  match items with
  | [] => []
  | (t', c, y', v) :: items' =>
      match c with
      | Some cur =>
          if option_string_eqb t t' && (y =? year_used y')
          then (cur, v) :: contributions_of items' t y
          else contributions_of items' t y
      | None => contributions_of items' t y
      end
  end.

Definition usd_contributions (sums : rollup) (t : option string) (y : Z)
  : list (string * Decimal.decimal) :=
  contributions_of (rollup_items sums) t y.

Lemma usd_fold_values (items : list rollup_item) :
  forall out0 out,
    fold_m usd_step out0 items = Return out ->
    (forall t y,
       exists terms,
         map_m (fun '(cur, v) => get_USD_value (currency_values env) cur v y)
           (contributions_of items t y) = Return terms
         /\ add_terms (rollup_get out0 t (Some "USD") y) terms
            = Return (rollup_get out t (Some "USD") y))
    /\ (forall t c y, c <> Some "USD" -> rollup_get out t c y = rollup_get out0 t c y).
Proof.
  induction items as [|[[[t0 c0] y0] v0] items IH]; intros out0 out H; cbn [fold_m] in H.
  - apply Return_inj in H. subst out. split.
    + intros t y. exists []. split; reflexivity.
    + reflexivity.
  - cbn [usd_step] in H. destruct c0 as [cur|].
    2:{ cbn [bind] in H. exact (IH out0 out H). }
    destruct (get_USD_value (currency_values env) cur v0 (year_used y0)) as [usd|e] eqn:Hu;
      cbn [bind] in H; [|discriminate].
    destruct (rollup_add t0 (Some "USD") (year_used y0) usd out0) as [out1|e] eqn:H1;
      cbn [bind] in H; [|discriminate].
    destruct (rollup_add_get _ _ _ _ _ _ H1) as (v' & Hadd & Hget).
    destruct (IH out1 out H) as [IHv IHo]. split.
    + intros t y. destruct (IHv t y) as (terms & Hterms & Hsum).
      cbn [contributions_of].
      specialize (Hget t (Some "USD") y).
      change (option_string_eqb (Some "USD") (Some "USD")) with true in Hget.
      rewrite andb_true_r in Hget.
      destruct (option_string_eqb t t0 && (y =? year_used y0)) eqn:E.
      * apply andb_true_iff in E as [Et Ey].
        apply option_string_eqb_eq in Et. apply Z.eqb_eq in Ey. subst t y.
        exists (usd :: terms). cbn [map_m]. rewrite Hu, Hterms. split; [reflexivity|].
        cbn [add_terms]. rewrite Hadd. cbn [bind]. rewrite <- Hget. exact Hsum.
      * exists terms. split; [exact Hterms|]. rewrite <- Hget. exact Hsum.
    + intros t c y Hc. rewrite (IHo t c y Hc). rewrite Hget.
      destruct (option_string_eqb c (Some "USD")) eqn:Ec.
      * apply option_string_eqb_eq in Ec. contradiction.
      * by rewrite andb_false_r.
Qed.

Lemma usd_of_rollup_values (sums out : rollup) :
  usd_of_rollup env year_used sums = Return out ->
  (forall t y,
     exists terms,
       map_m (fun '(cur, v) => get_USD_value (currency_values env) cur v y)
         (usd_contributions sums t y) = Return terms
       /\ entry_is_sum (rollup_get out t (Some "USD") y) terms)
  /\ (forall t c y, c <> Some "USD" -> rollup_get out t c y = None).
Proof.
  rewrite usd_of_rollup_flat. intros H.
  destruct (usd_fold_values _ _ _ H) as [Hv Ho]. split.
  - intros t y. destruct (Hv t y) as (terms & Hterms & Hsum).
    exists terms. split; [exact Hterms|]. by apply add_terms_sum.
  - intros t c y Hc. by rewrite (Ho t c y Hc).
Qed.

End UsdValues.

Lemma year_capped_le (y : Z) : year_capped y <= 2014.
Proof. unfold year_capped. destruct (Z.ltb_spec 2014 y); lia. Qed.

(** Terms that are all zero add up to zero. *)
Lemma sum_of_zeros (terms : list Decimal.decimal) :
  Forall (fun x => x = Decimal.of_Z 0) terms ->
  fold_m Decimal.add (Decimal.of_Z 0) terms = Return (Decimal.of_Z 0).
Proof.
  induction 1 as [|x l Hx _ IH]; cbn [fold_m]; [reflexivity|].
  subst x. change (Decimal.add (Decimal.of_Z 0) (Decimal.of_Z 0))
    with (Return (Decimal.of_Z 0)). cbn [bind]. exact IH.
Qed.

Lemma get_USD_value_no_rate cv c v y :
  recorded_rate cv c y = None -> get_USD_value cv c v y = Return (Decimal.of_Z 0).
Proof.
  unfold recorded_rate. intros H. destruct (cv !! c) as [years|] eqn:Hc.
  - by apply (get_USD_value_no_year _ _ _ _ years).
  - by apply get_USD_value_no_currency.
Qed.

Lemma conversions_without_rate cv y (l : list (string * Decimal.decimal))
    (terms : list Decimal.decimal) :
  (forall cur v, In (cur, v) l -> recorded_rate cv cur y = None) ->
  map_m (fun '(cur, v) => get_USD_value cv cur v y) l = Return terms ->
  Forall (fun x => x = Decimal.of_Z 0) terms /\ length terms = length l.
Proof.
  revert terms. induction l as [|[cur v] l IH]; intros terms Hrate H; cbn [map_m] in H.
  - apply Return_inj in H. subst terms. split; [constructor|reflexivity].
  - rewrite (get_USD_value_no_rate _ cur v y (Hrate cur v (or_introl eq_refl))) in H.
    destruct (map_m _ l) as [ts|e] eqn:Hl; [|discriminate].
    apply Return_inj in H. subst terms.
    destruct (IH ts (fun c' v' Hin => Hrate c' v' (or_intror Hin)) eq_refl) as [HF Hlen].
    split; [constructor; [reflexivity|exact HF]|]. cbn [length]. by rewrite Hlen.
Qed.

(** X16. When [sum_transactions_by_type_by_year_usd] returns, the
    roll-up it was computed from was returned too, and the result has an
    entry for a type, a currency and a year exactly when the currency is
    USD and the roll-up has an entry of that type, with some currency, for
    a year that is this year once years after 2014 are replaced by 2014.
    The entry of a type and a year is the sum, added in the order of the
    roll-up, of the values of that type whose year, so replaced, is this
    year, each converted by [get_USD_value] from its currency at this
    year. So no entry is for a year after 2014: later years are converted
    at the rate of 2014 and added to that year. *)
Theorem sum_transactions_usd_entries (env : Env) (self : ActivityStats) (out : rollup) :
  sum_transactions_by_type_by_year_usd env self = Return out ->
  (exists sums,
     _sum_transactions_by_type_by_year env self = Return sums
     /\ (forall t c y',
           has_entry out t c y'
           <-> c = Some "USD"
               /\ exists cur y, has_entry sums t (Some cur) y /\ y' = year_capped y)
     /\ (forall t y,
           exists terms,
             map_m (fun '(cur, v) => get_USD_value (currency_values env) cur v y)
               (usd_contributions year_capped sums t y) = Return terms
             /\ entry_is_sum (rollup_get out t (Some "USD") y) terms))
  /\ (forall t c y, has_entry out t c y -> c = Some "USD" /\ y <= 2014)
  /\ (forall t c y, c <> Some "USD" -> rollup_get out t c y = None).
Proof.
  unfold sum_transactions_by_type_by_year_usd. intros H.
  destruct (_sum_transactions_by_type_by_year env self) as [sums|e]; cbn [bind] in H;
    [|discriminate].
  pose proof (usd_of_rollup_entries env year_capped sums out H) as L.
  destruct (usd_of_rollup_values env year_capped sums out H) as [Hv Ho].
  split; [eauto|]. split; [|exact Ho].
  intros t c y Hy. apply L in Hy as (-> & cur & y0 & _ & ->).
  split; [reflexivity|apply year_capped_le].
Qed.

(** X17. When [sum_budgets_by_type_by_year_usd] returns, the result has
    an entry for a type, a currency and a year exactly when the currency
    is USD and [sum_budgets_by_type_by_year] has an entry of that type and
    that very year with some currency: budget years are not capped. The
    entry of a type and a year is the sum, added in the order of the
    roll-up, of the values of that type and that very year, each converted
    by [get_USD_value] from its currency at that year; where the table has
    no rate for any of them at that year, the entry is there and is
    zero. *)
Theorem sum_budgets_usd_entries (env : Env) (self : ActivityStats) (out : rollup) :
  sum_budgets_by_type_by_year_usd env self = Return out ->
  exists sums,
    sum_budgets_by_type_by_year env self = Return sums
    /\ (forall t c y,
          has_entry out t c y
          <-> c = Some "USD" /\ exists cur, has_entry sums t (Some cur) y)
    /\ (forall t y,
          exists terms,
            map_m (fun '(cur, v) => get_USD_value (currency_values env) cur v y)
              (usd_contributions (fun y => y) sums t y) = Return terms
            /\ entry_is_sum (rollup_get out t (Some "USD") y) terms)
    /\ (forall t y,
          usd_contributions (fun y => y) sums t y <> [] ->
          (forall cur v, In (cur, v) (usd_contributions (fun y => y) sums t y) ->
                         recorded_rate (currency_values env) cur y = None) ->
          rollup_get out t (Some "USD") y = Some (Decimal.of_Z 0)).
Proof.
  unfold sum_budgets_by_type_by_year_usd. intros H.
  destruct (sum_budgets_by_type_by_year env self) as [sums|e]; cbn [bind] in H;
    [|discriminate].
  pose proof (usd_of_rollup_entries env (fun y => y) sums out H) as L.
  destruct (usd_of_rollup_values env (fun y => y) sums out H) as [Hv _].
  exists sums. split; [reflexivity|]. split; [|split; [exact Hv|]].
  - intros t c y. rewrite L. split.
    + intros (-> & cur & y0 & Hy & ->). eauto.
    + intros (-> & cur & Hy). eauto.
  - intros t y Hne Hrate. destruct (Hv t y) as (terms & Hterms & Hsum).
    destruct (conversions_without_rate _ _ _ _ Hrate Hterms) as [Hz Hlen].
    assert (terms <> []) as Hn.
    { intros ->. destruct (usd_contributions (fun y => y) sums t y); [contradiction|].
      discriminate. }
    unfold entry_is_sum in Hsum. destruct terms as [|x l]; [contradiction|].
    destruct Hsum as (total & Htotal & ->).
    rewrite (sum_of_zeros _ Hz) in Htotal. apply Return_inj in Htotal. by subst total.
Qed.

(** The example environment with a budget year read from the start of
    the budget period. *)
Definition env_budgets_example : Env :=
  {| CODELISTS := CODELISTS env_example;
     country_lang_map := country_lang_map env_example;
     currency_values := rates_example;
     iso_date := iso_date_example;
     transaction_date := transaction_date env_example;
     budget_year := fun budget =>
       match Etree.find budget "period-start" with
       | Some e => year <$> iso_date_example e
       | None => None
       end;
     schema_validate_date := fun _ => true;
     schema_validate_url := fun _ => true;
     schema_validate_value := fun _ => true |}.

(** Disbursements of 100 euros in 2013, 60 euros in 2016 and 0.1 dollars
    in 2014, and budgets of 300 euros for 2014 and 1000 euros for 2020. *)
Definition rollup_activity : ActivityStats :=
  activity_of [("default-currency", "EUR")]
    [ node "transaction" []
        [ leaf "transaction-type" [("code", "3")] None;
          leaf "transaction-date" [("iso-date", "2013-05-01")] None;
          leaf "value" [] (Some "100") ];
      node "transaction" []
        [ leaf "transaction-type" [("code", "3")] None;
          leaf "transaction-date" [("iso-date", "2016-02-01")] None;
          leaf "value" [] (Some "60") ];
      node "transaction" []
        [ leaf "transaction-type" [("code", "3")] None;
          leaf "transaction-date" [("iso-date", "2014-02-01")] None;
          leaf "value" [("currency", "USD")] (Some "0.1") ];
      node "budget" [("type", "1")]
        [ leaf "period-start" [("iso-date", "2014-01-01")] None;
          leaf "value" [] (Some "300") ];
      node "budget" [("type", "1")]
        [ leaf "period-start" [("iso-date", "2020-01-01")] None;
          leaf "value" [] (Some "1000") ] ].

Lemma sum_transactions_usd_entries_witness :
  exists out,
    sum_transactions_by_type_by_year_usd env_budgets_example rollup_activity = Return out
    /\ (forall t c y, has_entry out t c y -> c = Some "USD" /\ y <= 2014)
    /\ exists terms,
         map_m (fun '(cur, v) => get_USD_value rates_example cur v 2014)
           [("EUR", Decimal.Fin false 60 0); ("USD", Decimal.Fin false 1 (-1))]
         = Return terms
         /\ entry_is_sum (rollup_get out (Some "3") (Some "USD") 2014) terms.
Proof.
  eexists. split; [vm_compute; reflexivity|].
  destruct (sum_transactions_usd_entries env_budgets_example rollup_activity _
              ltac:(vm_compute; reflexivity)) as ((sums & Hs & _ & Hv) & Hy & _).
  split; [exact Hy|].
  vm_compute in Hs. apply Return_inj in Hs. subst sums.
  exact (Hv (Some "3") 2014).
Defined.

Lemma sum_budgets_usd_entries_witness :
  exists out,
    sum_budgets_by_type_by_year_usd env_budgets_example rollup_activity = Return out
    /\ rollup_get out (Some "1") (Some "USD") 2020 = Some (Decimal.of_Z 0).
Proof.
  eexists. split; [vm_compute; reflexivity|].
  destruct (sum_budgets_usd_entries env_budgets_example rollup_activity _
              ltac:(vm_compute; reflexivity)) as (sums & Hs & _ & _ & Hz).
  vm_compute in Hs. apply Return_inj in Hs. subst sums.
  apply Hz; [discriminate|].
  intros cur v [[= <- <-] | []]. vm_compute. reflexivity.
Defined.

(** The two USD roll-ups on the example: the 60 euros of 2016 are
    converted at the rate of 2014 (0.75) and added, with the 0.1 dollars
    that went through a binary float, to 2014; the budget of 2020 stays
    under 2020, where the table has no rate, as zero. *)
Example usd_rollups_example :
  sum_transactions_by_type_by_year_usd env_budgets_example rollup_activity
  = Return [(Some "3",
             [(Some "USD",
               [(2013, Decimal.Fin false 125 0);
                (2014, Decimal.Fin false 8010000000000000000555111512 (-26))])])]
  /\ sum_budgets_by_type_by_year_usd env_budgets_example rollup_activity
     = Return [(Some "1",
                [(Some "USD",
                  [(2014, Decimal.Fin false 400 0); (2020, Decimal.Fin false 0 0)])])].
Proof. split; vm_compute; reflexivity. Qed.

(** ** The entries of the roll-ups *)

Section RollUpLoops.

Context {A : Type}.

(** A loop that, for each element, leaves the roll-up as it is or adds a
    value under the key of the element. *)
Lemma rollup_loop_entries (step : rollup -> A -> result rollup)
    (key : A -> option (option string * option string * Z)) :
  (forall out x out', step out x = Return out' ->
     match key x with
     | Some (t, c, y) => exists v, rollup_add t c y v out = Return out'
     | None => out' = out
     end) ->
  forall l out out',
    fold_m step out l = Return out' ->
    forall t c y,
      has_entry out' t c y
      <-> has_entry out t c y \/ exists x, In x l /\ key x = Some (t, c, y).
Proof.
  intros Hstep l. induction l as [|x l IH]; intros out out' H t c y; cbn [fold_m] in H.
  - apply Return_inj in H. subst out'. split; [auto|]. intros [? | (x & [] & _)]. assumption.
  - destruct (step out x) as [out1|e] eqn:H1; cbn [bind] in H; [|discriminate].
    rewrite (IH out1 out' H t c y). specialize (Hstep out x out1 H1).
    destruct (key x) as [[[t0 c0] y0]|] eqn:Hk.
    + destruct Hstep as (v & Hv). rewrite (rollup_add_entries _ _ _ _ _ _ Hv t c y). split.
      * intros [[? | (-> & -> & ->)] | (x' & Hin & Hx')]; auto.
        -- right. exists x. split; [by left|exact Hk].
        -- right. exists x'. split; [by right|exact Hx'].
      * intros [? | (x' & [<- | Hin] & Hx')]; auto.
        -- left. right. rewrite Hk in Hx'. injection Hx' as <- <- <-. auto.
        -- right. eauto.
    + subst out1. split.
      * intros [? | (x' & Hin & Hx')]; auto. right. exists x'. split; [by right|exact Hx'].
      * intros [? | (x' & [<- | Hin] & Hx')]; auto; [congruence|]. right. eauto.
Qed.

End RollUpLoops.

Section RollUpEntries.

Context (env : Env).
Context (self : ActivityStats).

(** The type, currency and year a transaction is summed under: those of
    a transaction whose first transaction type carries one of the four
    codes and that has a date. *)
Definition transaction_key (transaction : Element)
  : option (option string * option string * Z) :=
  match _transaction_type_code transaction, _transaction_year env transaction with
  | Some code, Some y =>
      if PyStr.mem code [_incoming_funds_code env self; _commitment_code env self;
                         _disbursement_code env self; _expenditure_code env self]
         && negb (y =? 0)
      then Some (Some code, get_currency self transaction, y)
      else None
  | _, _ => None
  end.

(** The type, currency and year a budget is summed under. *)
Definition budget_key (budget : Element) : option (option string * option string * Z) :=
  match budget_year env budget with
  | Some y =>
      if y =? 0 then None
      else Some (Etree.get budget "type", get_currency self budget, y)
  | None => None
  end.

End RollUpEntries.

(** X18. When [_sum_transactions_by_type_by_year] returns, it has an
    entry for a type, a currency and a year exactly when some transaction
    has that year as the year of its date, that currency (its own or the
    default one, possibly none) and, as the code of its first transaction
    type, that type, which is one of the codes for incoming funds,
    commitment, disbursement and expenditure. A transaction without a
    date or with another type code adds no entry. *)
Theorem sum_transactions_entries (env : Env) (self : ActivityStats) (sums : rollup) :
  _sum_transactions_by_type_by_year env self = Return sums ->
  forall t c y,
    has_entry sums t c y
    <-> exists transaction,
          In transaction (Etree.findall (element self) "transaction")
          /\ transaction_key env self transaction = Some (t, c, y).
Proof.
  unfold _sum_transactions_by_type_by_year. intros H t c y.
  match type of H with
  | fold_m ?step _ _ = _ =>
      assert (forall out x out', step out x = Return out' ->
                match transaction_key env self x with
                | Some (t, c, y) => exists v, rollup_add t c y v out = Return out'
                | None => out' = out
                end) as Hstep
  end.
  { clear. intros out x out'. cbn beta zeta. unfold transaction_key, _transaction_type_code.
    destruct (Etree.find x "transaction-type") as [tt|]; [|by intros [= <-]].
    destruct (Etree.get tt "code") as [code|]; [|by intros [= <-]].
    destruct (PyStr.mem code _); cbn [andb].
    2:{ intros [= <-]. by destruct (_transaction_year env x). }
    destruct (try_except _ _ _) as [v|e]; cbn [bind]; [|discriminate].
    destruct (_transaction_year env x) as [y|]; [|by intros [= <-]].
    destruct (y =? 0); cbn [negb]; [by intros [= <-]|].
    intros Hr. exists v. exact Hr. }
  rewrite (rollup_loop_entries _ _ Hstep _ _ _ H t c y).
  split; [|auto]. intros [(d & [] & _) | ?]. assumption.
Qed.

Lemma sum_transactions_entries_witness :
  exists sums,
    _sum_transactions_by_type_by_year env_budgets_example rollup_activity = Return sums
    /\ has_entry sums (Some "3") (Some "EUR") 2016.
Proof.
  eexists. split; [vm_compute; reflexivity|].
  apply (sum_transactions_entries env_budgets_example rollup_activity);
    [vm_compute; reflexivity|].
  eexists. split; [vm_compute; right; left; reflexivity|]. vm_compute. reflexivity.
Defined.

(** X19. When [sum_budgets_by_type_by_year] returns, it has an entry
    for a type, a currency and a year exactly when some budget has that
    type attribute (possibly none), that currency (its own or the default
    one, possibly none) and that budget year; a budget without a budget
    year adds no entry. *)
Theorem sum_budgets_entries (env : Env) (self : ActivityStats) (sums : rollup) :
  sum_budgets_by_type_by_year env self = Return sums ->
  forall t c y,
    has_entry sums t c y
    <-> exists budget,
          In budget (Etree.findall (element self) "budget")
          /\ budget_key env self budget = Some (t, c, y).
Proof.
  unfold sum_budgets_by_type_by_year. intros H t c y.
  match type of H with
  | fold_m ?step _ _ = _ =>
      assert (forall out x out', step out x = Return out' ->
                match budget_key env self x with
                | Some (t, c, y) => exists v, rollup_add t c y v out = Return out'
                | None => out' = out
                end) as Hstep
  end.
  { clear. intros out x out'. cbn beta zeta. unfold budget_key.
    destruct (try_except _ _ _) as [v|e]; cbn [bind]; [|discriminate].
    destruct (budget_year env x) as [y|]; [|by intros [= <-]].
    destruct (y =? 0); [by intros [= <-]|].
    intros Hr. exists v. exact Hr. }
  rewrite (rollup_loop_entries _ _ Hstep _ _ _ H t c y).
  split; [|auto]. intros [(d & [] & _) | ?]. assumption.
Qed.

Lemma sum_budgets_entries_witness :
  exists sums,
    sum_budgets_by_type_by_year env_budgets_example rollup_activity = Return sums
    /\ has_entry sums (Some "1") (Some "EUR") 2020.
Proof.
  eexists. split; [vm_compute; reflexivity|].
  apply (sum_budgets_entries env_budgets_example rollup_activity);
    [vm_compute; reflexivity|].
  eexists. split; [vm_compute; right; left; reflexivity|]. vm_compute. reflexivity.
Defined.

(** ** The sums of the roll-ups *)

Section RollUpLoopValues.

Context {A : Type}.
Context (step : rollup -> A -> result rollup).
Context (key : A -> option (option string * option string * Z)).
Context (amount : A -> Decimal.decimal).

(** The amounts of the elements with a given key, in the order of the
    list. *)
Fixpoint terms_of (l : list A) (t c : option string) (y : Z) : list Decimal.decimal :=
  match l with
  | [] => []
  | x :: l' =>
      match key x with
      | Some (t', c', y') =>
          if option_string_eqb t t' && option_string_eqb c c' && (y =? y')
          then amount x :: terms_of l' t c y
          else terms_of l' t c y
      | None => terms_of l' t c y
      end
  end.

(** A loop that, for each element, leaves the roll-up as it is or adds
    the amount of the element under its key. *)
Lemma rollup_loop_values :
  (forall out x out', step out x = Return out' ->
     match key x with
     | Some (t, c, y) => rollup_add t c y (amount x) out = Return out'
     | None => out' = out
     end) ->
  forall l out0 out,
    fold_m step out0 l = Return out ->
    forall t c y,
      add_terms (rollup_get out0 t c y) (terms_of l t c y) = Return (rollup_get out t c y).
Proof.
  intros Hstep l. induction l as [|x l IH]; intros out0 out H t c y; cbn [fold_m] in H.
  - apply Return_inj in H. by subst out.
  - destruct (step out0 x) as [out1|e] eqn:H1; cbn [bind] in H; [|discriminate].
    specialize (Hstep out0 x out1 H1). cbn [terms_of].
    destruct (key x) as [[[t0 c0] y0]|].
    + destruct (rollup_add_get _ _ _ _ _ _ Hstep) as (v' & Hadd & Hget).
      specialize (Hget t c y). rewrite <- (IH out1 out H t c y), Hget.
      destruct (option_string_eqb t t0 && option_string_eqb c c0 && (y =? y0)) eqn:E;
        [|reflexivity].
      apply andb_true_iff in E as [E Ey]. apply andb_true_iff in E as [Et Ec].
      apply option_string_eqb_eq in Et, Ec. apply Z.eqb_eq in Ey. subst t0 c0 y0.
      cbn [add_terms]. rewrite Hadd. reflexivity.
    + subst out1. exact (IH out0 out H t c y).
Qed.

End RollUpLoopValues.

Section RollUpSums.

Context (env : Env).
Context (self : ActivityStats).

(** The amount of a transaction or of a budget: [Decimal] of the text of
    its first [value] child, and zero without such a child, without text
    and for a text that [Decimal] rejects. *)
Definition amount_of (x : Element) : Decimal.decimal :=
  match value_of (Etree.find x "value") with
  | Return v => v
  | Raise _ => Decimal.of_Z 0
  end.

Lemma value_of_caught (x : Element) (caught : exn -> bool) :
  caught InvalidOperation = true ->
  try_except (value_of (Etree.find x "value")) caught (Return (Decimal.of_Z 0))
  = Return (amount_of x).
Proof.
  intros Hc. unfold amount_of.
  destruct (value_of (Etree.find x "value")) as [v|e] eqn:Hv; cbn [try_except];
    [reflexivity|].
  assert (e = InvalidOperation) as ->; [|by rewrite Hc].
  unfold value_of in Hv. destruct (Etree.find x "value") as [el|]; [|discriminate].
  destruct (text el) as [s|]; [|discriminate]. by apply (of_string_raises s).
Qed.

Lemma sum_transactions_values (sums : rollup) :
  _sum_transactions_by_type_by_year env self = Return sums ->
  forall t c y,
    entry_is_sum (rollup_get sums t c y)
      (terms_of (transaction_key env self) amount_of
         (Etree.findall (element self) "transaction") t c y).
Proof.
  unfold _sum_transactions_by_type_by_year. intros H t c y. apply add_terms_sum.
  match type of H with
  | fold_m ?step _ _ = _ =>
      assert (forall out x out', step out x = Return out' ->
                match transaction_key env self x with
                | Some (t, c, y) => rollup_add t c y (amount_of x) out = Return out'
                | None => out' = out
                end) as Hstep
  end.
  { clear. intros out x out'. cbn beta zeta. unfold transaction_key, _transaction_type_code.
    destruct (Etree.find x "transaction-type") as [tt|]; [|by intros [= <-]].
    destruct (Etree.get tt "code") as [code|]; [|by intros [= <-]].
    destruct (PyStr.mem code _); cbn [andb].
    2:{ intros [= <-]. by destruct (_transaction_year env x). }
    rewrite value_of_caught by reflexivity. cbn [bind].
    destruct (_transaction_year env x) as [y|]; [|by intros [= <-]].
    destruct (y =? 0); cbn [negb]; [by intros [= <-]|].
    intros Hr. exact Hr. }
  exact (rollup_loop_values _ _ _ Hstep _ _ _ H t c y).
Qed.

Lemma sum_budgets_values (sums : rollup) :
  sum_budgets_by_type_by_year env self = Return sums ->
  forall t c y,
    entry_is_sum (rollup_get sums t c y)
      (terms_of (budget_key env self) amount_of (Etree.findall (element self) "budget") t c y).
Proof.
  unfold sum_budgets_by_type_by_year. intros H t c y. apply add_terms_sum.
  match type of H with
  | fold_m ?step _ _ = _ =>
      assert (forall out x out', step out x = Return out' ->
                match budget_key env self x with
                | Some (t, c, y) => rollup_add t c y (amount_of x) out = Return out'
                | None => out' = out
                end) as Hstep
  end.
  { clear. intros out x out'. cbn beta zeta. unfold budget_key.
    rewrite value_of_caught by reflexivity. cbn [bind].
    destruct (budget_year env x) as [y|]; [|by intros [= <-]].
    destruct (y =? 0); [by intros [= <-]|].
    intros Hr. exact Hr. }
  exact (rollup_loop_values _ _ _ Hstep _ _ _ H t c y).
Qed.

End RollUpSums.

(** The conversion with a rate: the value goes to a float, is multiplied
    by the float [1 / rate], and the product is read back exactly. *)
Lemma get_USD_value_through_float cv c v y rate f :
  recorded_rate cv c y = Some rate -> PrimFloat.eqb rate 0 = false ->
  Decimal.to_float v = Return f ->
  get_USD_value cv c v y = Return (Decimal.of_float ((1 / rate) * f)%float).
Proof.
  unfold recorded_rate, get_USD_value. intros Hr Hz Hf.
  destruct (cv !! c) as [years|]; [|discriminate]. cbn [from_option bind].
  rewrite Hr. cbn [from_option bind]. rewrite Hz. cbn [bind]. rewrite Hf. reflexivity.
Qed.

(** No value is added to a year after 2014. *)
Lemma contributions_after_2014 (items : list rollup_item) (t : option string) (y : Z) :
  2014 < y -> contributions_of year_capped items t y = [].
Proof.
  intros Hy. induction items as [|[[[t' c] y'] v] items IH]; cbn [contributions_of];
    [reflexivity|].
  destruct c as [cur|]; [|exact IH].
  replace (y =? year_capped y') with false; [by rewrite andb_false_r|].
  symmetry. apply Z.eqb_neq. pose proof (year_capped_le y'). lia.
Qed.

(** The values of the elements are written in ASCII. *)
Definition ascii_values (l : list Element) : Prop :=
  Forall (fun x => forall v, Etree.find x "value" = Some v -> ascii_text (text v)) l.

(** C6 (as the code has it). The roll-ups by type, currency and year
    add [Decimal] values (read from ASCII text) with [Decimal] addition,
    in document order and starting from [Decimal()]: decimal arithmetic,
    rounded by the context to 28 significant digits, without floating
    point. Their USD variants do pass through floating point: each total
    of the roll-up is converted by [get_USD_value], which multiplies the
    float of the total by the float [1 / rate] and reads the product back
    as a [Decimal]; the converted values are then added with [Decimal]
    addition. *)
Theorem rollups_decimal_and_float (env : Env) (self : ActivityStats) :
  (forall sums,
     ascii_values (Etree.findall (element self) "transaction") ->
     _sum_transactions_by_type_by_year env self = Return sums ->
     forall t c y,
       entry_is_sum (rollup_get sums t c y)
         (terms_of (transaction_key env self) amount_of
            (Etree.findall (element self) "transaction") t c y))
  /\ (forall sums,
        ascii_values (Etree.findall (element self) "budget") ->
        sum_budgets_by_type_by_year env self = Return sums ->
        forall t c y,
          entry_is_sum (rollup_get sums t c y)
            (terms_of (budget_key env self) amount_of
               (Etree.findall (element self) "budget") t c y))
  /\ (forall out,
        sum_transactions_by_type_by_year_usd env self = Return out ->
        exists sums,
          _sum_transactions_by_type_by_year env self = Return sums
          /\ forall t y,
               exists terms,
                 map_m (fun '(cur, v) => get_USD_value (currency_values env) cur v y)
                   (usd_contributions year_capped sums t y) = Return terms
                 /\ entry_is_sum (rollup_get out t (Some "USD") y) terms)
  /\ (forall out,
        sum_budgets_by_type_by_year_usd env self = Return out ->
        exists sums,
          sum_budgets_by_type_by_year env self = Return sums
          /\ forall t y,
               exists terms,
                 map_m (fun '(cur, v) => get_USD_value (currency_values env) cur v y)
                   (usd_contributions (fun y => y) sums t y) = Return terms
                 /\ entry_is_sum (rollup_get out t (Some "USD") y) terms)
  /\ (forall c v y rate f,
        recorded_rate (currency_values env) c y = Some rate ->
        PrimFloat.eqb rate 0 = false ->
        Decimal.to_float v = Return f ->
        get_USD_value (currency_values env) c v y
        = Return (Decimal.of_float ((1 / rate) * f)%float)).
Proof.
  split; [|split; [|split; [|split]]].
  - intros sums _. apply sum_transactions_values.
  - intros sums _. apply sum_budgets_values.
  - unfold sum_transactions_by_type_by_year_usd. intros out H.
    destruct (_sum_transactions_by_type_by_year env self) as [sums|e]; cbn [bind] in H;
      [|discriminate].
    exists sums. split; [reflexivity|].
    by destruct (usd_of_rollup_values env year_capped sums out H).
  - unfold sum_budgets_by_type_by_year_usd. intros out H.
    destruct (sum_budgets_by_type_by_year env self) as [sums|e]; cbn [bind] in H;
      [|discriminate].
    exists sums. split; [reflexivity|].
    by destruct (usd_of_rollup_values env (fun y => y) sums out H).
  - intros c v y rate f. apply get_USD_value_through_float.
Qed.

(** One disbursement of 0.1 dollars in 2014, and two disbursements of
    10^28 and of 1 dollar. *)
Definition tenth_activity : ActivityStats :=
  activity_of [("default-currency", "USD")]
    [ node "transaction" []
        [ leaf "transaction-type" [("code", "3")] None;
          leaf "transaction-date" [("iso-date", "2014-02-01")] None;
          leaf "value" [] (Some "0.1") ] ].

Definition large_activity : ActivityStats :=
  activity_of [("default-currency", "USD")]
    [ node "transaction" []
        [ leaf "transaction-type" [("code", "3")] None;
          leaf "transaction-date" [("iso-date", "2014-02-01")] None;
          leaf "value" [] (Some "10000000000000000000000000000") ];
      node "transaction" []
        [ leaf "transaction-type" [("code", "3")] None;
          leaf "transaction-date" [("iso-date", "2014-03-01")] None;
          leaf "value" [] (Some "1") ] ].

(** C6 as stated fails. At a rate of 1 the USD roll-up of 0.1 dollars is
    not 0.1: it is the binary float nearest to 0.1, read back and rounded
    to 28 digits, which is greater. And the sum of 10^28 and 1 is 10^28:
    the addition is decimal, but rounded to 28 digits. *)
Lemma usd_rollup_through_float :
  recorded_rate rates_example "USD" 2014 = Some 1%float
  /\ _sum_transactions_by_type_by_year env_budgets_example tenth_activity
     = Return [(Some "3", [(Some "USD", [(2014, Decimal.Fin false 1 (-1))])])]
  /\ sum_transactions_by_type_by_year_usd env_budgets_example tenth_activity
     = Return [(Some "3",
                [(Some "USD",
                  [(2014, Decimal.Fin false 1000000000000000055511151231 (-28))])])]
  /\ Decimal.cmp (Decimal.Fin false 1000000000000000055511151231 (-28))
       (Decimal.Fin false 1 (-1)) = Gt
  /\ _sum_transactions_by_type_by_year env_budgets_example large_activity
     = Return [(Some "3",
                [(Some "USD",
                  [(2014, Decimal.Fin false 1000000000000000000000000000 1)])])].
Proof. repeat split; vm_compute; reflexivity. Qed.

(** C7 (as the code has it). The conversion [get_USD_value] does not clamp a year:
    for a year without a rate in the table it returns zero, and it never
    fails for that. Only [sum_transactions_by_type_by_year_usd] replaces
    a year, and by 2014 whatever the table covers: the values of later
    years are converted at 2014 and added to the entry of 2014, so no
    entry is for a later year. [sum_budgets_by_type_by_year_usd] keeps
    the year of the budget: where the table has no rate at that year, the
    entry is zero. *)
Theorem usd_conversion_years (env : Env) (self : ActivityStats) :
  (forall c v y,
     recorded_rate (currency_values env) c y = None ->
     get_USD_value (currency_values env) c v y = Return (Decimal.of_Z 0))
  /\ (forall out,
        sum_transactions_by_type_by_year_usd env self = Return out ->
        exists sums,
          _sum_transactions_by_type_by_year env self = Return sums
          /\ (forall t y,
                exists terms,
                  map_m (fun '(cur, v) => get_USD_value (currency_values env) cur v y)
                    (usd_contributions year_capped sums t y) = Return terms
                  /\ entry_is_sum (rollup_get out t (Some "USD") y) terms)
          /\ (forall t c y, 2014 < y -> rollup_get out t c y = None))
  /\ (forall out,
        sum_budgets_by_type_by_year_usd env self = Return out ->
        exists sums,
          sum_budgets_by_type_by_year env self = Return sums
          /\ (forall t y,
                exists terms,
                  map_m (fun '(cur, v) => get_USD_value (currency_values env) cur v y)
                    (usd_contributions (fun y => y) sums t y) = Return terms
                  /\ entry_is_sum (rollup_get out t (Some "USD") y) terms)
          /\ (forall t y,
                usd_contributions (fun y => y) sums t y <> [] ->
                (forall cur v, In (cur, v) (usd_contributions (fun y => y) sums t y) ->
                               recorded_rate (currency_values env) cur y = None) ->
                rollup_get out t (Some "USD") y = Some (Decimal.of_Z 0))).
Proof.
  split; [|split].
  - intros c v y. apply get_USD_value_no_rate.
  - unfold sum_transactions_by_type_by_year_usd. intros out H.
    destruct (_sum_transactions_by_type_by_year env self) as [sums|e]; cbn [bind] in H;
      [|discriminate].
    exists sums. split; [reflexivity|].
    destruct (usd_of_rollup_values env year_capped sums out H) as [Hv Ho].
    split; [exact Hv|].
    intros t c y Hy. destruct (decide (c = Some "USD")) as [-> | Hc]; [|by apply Ho].
    destruct (Hv t y) as (terms & Hterms & Hsum).
    unfold usd_contributions in Hterms. rewrite contributions_after_2014 in Hterms by exact Hy.
    cbn [map_m] in Hterms. apply Return_inj in Hterms. subst terms. exact Hsum.
  - unfold sum_budgets_by_type_by_year_usd. intros out H.
    destruct (sum_budgets_by_type_by_year env self) as [sums|e]; cbn [bind] in H;
      [|discriminate].
    exists sums. split; [reflexivity|].
    destruct (usd_of_rollup_values env (fun y => y) sums out H) as [Hv _].
    split; [exact Hv|].
    intros t y Hne Hrate. destruct (Hv t y) as (terms & Hterms & Hsum).
    destruct (conversions_without_rate _ _ _ _ Hrate Hterms) as [Hz Hlen].
    assert (terms <> []) as Hn.
    { intros ->. destruct (usd_contributions (fun y => y) sums t y); [contradiction|].
      discriminate. }
    unfold entry_is_sum in Hsum. destruct terms as [|x l]; [contradiction|].
    destruct Hsum as (total & Htotal & ->).
    rewrite (sum_of_zeros _ Hz) in Htotal. apply Return_inj in Htotal. by subst total.
Qed.

(** C7 as stated fails. The table of the example has rates for euros up
    to 2014. A conversion of 100 euros at 2020 gives zero, not the 133.33
    dollars of the rate of 2014, and the budget of 2020 stays under 2020
    as zero; only the disbursement of 2016 is converted at the rate of
    2014, under 2014. *)
Lemma usd_year_not_clamped :
  recorded_rate rates_example "EUR" 2014 = Some 0.75%float
  /\ recorded_rate rates_example "EUR" 2020 = None
  /\ get_USD_value rates_example "EUR" (Decimal.of_Z 100) 2020 = Return (Decimal.of_Z 0)
  /\ get_USD_value rates_example "EUR" (Decimal.of_Z 100) 2014
     = Return (Decimal.Fin false 13333333333333331438552704639732837677001953125 (-44))
  /\ sum_budgets_by_type_by_year_usd env_budgets_example rollup_activity
     = Return [(Some "1",
                [(Some "USD",
                  [(2014, Decimal.Fin false 400 0); (2020, Decimal.Fin false 0 0)])])]
  /\ sum_transactions_by_type_by_year_usd env_budgets_example rollup_activity
     = Return [(Some "3",
                [(Some "USD",
                  [(2013, Decimal.Fin false 125 0);
                   (2014, Decimal.Fin false 8010000000000000000555111512 (-26))])])].
Proof. repeat split; vm_compute; reflexivity. Qed.

(** ** Traceable activities *)

Section Traceable.

Context (without_own : gmap string Z).

(** The numerator stays under the denominator, publisher by publisher. *)
Definition under (num den : gmap string Z) : Prop :=
  forall p,
    match num !! p with
    | Some n => exists d, den !! p = Some d /\ 0 <= n <= d
    | None => forall d, den !! p = Some d -> 0 <= d
    end.

Lemma under_add_both (p : string) (count : Z) (num den : gmap string Z) :
  0 <= count -> under num den -> under (add_to p count num) (add_to p count den).
Proof.
  intros Hc H q. unfold add_to. specialize (H q).
  destruct (decide (q = p)) as [-> | Hne].
  - rewrite !lookup_insert_eq.
    destruct (num !! p) as [n|].
    + destruct H as (d & -> & Hn). cbn. eexists. split; [reflexivity|lia].
    + destruct (den !! p) as [d|]; cbn.
      * specialize (H d eq_refl). eexists. split; [reflexivity|lia].
      * eexists. split; [reflexivity|lia].
  - by rewrite !lookup_insert_ne by congruence.
Qed.

Lemma under_add_denominator (p : string) (count : Z) (num den : gmap string Z) :
  0 <= count -> under num den -> under num (add_to p count den).
Proof.
  intros Hc H q. unfold add_to. specialize (H q).
  destruct (decide (q = p)) as [-> | Hne].
  - rewrite lookup_insert_eq.
    destruct (num !! p) as [n|].
    + destruct H as (d & -> & Hn). cbn. eexists. split; [reflexivity|lia].
    + intros d [= <-]. destruct (den !! p) as [d|]; cbn; [|lia].
      specialize (H d eq_refl). lia.
  - by rewrite lookup_insert_ne by congruence.
Qed.

Lemma under_identifiers (p : string) (counts : list (string * Z)) :
  (forall i count, In (i, count) counts -> 0 <= count) ->
  forall num den,
    under num den ->
    under
      (foldl (fun out '(iati_identifier, count) =>
                if bool_decide (is_Some (without_own !! iati_identifier))
                then add_to p count out else out) num counts)
      (foldl (fun out '(iati_identifier, count) => add_to p count out) den counts).
Proof.
  induction counts as [|[i count] counts IH]; intros Hc num den H; cbn [foldl].
  - exact H.
  - assert (0 <= count) as H0 by (apply (Hc i); by left).
    apply IH; [intros i' c' Hin; apply (Hc i'); by right|].
    destruct (bool_decide (is_Some (without_own !! i))).
    + by apply under_add_both.
    + by apply under_add_denominator.
Qed.

Lemma under_publishers (by_publisher : list (string * list (string * Z))) :
  (forall p counts i count, In (p, counts) by_publisher -> In (i, count) counts -> 0 <= count) ->
  forall num den,
    under num den ->
    under
      (foldl (fun out '(publisher_id, iati_identifiers_counts) =>
                foldl (fun out '(iati_identifier, count) =>
                         if bool_decide (is_Some (without_own !! iati_identifier))
                         then add_to publisher_id count out else out)
                  out iati_identifiers_counts) num by_publisher)
      (foldl (fun out '(publisher_id, iati_identifiers_counts) =>
                foldl (fun out '(iati_identifier, count) => add_to publisher_id count out)
                  out iati_identifiers_counts) den by_publisher).
Proof.
  induction by_publisher as [|[p counts] l IH]; intros Hc num den H; cbn [foldl].
  - exact H.
  - apply IH; [intros p' cs i c Hin; apply (Hc p' cs i c); by right|].
    apply under_identifiers; [|exact H].
    intros i c Hin. apply (Hc p counts i c); [by left|exact Hin].
Qed.

End Traceable.

(** X20. When no identifier count is negative, every publisher with an
    entry in [traceable_activities_by_publisher_id] has an entry in
    [traceable_activities_by_publisher_id_denominator], and the number of
    its traceable activities lies between 0 and that denominator. *)
Theorem traceable_activities_under_denominator
    (by_publisher : list (string * list (string * Z))) (without_own : gmap string Z)
    (p : string) (n : Z) :
  (forall q counts i count,
     In (q, counts) by_publisher -> In (i, count) counts -> 0 <= count) ->
  traceable_activities_by_publisher_id by_publisher without_own !! p = Some n ->
  exists d, traceable_activities_by_publisher_id_denominator by_publisher !! p = Some d
            /\ 0 <= n <= d.
Proof.
  intros Hc Hn.
  assert (under (traceable_activities_by_publisher_id by_publisher without_own)
            (traceable_activities_by_publisher_id_denominator by_publisher)) as H.
  { apply under_publishers; [exact Hc|]. intros q. rewrite !lookup_empty.
    intros d. discriminate. }
  specialize (H p). rewrite Hn in H. exact H.
Qed.

Lemma traceable_activities_under_denominator_witness :
  exists d,
    traceable_activities_by_publisher_id_denominator
      [("aa", [("AA-1", 1); ("AA-2", 2)]); ("bb", [("BB-1", 1)])] !! "aa" = Some d
    /\ 0 <= 2 <= d.
Proof.
  apply (traceable_activities_under_denominator
           [("aa", [("AA-1", 1); ("AA-2", 2)]); ("bb", [("BB-1", 1)])]
           {[ "AA-2" := 1; "XX-9" := 3 ]} "aa" 2).
  - intros q counts i count Hq Hi.
    repeat (destruct Hq as [[= <- <-] | Hq];
            [repeat (destruct Hi as [[= <- <-] | Hi]; [lia|]); destruct Hi|]).
    destruct Hq.
  - vm_compute. reflexivity.
Defined.

(** ** Timeliness *)

(** X22. On transaction timing counts that are cumulative, as
    [_transaction_timing] produces them, the label of
    [_timeliness_transactions] is decided by the first count that is not
    zero from the 60 days one on: Monthly for 60, Quarterly for 90,
    Six-monthly for 180, Annual for 360, and Beyond one year when all are
    zero; the 30 days count decides nothing. *)
Theorem timeliness_by_first_count (tt : gmap string Z) (a b c d e : Z) :
  tt !! "30" = Some a -> tt !! "60" = Some b -> tt !! "90" = Some c ->
  tt !! "180" = Some d -> tt !! "360" = Some e ->
  0 <= a <= b -> b <= c -> c <= d -> d <= e ->
  _timeliness_transactions tt
  = Return (if negb (b =? 0) then "Monthly"
            else if negb (c =? 0) then "Quarterly"
            else if negb (d =? 0) then "Six-monthly"
            else if negb (e =? 0) then "Annual"
            else "Beyond one year").
Proof.
  intros Ha Hb Hc Hd He Hab Hbc Hcd Hde.
  unfold _timeliness_transactions, getitem. rewrite Ha, Hb, Hc, Hd, He.
  cbn [from_option bind]. unfold count_zeros. cbn [List.filter].
  destruct (Z.eqb_spec a 0), (Z.eqb_spec b 0), (Z.eqb_spec c 0); try lia;
    cbn [length negb bind];
    [change (Z.of_nat 3 <=? 1) with false; change (Z.of_nat 3 <=? 2) with false
    |change (Z.of_nat 2 <=? 1) with false; change (Z.of_nat 2 <=? 2) with true
    |change (Z.of_nat 1 <=? 1) with true
    |change (Z.of_nat 0 <=? 1) with true];
    cbn iota; try reflexivity.
  destruct (d =? 0); [|reflexivity]. by destruct (e =? 0).
Qed.

Lemma timeliness_by_first_count_witness :
  _timeliness_transactions
    {[ "30" := 0; "60" := 0; "90" := 4; "180" := 4; "360" := 9 ]}
  = Return "Quarterly".
Proof.
  apply (timeliness_by_first_count _ 0 0 4 4 9); try reflexivity; lia.
Defined.

(** ** The exchange rate table *)

Section RateTableRows.

Context (float_of_string : string -> result float).

(** The rate of the last row of a currency and a year. *)
Fixpoint last_rate (rows : list (string * string * string)) (c : string) (y : Z)
  : option float :=
  match rows with
  | [] => None
  | (currency, rate_text, date_text) :: rows' =>
      match last_rate rows' c y with
      | Some rate => Some rate
      | None =>
          match float_of_string rate_text, py_int (String.substring 0 4 date_text) with
          | Return rate, Return y' =>
              if String.eqb currency c && (y' =? y) then Some rate else None
          | _, _ => None
          end
      end
  end.

Lemma recorded_rate_insert (cv : gmap string (gmap Z float)) (currency c : string)
    (y' y : Z) (rate : float) :
  recorded_rate (<[currency := <[y' := rate]> (default ∅ (cv !! currency))]> cv) c y
  = if String.eqb currency c && (y' =? y) then Some rate else recorded_rate cv c y.
Proof.
  unfold recorded_rate.
  destruct (String.eqb_spec currency c) as [-> | Hc]; cbn [andb].
  - rewrite lookup_insert_eq. destruct (Z.eqb_spec y' y) as [-> | Hy].
    + by rewrite lookup_insert_eq.
    + rewrite lookup_insert_ne by exact Hy. by destruct (cv !! c).
  - by rewrite lookup_insert_ne by exact Hc.
Qed.

Lemma load_rows_recorded (rows : list (string * string * string)) :
  forall cv0 cv,
    fold_m (fun currency_values '(currency, rate_text, date_text) =>
              rate <- float_of_string rate_text ;;
              y <- py_int (String.substring 0 4 date_text) ;;
              Return (<[currency := <[y := rate]> (default ∅ (currency_values !! currency))]>
                        currency_values))
      cv0 rows = Return cv ->
    forall c y,
      recorded_rate cv c y
      = match last_rate rows c y with
        | Some rate => Some rate
        | None => recorded_rate cv0 c y
        end.
Proof.
  induction rows as [|[[currency rate_text] date_text] rows IH]; intros cv0 cv H c y;
    cbn [fold_m last_rate] in *.
  - apply Return_inj in H. by subst cv.
  - destruct (float_of_string rate_text) as [rate|e]; cbn [bind] in H; [|discriminate].
    destruct (py_int (String.substring 0 4 date_text)) as [y'|e]; cbn [bind] in H;
      [|discriminate].
    rewrite (IH _ _ H c y). destruct (last_rate rows c y); [reflexivity|].
    rewrite recorded_rate_insert.
    by destruct (String.eqb currency c && (y' =? y)).
Qed.

End RateTableRows.

(** X23. When the rows of the exchange rate file load, the rate the
    table records for a currency and a year is the rate of the last row
    with that currency whose date starts with that year, and none when
    there is no such row: a later row of the same year replaces an earlier
    one. *)
Theorem load_currency_values_last_row (float_of_string : string -> result float)
    (rows : list (string * string * string)) (cv : gmap string (gmap Z float)) :
  load_currency_values float_of_string rows = Return cv ->
  forall c y, recorded_rate cv c y = last_rate float_of_string rows c y.
Proof.
  unfold load_currency_values. intros H c y.
  rewrite (load_rows_recorded float_of_string rows ∅ cv H c y).
  destruct (last_rate float_of_string rows c y); [reflexivity|].
  unfold recorded_rate. by rewrite lookup_empty.
Qed.

(** [float(s)] on the decimal literals of the example rows. *)
Definition float_of_decimal_text (s : string) : result float :=
  match Decimal.of_string s with
  | Return d => Decimal.to_float d
  | Raise _ => Raise ValueError
  end.

Lemma load_currency_values_last_row_witness :
  exists cv,
    load_currency_values float_of_decimal_text
      [("EUR", "0.8", "2013-01-31"); ("EUR", "0.78", "2013-12-31");
       ("EUR", "0.75", "2014-12-31")]
    = Return cv
    /\ recorded_rate cv "EUR" 2013 = Some 0.78%float
    /\ recorded_rate cv "EUR" 2015 = None.
Proof.
  destruct (load_currency_values float_of_decimal_text
              [("EUR", "0.8", "2013-01-31"); ("EUR", "0.78", "2013-12-31");
               ("EUR", "0.75", "2014-12-31")]) as [cv|e] eqn:H.
  - exists cv. split; [reflexivity|].
    rewrite !(load_currency_values_last_row float_of_decimal_text _ _ H).
    split; vm_compute; reflexivity.
  - vm_compute in H. discriminate.
Defined.

(** ** Validation against the plain tests *)

Section ValidationAgainstPlain.

Context (env : Env).
Context (self : ActivityStats).

Lemma truth_py_and_l (a b : pyval) : truth (py_and a b) = true -> truth a = true.
Proof. unfold py_and. destruct (truth a) eqn:E; [reflexivity|]. intros H. congruence. Qed.

Lemma truth_item (bools : gmap string pyval) (k : string) :
  truth (item bools k) = true -> exists v0, bools !! k = Some v0 /\ truth v0 = true.
Proof.
  unfold item. destruct (bools !! k) as [v0|]; cbn; [eauto|discriminate].
Qed.

Lemma all_true_and_not_empty_nonempty (l : list bool) :
  all_true_and_not_empty l = true -> l <> [].
Proof. intros H. apply all_true_and_not_empty_iff in H. tauto. Qed.

Lemma option_union_Some_l {A} (x : A) (my : option A) : Some x ∪ my = Some x.
Proof. by destruct my. Qed.

Lemma option_union_None_l {A} (my : option A) : None ∪ my = my.
Proof. by destruct my. Qed.

(** Three entries of the plain tests are the lists the validation goes
    through. *)
Lemma bools_lists (bools : gmap string pyval) :
  _comprehensiveness_bools env self = Return bools ->
  bools !! "location_point_pos" = Some (VElems (location_point_pos self))
  /\ bools !! "document-link" = Some (VElems (Etree.findall (element self) "document-link"))
  /\ bools !! "activity-website" = Some (VElems (activity_website env self)).
Proof.
  unfold _comprehensiveness_bools.
  destruct (_budget_not_provided self) as [bnp|e]; cbn [bind]; [|discriminate].
  intros H. apply Return_inj in H. subst bools. rewrite !lookup_list_to_map_first.
  lazy beta iota delta [first_with_key String.eqb Ascii.eqb Bool.eqb]. auto.
Qed.

(** Apart from [transaction_currency], a test that holds with validation
    holds without. *)
Lemma validation_bools_below (vb : gmap string pyval) :
  _comprehensiveness_with_validation_bools env self = Return vb ->
  exists bools,
    _comprehensiveness_bools env self = Return bools
    /\ forall k v,
         k <> "transaction_currency" -> vb !! k = Some v -> truth v = true ->
         exists v0, bools !! k = Some v0 /\ truth v0 = true.
Proof.
  unfold _comprehensiveness_with_validation_bools. intros H.
  destruct (_comprehensiveness_bools env self) as [bools|e] eqn:Hb; cbn [bind] in H;
    [|discriminate].
  exists bools. split; [reflexivity|].
  destruct (bools_lists bools Hb) as (Hpos & Hdoc & Hweb).
  repeat match type of H with
         | bind (map_m _ _) _ = _ => fail 1
         | bind ?m _ = _ => destruct m; cbn [bind] in H; [|discriminate]
         end.
  destruct (map_m _ (location_point_pos self)) as [coords|e] eqn:Hc; cbn [bind] in H;
    [|discriminate].
  apply Return_inj in H. subst vb.
  intros k v Hk Hv Ht. rewrite lookup_union, lookup_list_to_map_first in Hv.
  cbn [first_with_key] in Hv.
  repeat match type of Hv with
         | context [if String.eqb k ?s then _ else _] =>
             destruct (String.eqb_spec k s) as [-> | ?];
             [rewrite option_union_Some_l in Hv; apply (inj Some) in Hv; subst v;
              try contradiction;
              try (repeat apply truth_py_and_l in Ht; apply truth_item in Ht; exact Ht)|]
         end.
  - (* location_point_pos *)
    eexists. split; [exact Hpos|].
    cbn [truth] in Ht. apply all_true_and_not_empty_nonempty in Ht.
    apply map_m_Forall2 in Hc. destruct Hc; [contradiction|reflexivity].
  - (* document-link *)
    eexists. split; [exact Hdoc|].
    cbn [truth] in Ht. apply all_true_and_not_empty_nonempty in Ht.
    destruct (Etree.findall (element self) "document-link"); [contradiction|reflexivity].
  - (* activity-website *)
    eexists. split; [exact Hweb|].
    cbn [truth] in Ht. apply all_true_and_not_empty_nonempty in Ht.
    destruct (activity_website env self); [contradiction|reflexivity].
  - (* a key the validation does not replace *)
    rewrite option_union_None_l in Hv. eauto.
Qed.

End ValidationAgainstPlain.

(** X24. Validation only takes away: apart from [transaction_currency],
    a criterion that [comprehensiveness_with_validation] counts as 1 is
    counted as 1 by [comprehensiveness] too, which returns whenever the
    validated one does. *)
Theorem validation_only_takes_away (env : Env) (self : ActivityStats)
    (validated : gmap string Z) (k : string) :
  comprehensiveness_with_validation env self = Return validated ->
  k <> "transaction_currency" ->
  validated !! k = Some 1 ->
  exists plain, comprehensiveness env self = Return plain /\ plain !! k = Some 1.
Proof.
  unfold comprehensiveness_with_validation, comprehensiveness. intros H Hk Hv.
  destruct (_comprehensiveness_is_current env self).
  2:{ apply Return_inj in H. subst validated. rewrite lookup_empty in Hv. discriminate. }
  destruct (_comprehensiveness_with_validation_bools env self) as [vb|e] eqn:Hvb;
    cbn [bind] in H; [|discriminate].
  apply Return_inj in H. subst validated.
  destruct (validation_bools_below env self vb Hvb) as (bools & Hb & Hbelow).
  rewrite Hb. cbn [bind]. eexists. split; [reflexivity|].
  rewrite map_lookup_imap in Hv. rewrite map_lookup_imap.
  destruct (vb !! k) as [v|] eqn:Hvk; cbn in Hv; [|discriminate].
  apply (inj Some) in Hv. unfold numerator in Hv.
  destruct (truth v) eqn:Ht; cbn [andb] in Hv; [|discriminate].
  destruct (Hbelow k v Hk Hvk Ht) as (v0 & -> & Ht0). cbn.
  unfold numerator. rewrite Ht0. cbn [andb].
  destruct (match comprehensiveness_denominators env self !! k with
            | Some d => negb (d =? 0) | None => true end); [reflexivity|discriminate].
Qed.

Lemma validation_only_takes_away_witness :
  exists plain,
    comprehensiveness env_example current_activity = Return plain
    /\ plain !! "transaction_spend" = Some 1.
Proof.
  assert (entry (comprehensiveness_with_validation env_example current_activity)
            "transaction_spend" = Some 1) as Hv by (vm_compute; reflexivity).
  destruct (comprehensiveness_with_validation env_example current_activity)
    as [validated|e] eqn:H; [|discriminate].
  apply (validation_only_takes_away env_example current_activity validated
           "transaction_spend" H); [discriminate|exact Hv].
Defined.

(** An implementing activity without transactions. *)
Definition activity_without_transactions : ActivityStats :=
  activity_of [("default-currency", "EUR")]
    [ leaf "iati-identifier" [] (Some "AA-AAA-3");
      node "title" [] [ leaf "narrative" [] (Some "Wells") ];
      leaf "activity-status" [("code", "2")] None ].

(** The [transaction_currency] criterion is the exception: without
    transactions it is counted with validation and not without. *)
Example transaction_currency_without_transactions :
  entry (comprehensiveness env_example activity_without_transactions) "transaction_currency"
  = Some 0
  /\ entry (comprehensiveness_with_validation env_example activity_without_transactions)
       "transaction_currency"
     = Some 1.
Proof. split; vm_compute; reflexivity. Qed.

(** ** The humanitarian counts *)

Section HumanitarianEntries.

Context (env : Env).
Context (self : ActivityStats).

(** The flag values of the [humanitarian] attribute exclude each other. *)
Lemma humanitarian_flags_exclusive :
  is_humanitarian_by_attrib_activity self = true ->
  is_not_humanitarian_by_attrib_activity self = false.
Proof.
  unfold is_humanitarian_by_attrib_activity, is_not_humanitarian_by_attrib_activity.
  destruct (Etree.get (element self) "humanitarian") as [v|]; [|reflexivity].
  intros H. apply mem_In in H. destruct H as [<- | [<- | []]]; reflexivity.
Qed.

Lemma is_humanitarian_by_attrib_is_humanitarian :
  is_humanitarian_by_attrib env self = true -> is_humanitarian env self = true.
Proof.
  unfold is_humanitarian. intros H. rewrite H. cbn [orb].
  unfold is_humanitarian_by_attrib in H.
  destruct (in_202_203 env self); cbn [andb] in H; [|discriminate].
  destruct (is_humanitarian_by_attrib_activity self) eqn:Ha; cbn [orb] in H.
  - by rewrite (humanitarian_flags_exclusive Ha).
  - destruct (is_not_humanitarian_by_attrib_activity self); [|reflexivity].
    by rewrite andb_false_r in H.
Qed.

(** A count and its [_without_humanitarian] twin. *)
Lemma with_and_without (flag version rest : bool) (a b : Z) :
  a = b2z (flag && version && rest) ->
  b = b2z (negb flag && version && rest) ->
  (a = 0 \/ a = 1) /\ (b = 0 \/ b = 1)
  /\ a + b = b2z (version && rest)
  /\ (a = 1 -> flag = true) /\ (b = 1 -> flag = false).
Proof. intros -> ->. destruct flag, version, rest; cbn; repeat split; auto; lia. Qed.

End HumanitarianEntries.

(** X25. Each of the four humanitarian counts (scope, clusters
    vocabulary, GLIDE codes, HRP codes) and its [_without_humanitarian]
    twin are 0 or 1 and never both 1: the first can be 1 only when
    [is_humanitarian] is 1, the twin only when it is 0, and both are 0
    when the version is neither 2.02 nor 2.03. *)
Theorem humanitarian_with_and_without (env : Env) (self : ActivityStats) (base : string) :
  In base ["contains_humanitarian_scope"; "uses_humanitarian_clusters_vocab";
           "uses_humanitarian_glide_codes"; "uses_humanitarian_hrp_codes"] ->
  exists a b,
    humanitarian env self !! base = Some a
    /\ humanitarian env self !! (base ++ "_without_humanitarian") = Some b
    /\ (a = 0 \/ a = 1) /\ (b = 0 \/ b = 1) /\ a + b <= 1
    /\ (a = 1 -> humanitarian env self !! "is_humanitarian" = Some 1)
    /\ (b = 1 -> humanitarian env self !! "is_humanitarian" = Some 0)
    /\ (PyStr.mem (_version env self) ["2.02"; "2.03"] = false -> a = 0 /\ b = 0).
Proof.
  intros Hbase. rewrite humanitarian_is_humanitarian.
  assert (forall flag rest a b,
            a = b2z (flag && in_202_203 env self && rest) ->
            b = b2z (negb flag && in_202_203 env self && rest) ->
            flag = is_humanitarian env self ->
            (a = 0 \/ a = 1) /\ (b = 0 \/ b = 1) /\ a + b <= 1
            /\ (a = 1 -> Some (b2z (is_humanitarian env self)) = Some 1)
            /\ (b = 1 -> Some (b2z (is_humanitarian env self)) = Some 0)
            /\ (PyStr.mem (_version env self) ["2.02"; "2.03"] = false -> a = 0 /\ b = 0))
    as Hpair.
  { intros flag rest a b Ha Hb <-.
    destruct (with_and_without flag (in_202_203 env self) rest a b Ha Hb)
      as (Ha01 & Hb01 & Hsum & Ha1 & Hb1).
    repeat split; auto.
    - rewrite Hsum. destruct (in_202_203 env self && rest); cbn; lia.
    - intros H. by rewrite (Ha1 H).
    - intros H. by rewrite (Hb1 H).
    - fold (in_202_203 env self) in H. rewrite H in Ha. rewrite andb_false_r in Ha.
      exact Ha.
    - fold (in_202_203 env self) in H. rewrite H in Hb. rewrite andb_false_r in Hb.
      exact Hb. }
  unfold humanitarian.
  destruct Hbase as [<- | [<- | [<- | [<- | []]]]];
    rewrite !lookup_list_to_map_first;
    lazy beta iota zeta delta [first_with_key String.eqb Ascii.eqb Bool.eqb String.append];
    eexists _, _; (split; [reflexivity|]); (split; [reflexivity|]);
    eapply Hpair; reflexivity.
Qed.

Lemma humanitarian_with_and_without_witness :
  exists a b,
    humanitarian env_example vetoed_activity !! "uses_humanitarian_glide_codes" = Some a
    /\ humanitarian env_example vetoed_activity
         !! "uses_humanitarian_glide_codes_without_humanitarian" = Some b
    /\ a + b <= 1.
Proof.
  destruct (humanitarian_with_and_without env_example vetoed_activity
              "uses_humanitarian_glide_codes") as (a & b & Ha & Hb & _ & _ & Hab & _).
  - right. right. left. reflexivity.
  - exists a, b. auto.
Defined.

(** X26. When [is_humanitarian_by_attrib] is counted, so is
    [is_humanitarian]: the veto of the activity's own flag cannot apply to
    an activity that is humanitarian by attribute. Outside versions 2.02
    and 2.03, [is_humanitarian_by_attrib] is 0. *)
Theorem humanitarian_by_attrib_is_humanitarian (env : Env) (self : ActivityStats) :
  (humanitarian env self !! "is_humanitarian_by_attrib" = Some 1
   -> humanitarian env self !! "is_humanitarian" = Some 1)
  /\ (PyStr.mem (_version env self) ["2.02"; "2.03"] = false
      -> humanitarian env self !! "is_humanitarian_by_attrib" = Some 0).
Proof.
  assert (humanitarian env self !! "is_humanitarian_by_attrib"
          = Some (b2z (is_humanitarian_by_attrib env self))) as Hattrib.
  { unfold humanitarian. rewrite lookup_list_to_map_first. reflexivity. }
  rewrite Hattrib, humanitarian_is_humanitarian. split.
  - intros H. destruct (is_humanitarian_by_attrib env self) eqn:Hb; [|discriminate].
    by rewrite (is_humanitarian_by_attrib_is_humanitarian env self Hb).
  - intros H. unfold is_humanitarian_by_attrib. fold (in_202_203 env self) in H.
    by rewrite H.
Qed.
